(** * Form scripts of the travel doctypes: Travel Claim, Travel Authorization
      and Travel Adjustment

    The three client scripts register field-change handlers with the host
    framework.  This development embeds those handlers over an explicit
    model of what they touch: the store of open documents ([locals]), the
    display properties of the form's fields, the remote calls in flight and
    the messages shown to the user.

    - [JS]       the fragment of JavaScript values and operators the handlers use
    - [Frappe]   the host framework's primitives the handlers call
    - [TravelClaim], [TravelClaimItem], [TravelAuthorization],
      [TravelAuthorizationItem], [TravelAdjustmentItem]
                 the handlers themselves, one definition per source function
    - [Dispatch] the registrations and the dispatcher that ties the handlers
                 to field changes and to the responses of remote calls
    - [Session]  the vocabulary of the statements: reads, edits, requests
    - [Scenario] concrete forms and rows
    - [Page]     the calls of the page-level handlers ([setup], [onload],
                 [refresh], the button actions), with the handlers themselves
                 in [TravelClaimPage], [TravelAuthorizationPage] and
                 [TravelAdjustmentPage]
    - [Effects]  the vocabulary of the properties that span several handlers
    - [Cases]    further concrete sessions
    - then the properties of the handlers. *)

From Stdlib Require Import Floats ZArith.
From stdpp Require Import gmap strings list.

Open Scope string_scope.

(** ** JavaScript values and operators *)

Module JS.

(** A field of a document holds a primitive: nothing ([undefined], [null]),
    a boolean, a number (an IEEE 754 double) or a string.  Strings are
    sequences of bytes here; JavaScript compares UTF-16 code units, which is
    the same order on ASCII text such as date and currency codes. *)
Inductive value : Type :=
| Undefined
| Null
| Bool (b : bool)
| Num (x : float)
| Str (s : string).

(** The built-ins whose result depends on the text of a number.  They are
    left abstract: nothing below depends on how a numeral is read or
    printed, only on where the handlers call them. *)
Record builtins : Type := {
  (** [Number(s)]: [NaN] when [s] is no numeral (the empty string reads 0). *)
  StringToNumber : string -> float;
  (** [parseFloat(s)]: [NaN] when [s] starts with no numeral. *)
  parseFloat : string -> float;
  (** [String(x)] of a number. *)
  NumberToString : float -> string;
}.

(** [if (v)]: every value but [undefined], [null], [false], [0], [-0], [NaN]
    and the empty string is truthy. *)
Definition truthy (v : value) : bool :=
  match v with
  | Undefined | Null => false
  | Bool b => b
  | Num x => negb (PrimFloat.eqb x 0 || PrimFloat.is_nan x)
  | Str s => negb (String.eqb s "")
  end.

(** [x === y]: same type and same value; numbers by IEEE equality, so
    [NaN === NaN] is false and [0 === -0] is true. *)
Definition strict_eq (x y : value) : bool :=
  match x, y with
  | Undefined, Undefined => true
  | Null, Null => true
  | Bool a, Bool b => Bool.eqb a b
  | Num a, Num b => PrimFloat.eqb a b
  | Str a, Str b => String.eqb a b
  | _, _ => false
  end.

Section WithBuiltins.
Variable B : builtins.

(** [Number(v)]. *)
Definition to_number (v : value) : float :=
  match v with
  | Undefined => PrimFloat.nan
  | Null => 0%float
  | Bool b => if b then 1%float else 0%float
  | Num x => x
  | Str s => StringToNumber B s
  end.

(** [String(v)], as [+] applies it to a non-string operand. *)
Definition to_string (v : value) : string :=
  match v with
  | Undefined => "undefined"
  | Null => "null"
  | Bool b => if b then "true" else "false"
  | Num x => NumberToString B x
  | Str s => s
  end.

(** [x == y]: [undefined] and [null] equal each other and nothing else; two
    strings compare as strings; every other pair compares as numbers. *)
Definition loose_eq (x y : value) : bool :=
  match x, y with
  | (Undefined | Null), (Undefined | Null) => true
  | (Undefined | Null), _ | _, (Undefined | Null) => false
  | Str a, Str b => String.eqb a b
  | _, _ => PrimFloat.eqb (to_number x) (to_number y)
  end.

(** [x < y]: two strings compare lexicographically; every other pair
    compares as numbers, and a comparison with [NaN] is false. *)
Definition lt (x y : value) : bool :=
  match x, y with
  | Str a, Str b => String.ltb a b
  | _, _ => PrimFloat.ltb (to_number x) (to_number y)
  end.

(** [x + y] where one operand is a string: concatenation. *)
Definition concat (x y : value) : value :=
  Str (to_string x ++ to_string y).

End WithBuiltins.

End JS.

(** ** The host framework, as the scripts see it *)

Module Frappe.
Import JS.

(** A document, a child row or a response: an object with string keys.
    Reading a key that is absent gives [undefined]. *)
Definition get (o : gmap string value) (f : string) : value :=
  default Undefined (o !! f).

(** The form a script is attached to: [frm.doctype] and [frm.docname]. *)
Record form : Type := Form { doctype : string; docname : string }.

(** The functions the scripts hand to remote calls, each with the variables
    it closes over. *)
Inductive callback : Type :=
| claim_currency_cb (frm : form)
    (* travel_claim.js, get_employee_currency *)
| claim_exchange_rate_cb (frm : form) (company_currency : value)
    (* travel_claim.js, set_exchange_rate *)
| auth_currency_cb (frm : form)
    (* travel_authorization.js, get_employee_currency *)
| auth_exchange_rate_cb (frm : form) (company_currency : value)
    (* travel_authorization.js, set_exchange_rate *)
| auth_reports_to_cb (frm : form)
    (* travel_authorization.js, set_reports_to *)
| auth_approver_cb (frm : form).
    (* travel_authorization.js, set_approver *)

(** A remote call in flight. *)
Record request : Type := Request {
  method : string;
  args : list (string * value);
  on_response : callback;
}.

(** A message box: [msgprint(text)] or [frappe.msgprint({title, message, indicator})]. *)
Record message : Type := Message {
  title : option string;
  text : string;
  indicator : option string;
}.

(** One form session. *)
Record world : Type := World {
  (** [cur_frm]: the form the session edits. *)
  cur_frm : form;
  (** [locals[doctype][name]]: the open documents and child rows. *)
  locals : gmap (string * string) (gmap string value);
  (** Display properties of the form's fields, by (fieldname, property). *)
  df : gmap (string * string) value;
  (** Remote calls issued and not answered yet, oldest first. *)
  in_flight : list request;
  (** Messages shown so far, oldest first. *)
  shown : list message;
}.

(** What lies outside the scripts: the JavaScript built-ins, the translation
    table, the defaults of the site and the company master. *)
Record env : Type := Env {
  js : builtins;
  (** [__(text)]. *)
  translate : string -> string;
  (** [frappe.defaults.get_default(key)]. *)
  get_default : string -> value;
  (** The default currency the company master records for a company. *)
  default_currency : value -> value;
}.

(** Modelled from the spec: "another collaborator lookup keyed by the
    document's company field, or a global default company if company is
    unset" (section 4.2), [lookupCompanyDefaultCurrency(companyId | none) ->
    currencyCode] (section 6) -- [erpnext.get_currency(company)], which is
    not part of the scripts. *)
Definition get_currency (E : env) (company : value) : value :=
  if truthy company
  then default_currency E company
  else default_currency E (get_default E "Company").

(** Running script code either completes, throws (a property read on
    [undefined]) or exceeds the dispatch depth it was given. *)
Inductive result (A : Type) : Type :=
| Ok (a : A) (w : world)
| Throw
| OutOfFuel.
Arguments Ok {A} a w.
Arguments Throw {A}.
Arguments OutOfFuel {A}.

Definition M (A : Type) : Type := world -> result A.

Definition ret {A} (a : A) : M A := fun w => Ok a w.

Definition bind {A B} (m : M A) (k : A -> M B) : M B :=
  fun w => match m w with
           | Ok a w' => k a w'
           | Throw => Throw
           | OutOfFuel => OutOfFuel
           end.

Notation "x <- m ;; k" := (bind m (fun x => k))
  (at level 100, m at next level, right associativity).
Notation "m ;; k" := (bind m (fun _ => k))
  (at level 100, right associativity).

Definition when (b : bool) (m : M unit) : M unit := if b then m else ret tt.

(** [locals[cdt][cdn][f]]; reading a property of a row that is not there
    throws. *)
Definition field (cdt cdn f : string) : M value :=
  fun w => match locals w !! (cdt, cdn) with
           | Some d => Ok (get d f) w
           | None => Throw
           end.

(** [frm.doc[f]]. *)
Definition doc_field (frm : form) (f : string) : M value :=
  field (doctype frm) (docname frm) f.

(** Modelled from the spec: "field-visibility toggling, description-text
    setting" (section 6) -- [frm.set_df_property(fieldname, property, v)]
    records [v] as that property of the field. *)
Definition set_df_property (fieldname property : string) (v : value) : M unit :=
  fun w => Ok tt (World (cur_frm w) (locals w) (<[(fieldname, property) := v]> (df w))
                        (in_flight w) (shown w)).

(** Modelled from the spec: "each is a request/response call to a
    collaborator service" (section 5) -- [frappe.call({method, args,
    callback})] and [frappe.db.get_value] send the request and return; the
    callback runs when the response arrives ([Dispatch.respond]). *)
Definition call (q : request) : M unit :=
  fun w => Ok tt (World (cur_frm w) (locals w) (df w) (in_flight w ++ [q]) (shown w)).

(** Modelled from the spec: "validation-message display" (section 6) --
    [msgprint] and [frappe.msgprint] show a message and return. *)
Definition msgprint (m : message) : M unit :=
  fun w => Ok tt (World (cur_frm w) (locals w) (df w) (in_flight w) (shown w ++ [m])).

(** [frm.refresh_fields()] and [console.log]: redraw and trace, no state. *)
Definition refresh_fields : M unit := ret tt.
Definition console_log (s : string) : M unit := ret tt.

(** [doc[f] = v] on the row [locals[cdt][cdn]]. *)
Definition store (cdt cdn f : string) (v : value) (w : world) : world :=
  World (cur_frm w) (alter (insert f v) (cdt, cdn) (locals w)) (df w) (in_flight w) (shown w).

(** The dispatcher a handler calls back into: [run doctype event name] runs
    the handlers registered for [event] on [doctype] against the document or
    row [name]. *)
Definition dispatcher : Type := string -> string -> string -> M unit.

(** Modelled from the spec: "applies returned Field Update Instructions
    immediately (so later rules in the same dispatch, and any nested dispatch
    they trigger, observe fresh values)" (section 4.1) and "Applying it is
    idempotent if the value is unchanged -- no-op" (section 3) --
    [frappe.model.set_value(cdt, cdn, f, v)]: when the row exists and its
    field is not already [=== v], write the field, then run the handlers of
    [f] for that row; otherwise nothing. *)
Definition set_value (run : dispatcher) (cdt cdn f : string) (v : value) : M unit :=
  fun w => match locals w !! (cdt, cdn) with
           | Some d => if strict_eq (get d f) v then Ok tt w
                       else run cdt f cdn (store cdt cdn f v w)
           | None => Ok tt w
           end.

(** [frm.set_value(f, v)]: [set_value] on the form's own document. *)
Definition frm_set_value (run : dispatcher) (frm : form) (f : string) (v : value) : M unit :=
  set_value run (doctype frm) (docname frm) f v.

(** [frm.trigger(event)] and [frm.trigger(event, cdt, cdn)]. *)
Definition trigger (run : dispatcher) (frm : form) (event : string) : M unit :=
  run (doctype frm) event (docname frm).
Definition trigger_row (run : dispatcher) (event cdt cdn : string) : M unit :=
  run cdt event cdn.

(** Modelled from the spec: "coerced to 0 if non-numeric/missing" (section
    4.4) -- [flt(v)]: a number is itself, a string is what [parseFloat] reads
    in it, and whatever is missing or reads as no number is 0. *)
Definition flt (E : env) (v : value) : float :=
  match v with
  | Num x => x
  | Str s => let x := parseFloat (js E) s in
             if PrimFloat.is_nan x then 0%float else x
  | Undefined | Null | Bool _ => 0%float
  end.

End Frappe.

(** ** The scripts

    One definition per handler of the three scripts, under the name it has
    in the source, in a module per [frappe.ui.form.on] block.  [setup],
    [onload], [refresh] and the [make_*] button actions only touch the page
    (grid flags, link queries, buttons, routes); they follow further down,
    after the dispatcher. *)

(** *** travel_claim.js, [frappe.ui.form.on("Travel Claim", ...)] *)

Module TravelClaim.
Import JS Frappe.
Section Handlers.
Variable E : env.
Variable run : dispatcher.

Definition employee (frm : form) : M unit :=
  e <- doc_field frm "employee";;
  when (truthy e) (trigger run frm "get_employee_currency").

Definition get_employee_currency (frm : form) : M unit :=
  e <- doc_field frm "employee";;
  call (Request "frappe.db.get_value"
          [("doctype", Str "Salary Structure"); ("employee", e); ("fieldname", Str "currency")]
          (claim_currency_cb frm)).

(** The function [(r) => {...}] that [get_employee_currency] passes on. *)
Definition get_employee_currency_callback (frm : form) (r : gmap string value) : M unit :=
  (if truthy (get r "currency")
   then frm_set_value run frm "currency" (get r "currency")
   else company <- doc_field frm "company";;
        frm_set_value run frm "currency" (get_currency E company));;
  refresh_fields.

Definition set_exchange_rate (frm : form) (from_currency company_currency : value) : M unit :=
  call (Request "erpnext.setup.utils.get_exchange_rate"
          [("from_currency", from_currency); ("to_currency", company_currency)]
          (claim_exchange_rate_cb frm company_currency)).

(** The [callback: function (r) {...}] of [set_exchange_rate]. *)
Definition set_exchange_rate_callback (frm : form) (company_currency : value)
    (r : gmap string value) : M unit :=
  frm_set_value run frm "exchange_rate" (Num (flt E (get r "message")));;
  set_df_property "exchange_rate" "hidden" (Num 0);;
  currency <- doc_field frm "currency";;
  set_df_property "exchange_rate" "description"
    (concat (js E) (concat (js E) (concat (js E) (Str "1 ") currency) (Str " = [?] "))
       company_currency).

Definition currency (frm : form) : M unit :=
  c <- doc_field frm "currency";;
  when (truthy c)
    (let from_currency := c in
     company <- doc_field frm "company";;
     let company_currency :=
       if negb (truthy company)
       then get_currency E (get_default E "Company")
       else get_currency E company in
     (if negb (loose_eq (js E) from_currency company_currency)
      then set_exchange_rate frm from_currency company_currency
      else frm_set_value run frm "exchange_rate" (Num 1);;
           set_df_property "exchange_rate" "hidden" (Num 1);;
           set_df_property "exchange_rate" "description" (Str ""));;
     refresh_fields).

End Handlers.
End TravelClaim.

(** *** travel_claim.js, [frappe.ui.form.on("Travel Claim Item", ...)] *)

Module TravelClaimItem.
Import JS Frappe.
Section Handlers.
Variable E : env.
Variable run : dispatcher.

Definition mileage_rate (frm : form) (cdt cdn : string) : M unit :=
  trigger_row run "calculate" cdt cdn.

Definition distance (frm : form) (cdt cdn : string) : M unit :=
  trigger_row run "calculate" cdt cdn.

(** [row] is [locals[cdt][cdn]] itself, not a copy: the second statement
    reads the [mileage_amount] the first one has just written. *)
Definition calculate (frm : form) (cdt cdn : string) : M unit :=
  rate <- field cdt cdn "mileage_rate";;
  dist <- field cdt cdn "distance";;
  set_value run cdt cdn "mileage_amount" (Num (flt E rate * flt E dist));;
  mileage <- field cdt cdn "mileage_amount";;
  amount <- field cdt cdn "amount";;
  set_value run cdt cdn "amount" (Num (flt E mileage + flt E amount)).

End Handlers.
End TravelClaimItem.

(** *** travel_authorization.js, [frappe.ui.form.on("Travel Authorization", ...)] *)

Module TravelAuthorization.
Import JS Frappe.
Section Handlers.
Variable E : env.
Variable run : dispatcher.

Definition employee (frm : form) : M unit :=
  e <- doc_field frm "employee";;
  when (truthy e)
    (trigger run frm "get_employee_currency";;
     trigger run frm "set_reports_to";;
     trigger run frm "set_approver").

Definition get_employee_currency (frm : form) : M unit :=
  e <- doc_field frm "employee";;
  call (Request "frappe.db.get_value"
          [("doctype", Str "Salary Structure"); ("employee", e); ("fieldname", Str "currency")]
          (auth_currency_cb frm)).

Definition get_employee_currency_callback (frm : form) (r : gmap string value) : M unit :=
  (if truthy (get r "currency")
   then frm_set_value run frm "currency" (get r "currency")
   else company <- doc_field frm "company";;
        frm_set_value run frm "currency" (get_currency E company));;
  refresh_fields.

Definition set_exchange_rate (frm : form) (from_currency company_currency : value) : M unit :=
  call (Request "erpnext.setup.utils.get_exchange_rate"
          [("from_currency", from_currency); ("to_currency", company_currency)]
          (auth_exchange_rate_cb frm company_currency)).

Definition set_exchange_rate_callback (frm : form) (company_currency : value)
    (r : gmap string value) : M unit :=
  frm_set_value run frm "exchange_rate" (Num (flt E (get r "message")));;
  set_df_property "exchange_rate" "hidden" (Num 0);;
  currency <- doc_field frm "currency";;
  set_df_property "exchange_rate" "description"
    (concat (js E) (concat (js E) (concat (js E) (Str "1 ") currency) (Str " = [?] "))
       company_currency).

Definition currency (frm : form) : M unit :=
  c <- doc_field frm "currency";;
  when (truthy c)
    (let from_currency := c in
     company <- doc_field frm "company";;
     let company_currency :=
       if negb (truthy company)
       then get_currency E (get_default E "Company")
       else get_currency E company in
     (if negb (loose_eq (js E) from_currency company_currency)
      then set_exchange_rate frm from_currency company_currency
      else frm_set_value run frm "exchange_rate" (Num 1);;
           set_df_property "exchange_rate" "hidden" (Num 1);;
           set_df_property "exchange_rate" "description" (Str ""));;
     refresh_fields).

Definition set_reports_to (frm : form) : M unit :=
  e <- doc_field frm "employee";;
  when (truthy e)
    (console_log "hi";;
     e <- doc_field frm "employee";;
     call (Request "hrms.hr.hr_custom_function.get_reports_to" [("employee", e)]
             (auth_reports_to_cb frm))).

(** [r] is the response object, so [r && r.message] is [r.message]. *)
Definition set_reports_to_callback (frm : form) (r : gmap string value) : M unit :=
  when (truthy (get r "message")) (frm_set_value run frm "reports_to" (get r "message")).

Definition set_approver (frm : form) : M unit :=
  e <- doc_field frm "employee";;
  when (truthy e)
    (console_log "hi";;
     e <- doc_field frm "employee";;
     call (Request "hrms.hr.hr_custom_function.get_approver" [("employee", e)]
             (auth_approver_cb frm))).

Definition set_approver_callback (frm : form) (r : gmap string value) : M unit :=
  when (truthy (get r "message")) (frm_set_value run frm "approver" (get r "message")).

End Handlers.
End TravelAuthorization.

(** *** travel_authorization.js, [frappe.ui.form.on("Travel Authorization Item", ...)] *)

Module TravelAuthorizationItem.
Import JS Frappe.
Section Handlers.
Variable E : env.
Variable run : dispatcher.

Definition from_date (frm : form) (cdt cdn : string) : M unit :=
  halt <- field cdt cdn "halt";;
  from <- field cdt cdn "from_date";;
  to <- field cdt cdn "to_date";;
  when (negb (truthy halt) && negb (loose_eq (js E) from to))
    (when (truthy from) (set_value run cdt cdn "to_date" from)).

Definition to_date (frm : form) (cdt cdn : string) : M unit :=
  from <- field cdt cdn "from_date";;
  when (truthy from)
    (to <- field cdt cdn "to_date";;
     when (lt (js E) to from)
       (msgprint (Message None "To Date cannot be earlier than From Date" None);;
        set_value run cdt cdn "to_date" from)).

End Handlers.
End TravelAuthorizationItem.

(** *** The third script, [frappe.ui.form.on("Travel Adjustment Item", ...)] *)

Module TravelAdjustmentItem.
Import JS Frappe.
Section Handlers.
Variable E : env.
Variable run : dispatcher.

Definition from_date (frm : form) (cdt cdn : string) : M unit :=
  from <- field cdt cdn "from_date";;
  halt <- field cdt cdn "halt";;
  to <- field cdt cdn "to_date";;
  when (truthy from && negb (truthy halt) && negb (strict_eq from to))
    (set_value run cdt cdn "to_date" from).

Definition to_date (frm : form) (cdt cdn : string) : M unit :=
  from <- field cdt cdn "from_date";;
  to <- field cdt cdn "to_date";;
  when (truthy from && lt (js E) to from)
    (msgprint (Message (Some (translate E "Validation Error"))
                 (translate E "To Date cannot be earlier than From Date")
                 (Some "red"));;
     set_value run cdt cdn "to_date" from).

End Handlers.
End TravelAdjustmentItem.

(** ** Dispatch

    Modelled from the spec: "[dispatch(event)] looks up all rules for the
    event's (documentType, fieldName), invokes them in order against a
    mutable Document view ... No rule found => no-op, not an error" (section
    4.1).  The framework's dispatcher is not part of the scripts. *)

Module Dispatch.
Import JS Frappe.

(** A registered handler, given the dispatcher it calls back into. *)
Definition handler : Type := dispatcher -> form -> string -> string -> M unit.

(** The [frappe.ui.form.on(doctype, {event: function})] registrations of the
    three scripts.  A handler is called with the form, the doctype and the
    name of the document or row; [set_exchange_rate], which the [currency]
    handler calls directly with two currencies, is registered like the
    others. *)
Definition registry (E : env) : list (string * string * handler) :=
  [ ("Travel Claim", "employee", fun run frm _ _ => TravelClaim.employee run frm);
    ("Travel Claim", "get_employee_currency",
       fun run frm _ _ => TravelClaim.get_employee_currency frm);
    ("Travel Claim", "currency", fun run frm _ _ => TravelClaim.currency E run frm);
    ("Travel Claim", "set_exchange_rate",
       fun run frm cdt cdn => TravelClaim.set_exchange_rate frm (Str cdt) (Str cdn));
    ("Travel Claim Item", "mileage_rate", TravelClaimItem.mileage_rate);
    ("Travel Claim Item", "distance", TravelClaimItem.distance);
    ("Travel Claim Item", "calculate", TravelClaimItem.calculate E);
    ("Travel Authorization", "employee",
       fun run frm _ _ => TravelAuthorization.employee run frm);
    ("Travel Authorization", "get_employee_currency",
       fun run frm _ _ => TravelAuthorization.get_employee_currency frm);
    ("Travel Authorization", "currency",
       fun run frm _ _ => TravelAuthorization.currency E run frm);
    ("Travel Authorization", "set_exchange_rate",
       fun run frm cdt cdn => TravelAuthorization.set_exchange_rate frm (Str cdt) (Str cdn));
    ("Travel Authorization", "set_reports_to",
       fun run frm _ _ => TravelAuthorization.set_reports_to frm);
    ("Travel Authorization", "set_approver",
       fun run frm _ _ => TravelAuthorization.set_approver frm);
    ("Travel Authorization Item", "from_date", TravelAuthorizationItem.from_date E);
    ("Travel Authorization Item", "to_date", TravelAuthorizationItem.to_date E);
    ("Travel Adjustment Item", "from_date", TravelAdjustmentItem.from_date);
    ("Travel Adjustment Item", "to_date", TravelAdjustmentItem.to_date E) ].

Fixpoint lookup_handler (t : list (string * string * handler)) (dt ev : string)
    : option handler :=
  match t with
  | [] => None
  | (dt', ev', h) :: t' =>
      if String.eqb dt dt' && String.eqb ev ev' then Some h else lookup_handler t' dt ev
  end.

(** [fire E depth doctype event name]: run the handler of [event] on
    [doctype] against [name], for the session's form.  A handler may set
    fields and trigger events, which dispatches again, one level deeper;
    [depth] bounds the nesting. *)
Fixpoint fire (E : env) (depth : nat) : dispatcher :=
  fun dt ev name =>
    match lookup_handler (registry E) dt ev with
    | None => ret tt
    | Some h =>
        match depth with
        | O => fun _ => OutOfFuel
        | S depth' => fun w => h (fire E depth') (cur_frm w) dt name w
        end
    end.

(** A mutation event: the user (or a script of the page) sets field [f] of
    the document or row [cdn] of type [cdt] to [v]. *)
Definition edit (E : env) (depth : nat) (cdt cdn f : string) (v : value) : M unit :=
  set_value (fire E depth) cdt cdn f v.

(** The callback of a request, applied to the response [r]. *)
Definition run_callback (E : env) (run : dispatcher) (cb : callback)
    (r : gmap string value) : M unit :=
  match cb with
  | claim_currency_cb frm => TravelClaim.get_employee_currency_callback E run frm r
  | claim_exchange_rate_cb frm company_currency =>
      TravelClaim.set_exchange_rate_callback E run frm company_currency r
  | auth_currency_cb frm => TravelAuthorization.get_employee_currency_callback E run frm r
  | auth_exchange_rate_cb frm company_currency =>
      TravelAuthorization.set_exchange_rate_callback E run frm company_currency r
  | auth_reports_to_cb frm => TravelAuthorization.set_reports_to_callback run frm r
  | auth_approver_cb frm => TravelAuthorization.set_approver_callback run frm r
  end.

(** The response [r] to the [i]-th request in flight arrives: the request
    is no longer in flight and its callback runs. *)
Definition respond (E : env) (depth : nat) (i : nat) (r : gmap string value) : M unit :=
  fun w =>
    match in_flight w !! i with
    | None => Ok tt w
    | Some q =>
        run_callback E (fire E depth) (on_response q) r
          (World (cur_frm w) (locals w) (df w) (delete i (in_flight w)) (shown w))
    end.

(** The events that have a handler on some doctype. *)
Definition handled_events (E : env) : list string := map (fun e => snd (fst e)) (registry E).

End Dispatch.

(** ** Reading a session

    The vocabulary of the properties below. *)

Module Session.
Import JS Frappe Dispatch.

(** What field [f] of the row [locals[cdt][cdn]] holds. *)
Definition read (w : world) (cdt cdn f : string) : value :=
  match locals w !! (cdt, cdn) with
  | Some d => get d f
  | None => Undefined
  end.

(** The field update as [set_value] applies it: none when the field is
    already [===] to [v]. *)
Definition write (cdt cdn f : string) (v : value) (w : world) : world :=
  if strict_eq (read w cdt cdn f) v then w else store cdt cdn f v w.

(** The stored value [x] is [y], up to [===]: [set_value] leaves a stored
    value alone when it is already [===] to the new one, so a stored [-0]
    stays when [0] is written. *)
Definition holds (x y : value) : Prop := x = y \/ strict_eq x y = true.

(** The resolved company currency of a document: the default currency of
    its company, or of the site's default company when it names none. *)
Definition resolved_company_currency (E : env) (d : gmap string value) : value :=
  if truthy (get d "company")
  then default_currency E (get d "company")
  else default_currency E (get_default E "Company").

(** The two parent forms that carry the currency rules, and the two child
    tables that carry the date rules. *)
Definition currency_forms : list string := ["Travel Claim"; "Travel Authorization"].
Definition date_tables : list string :=
  ["Travel Authorization Item"; "Travel Adjustment Item"].

(** [to_date >= from_date] whenever both are set: not ([to_date < from_date]). *)
Definition dates_in_order (B : builtins) (d : gmap string value) : bool :=
  negb (truthy (get d "from_date") && truthy (get d "to_date")
        && lt B (get d "to_date") (get d "from_date")).

(** The test of the [from_date] handler of table [dt]: the two scripts
    differ in the comparison, [!=] in one and [!==] in the other. *)
Definition autofills (E : env) (dt : string) (d : gmap string value) : bool :=
  truthy (get d "from_date") && negb (truthy (get d "halt"))
  && negb (if String.eqb dt "Travel Adjustment Item"
           then strict_eq (get d "from_date") (get d "to_date")
           else loose_eq (js E) (get d "from_date") (get d "to_date")).

(** The row [cdn] of table [dt] has its dates in order; a row that is not
    open has no dates to compare. *)
Definition row_in_order (B : builtins) (w : world) (dt cdn : string) : bool :=
  match locals w !! (dt, cdn) with
  | Some d => dates_in_order B d
  | None => true
  end.

(** The message the date rule of table [dt] shows. *)
Definition date_diagnostic (E : env) (dt : string) : message :=
  if String.eqb dt "Travel Adjustment Item"
  then Message (Some (translate E "Validation Error"))
               (translate E "To Date cannot be earlier than From Date") (Some "red")
  else Message None "To Date cannot be earlier than From Date" None.

(** An edit of one of the two dates of a row. *)
Inductive date_edit : Type :=
| SetFrom (v : value)
| SetTo (v : value).

Definition is_to_edit (e : date_edit) : bool :=
  match e with
  | SetTo _ => true
  | SetFrom _ => false
  end.

Definition apply_edit (E : env) (depth : nat) (dt cdn : string) (e : date_edit) : M unit :=
  match e with
  | SetFrom v => edit E depth dt cdn "from_date" v
  | SetTo v => edit E depth dt cdn "to_date" v
  end.

(** A sequence of edits, each dispatched to the end before the next. *)
Fixpoint apply_edits (E : env) (depth : nat) (dt cdn : string) (es : list date_edit)
    : M unit :=
  match es with
  | [] => ret tt
  | e :: es' => apply_edit E depth dt cdn e;; apply_edits E depth dt cdn es'
  end.

(** The session after one more message. *)
Definition with_message (m : message) (w : world) : world :=
  World (cur_frm w) (locals w) (df w) (in_flight w) (shown w ++ [m]).

(** The session after one more request, and after a display property is set. *)
Definition with_request (q : request) (w : world) : world :=
  World (cur_frm w) (locals w) (df w) (in_flight w ++ [q]) (shown w).

Definition without_request (i : nat) (w : world) : world :=
  World (cur_frm w) (locals w) (df w) (delete i (in_flight w)) (shown w).

Definition with_property (fieldname property : string) (v : value) (w : world) : world :=
  World (cur_frm w) (locals w) (<[(fieldname, property) := v]> (df w)) (in_flight w)
        (shown w).

(** The exchange-rate request of form [frm], from currency [c] to [cc]. *)
Definition exchange_request (frm : form) (c cc : value) : request :=
  Request "erpnext.setup.utils.get_exchange_rate"
    [("from_currency", c); ("to_currency", cc)]
    (if String.eqb (doctype frm) "Travel Claim"
     then claim_exchange_rate_cb frm cc
     else auth_exchange_rate_cb frm cc).

(** The salary-structure lookup of form [frm] for employee [e]. *)
Definition salary_request (frm : form) (e : value) : request :=
  Request "frappe.db.get_value"
    [("doctype", Str "Salary Structure"); ("employee", e); ("fieldname", Str "currency")]
    (if String.eqb (doctype frm) "Travel Claim"
     then claim_currency_cb frm
     else auth_currency_cb frm).

(** The two lookups the Travel Authorization form adds for employee [e]. *)
Definition reports_to_request (frm : form) (e : value) : request :=
  Request "hrms.hr.hr_custom_function.get_reports_to" [("employee", e)]
    (auth_reports_to_cb frm).

Definition approver_request (frm : form) (e : value) : request :=
  Request "hrms.hr.hr_custom_function.get_approver" [("employee", e)]
    (auth_approver_cb frm).

(** The text ["1 <FROM> = [?] <TO>"]. *)
Definition rate_description (B : builtins) (from_currency to_currency : value) : value :=
  Str ("1 " ++ to_string B from_currency ++ " = [?] " ++ to_string B to_currency).

(** The run did not exceed its dispatch depth. *)
Definition terminated {A} (r : result A) : bool :=
  match r with
  | OutOfFuel => false
  | _ => true
  end.

(** A computation indexed by the depth it may use is steady when more depth
    changes nothing and the least depth is enough. *)
Definition steady {A} (m : nat -> M A) : Prop :=
  forall n w, m n w = m 0 w /\ terminated (m 0 w) = true.

(** The events whose handlers dispatch again. *)
Definition nesting_events : list string :=
  ["employee"; "mileage_rate"; "distance"; "from_date"; "to_date"].

(** [w'] has the form of [w] and every document and row open in [w]. *)
Definition extends (w w' : world) : Prop :=
  cur_frm w' = cur_frm w /\
  forall k, is_Some (locals w !! k) -> is_Some (locals w' !! k).

(** On the form [frm], with the documents and rows [K] open, [m] does not
    throw, and leaves open what was. *)
Definition sound_on {A} (frm : form) (K : list (string * string)) (m : M A) : Prop :=
  forall w,
    cur_frm w = frm ->
    (forall k, In k K -> is_Some (locals w !! k)) ->
    match m w with
    | Ok _ w' => extends w w'
    | Throw => False
    | OutOfFuel => True
    end.

(** The form a callback closed over. *)
Definition callback_form (cb : callback) : form :=
  match cb with
  | claim_currency_cb frm | claim_exchange_rate_cb frm _
  | auth_currency_cb frm | auth_exchange_rate_cb frm _
  | auth_reports_to_cb frm | auth_approver_cb frm => frm
  end.

(** The document of the session's form is open. *)
Definition form_open (w : world) : Prop :=
  is_Some (locals w !! (doctype (cur_frm w), docname (cur_frm w))).

(** The world a run ends in (the starting one if it does not complete). *)
Definition final {A} (w : world) (r : result A) : world :=
  match r with
  | Ok _ w' => w'
  | _ => w
  end.

End Session.

(** ** Worked sessions

    The concrete sessions the examples below run.  None of them reads a
    number from text or prints one, so the readers of numerals are left
    trivial. *)

Module Scenario.
Import JS Frappe Dispatch Session.

Definition plain : builtins :=
  {| StringToNumber := fun _ => PrimFloat.nan;
     parseFloat := fun _ => PrimFloat.nan;
     NumberToString := fun _ => "" |}.

(** A site whose default company is "Default Co".  The companies "ACME" and
    "Default Co" keep their books in INR, every other one in USD. *)
Definition site : env :=
  {| js := plain;
     translate := fun s => s;
     get_default := fun key => if String.eqb key "Company" then Str "Default Co" else Undefined;
     default_currency := fun company =>
       if strict_eq company (Str "ACME") || strict_eq company (Str "Default Co")
       then Str "INR" else Str "USD" |}.

Definition claim_form : form := Form "Travel Claim" "TC-0001".
Definition auth_form : form := Form "Travel Authorization" "TA-0001".

(** A claim of company ACME with one item: rate 2, distance 3, amount 0. *)
Definition mileage_row : gmap string value :=
  {[ "mileage_rate" := Num 2; "distance" := Num 3; "amount" := Num 0 ]}.

Definition mileage_session : world :=
  World claim_form
    {[ ("Travel Claim", "TC-0001") := {[ "company" := Str "ACME" ]};
       ("Travel Claim Item", "row-1") := mileage_row ]}
    ∅ [] [].

(** A claim of company ACME in USD, one in INR, and one with no currency yet. *)
Definition usd_claim : gmap string value :=
  {[ "company" := Str "ACME"; "currency" := Str "USD" ]}.
Definition inr_claim : gmap string value :=
  {[ "company" := Str "ACME"; "currency" := Str "INR" ]}.
Definition blank_claim : gmap string value :=
  {[ "company" := Str "ACME" ]}.

Definition claim_session (doc : gmap string value) : world :=
  World claim_form {[ ("Travel Claim", "TC-0001") := doc ]} ∅ [] [].

(** A claim with an employee and no company. *)
Definition unassigned_claim : gmap string value :=
  {[ "employee" := Str "EMP-0001" ]}.

(** An authorization with one halted item dated 2025-01-10 to 2025-01-10,
    and the same item with [halt] off. *)
Definition halted_row : gmap string value :=
  {[ "from_date" := Str "2025-01-10"; "to_date" := Str "2025-01-10"; "halt" := Bool true ]}.
Definition open_row : gmap string value :=
  {[ "from_date" := Str "2025-01-10"; "to_date" := Str "2025-01-10"; "halt" := Bool false ]}.

Definition trip_session (row : gmap string value) : world :=
  World auth_form
    {[ ("Travel Authorization", "TA-0001") := {[ "company" := Str "ACME" ]};
       ("Travel Authorization Item", "row-1") := row ]}
    ∅ [] [].

(** The currency of a blank claim is set to USD, then to EUR before the
    first rate has arrived: two requests are in flight. *)
Definition two_requests : world :=
  final (claim_session blank_claim)
    ((edit site 2 "Travel Claim" "TC-0001" "currency" (Str "USD");;
      edit site 2 "Travel Claim" "TC-0001" "currency" (Str "EUR"))
       (claim_session blank_claim)).

End Scenario.

(** ** The page-level handlers

    [setup], [onload], [refresh] and the [make_*] button actions set no
    field: they read the document and call the framework (link queries,
    grid flags, markup, buttons, remote calls, routes).  They are embedded
    as functions from the session to the calls they make, in order. *)

Module Page.
Import JS Frappe.

(** What a custom button runs when it is clicked:
    [function () { frm.events.make_travel_...(frm); }]. *)
Inductive action : Type :=
| make_travel_advance_of (frm : form)
| make_travel_claim_of (frm : form)
| make_travel_adjustment_of (frm : form).

(** The functions the page-level handlers hand to their calls. *)
Inductive continuation : Type :=
| refresh_then (frm : form)
    (* travel_authorization.js, refresh *)
| make_travel_claim_cb
    (* travel_authorization.js, make_travel_claim *)
| make_travel_advance_cb.
    (* travel_authorization.js, make_travel_advance *)

(** What the server sends back for a document it made: nothing, one
    document, or a list of them. *)
Inductive reply : Type :=
| no_reply
| one_document (d : gmap string value)
| documents (ds : list (gmap string value)).

(** The calls a page-level handler makes on the framework, each with its
    arguments. *)
Inductive effect : Type :=
| set_query (frm : form) (fieldname : string) (filters : list (string * value))
    (* frm.set_query(fieldname, function () { return { filters }; }) *)
| cannot_add_rows (frm : form) (table : string)
    (* frm.fields_dict[table].grid.cannot_add_rows = true *)
| html (frm : form) (fieldname : string) (markup : value)
    (* $(frm.fields_dict[fieldname].wrapper).html(markup) *)
| frm_call (frm : form) (method : string) (k : continuation)
    (* frm.call(method).then(k) *)
| frappe_call (method : string) (args : list (string * value)) (k : continuation)
    (* frappe.call({ method, args, callback: k }) *)
| add_custom_button (frm : form) (label : string) (act : action) (group : string)
    (* frm.add_custom_button(label, act, group) *)
| open_mapped_doc (method : string) (frm : form)
    (* frappe.model.open_mapped_doc({ method, frm }) *)
| model_sync (r : reply)
    (* frappe.model.sync(r) *)
| set_route (path : list value).
    (* frappe.set_route(...path) *)

(** What the page-level handlers ask of the framework besides: whether the
    user may create a doctype ([frappe.model.can_create]), and the documents
    [frappe.model.sync] hands back.  Both are left open. *)
Record desk : Type := Desk {
  can_create : string -> bool;
  sync : reply -> list (gmap string value);
}.

(** A page-level handler reads the session and calls the framework; it runs
    to the end, or throws after the calls made so far. *)
Definition P (A : Type) : Type := world -> list effect * option A.

Definition pure {A} (a : A) : P A := fun _ => ([], Some a).

Definition then_ {A B} (m : P A) (k : A -> P B) : P B :=
  fun w => match m w with
           | (es, Some a) => match k a w with (es', r) => ((es ++ es')%list, r) end
           | (es, None) => (es, None)
           end.

Declare Scope page_scope.
Delimit Scope page_scope with page.
Notation "x <- m ;; k" := (then_ m (fun x => k))
  (at level 100, m at next level, right associativity) : page_scope.
Notation "m ;; k" := (then_ m (fun _ => k))
  (at level 100, right associativity) : page_scope.

Definition emit (e : effect) : P unit := fun _ => ([e], Some tt).

Definition throw {A} : P A := fun _ => ([], None).

Definition if_ (b : bool) (m : P unit) : P unit := if b then m else pure tt.

(** [frm.doc[f]]. *)
Definition page_field (frm : form) (f : string) : P value :=
  fun w => match locals w !! (doctype frm, docname frm) with
           | Some d => ([], Some (get d f))
           | None => ([], None)
           end.

(** The global [cur_frm]. *)
Definition current : P form := fun w => ([], Some (cur_frm w)).

(** [o.f] where [o] may be [undefined]: reading a property of it throws. *)
Definition object {A} (o : option A) : P A :=
  match o with
  | Some a => pure a
  | None => throw
  end.

(** The double quote, which the markup of [refresh_html] is full of. *)
Definition dq : string :=
  String (Ascii.Ascii false true false false false true false false) "".

End Page.

(** *** travel_claim.js, the page-level handlers of "Travel Claim" *)

Module TravelClaimPage.
Import JS Frappe Page.
Local Open Scope page_scope.
Section Handlers.
Variable E : env.

Definition onload (frm : form) : P unit :=
  emit (cannot_add_rows frm "items").

(** [var refresh_html = function(frm){...}]: the chain of [+] associates to
    the left and starts from a string, so every [+] concatenates. *)
Definition refresh_html (frm : form) : P unit :=
  status <- page_field frm "journal_entry_status";;
  let journal_entry_status :=
    if truthy status
    then concat (js E)
           (concat (js E)
              (Str ("<div style=" ++ dq ++ "font-style: italic; font-size: 0.8em; " ++ dq
                    ++ ">* "))
              status)
           (Str "</div>")
    else Str "" in
  journal_entry <- page_field frm "journal_entry";;
  if_ (truthy journal_entry)
    (cur <- current;;
     emit (html cur "journal_entry_html"
             (concat (js E)
                (concat (js E)
                   (concat (js E)
                      (concat (js E)
                         (concat (js E)
                            (concat (js E)
                               (concat (js E)
                                  (Str ("<label class=" ++ dq ++ "control-label" ++ dq
                                        ++ " style=" ++ dq ++ "padding-right: 0px;" ++ dq
                                        ++ ">Journal Entry</label><br><b>"))
                                  (Str ("<a href=" ++ dq ++ "/desk/Form/Journal Entry/")))
                               journal_entry)
                            (Str (dq ++ ">")))
                         journal_entry)
                      (Str "</a> "))
                   (Str "</b>"))
                journal_entry_status))).

Definition refresh (frm : form) : P unit := refresh_html frm.

End Handlers.
End TravelClaimPage.

(** *** travel_authorization.js, the page-level handlers of "Travel Authorization" *)

Module TravelAuthorizationPage.
Import JS Frappe Page.
Local Open Scope page_scope.
Section Handlers.
Variable E : env.
Variable D : desk.

Definition setup (frm : form) : P unit :=
  emit (set_query frm "employee" [("status", Str "Active")]).

Definition refresh (frm : form) : P unit :=
  emit (frm_call frm "has_travel_claim" (refresh_then frm)).

(** The function [(r) => {...}] that [refresh] passes to [then]; [message]
    is [r.message], an object when the server answered.  The third button
    goes to [cur_frm], the other two to [frm]. *)
Definition refresh_callback (frm : form) (message : option (gmap string value)) : P unit :=
  m <- object message;;
  if_ (negb (truthy (get m "has_travel_claim")))
    (docstatus <- page_field frm "docstatus";;
     if_ (strict_eq docstatus (Num 1) && can_create D "Travel Advance")
       (emit (add_custom_button frm (translate E "Advance") (make_travel_advance_of frm)
                (translate E "Create")));;
     docstatus <- page_field frm "docstatus";;
     if_ (strict_eq docstatus (Num 1) && can_create D "Travel Claim")
       (emit (add_custom_button frm (translate E "Travel Claim") (make_travel_claim_of frm)
                (translate E "Create")));;
     docstatus <- page_field frm "docstatus";;
     if_ (strict_eq docstatus (Num 1) && can_create D "Travel Adjustment")
       (cur <- current;;
        emit (add_custom_button cur (translate E "Travel Adjustment")
                (make_travel_adjustment_of frm) (translate E "Create")))).

Definition make_travel_claim (frm : form) : P unit :=
  dt <- page_field frm "doctype";;
  dn <- page_field frm "name";;
  emit (frappe_call "hrms.hr.doctype.travel_claim.travel_claim.get_travel_claim"
          [("dt", dt); ("dn", dn)] make_travel_claim_cb).

(** The [callback: function (r) {...}] of [make_travel_claim]; [message] is
    [r.message].  [doclist[0]] is read twice; it throws when there is none. *)
Definition make_travel_claim_callback (message : reply) : P unit :=
  emit (model_sync message);;
  let doclist := sync D message in
  first <- object (head doclist);;
  emit (set_route [Str "Form"; get first "doctype"; get first "name"]).

(** [frm] is passed in and not used: the document mapped is [cur_frm]'s. *)
Definition make_travel_adjustment (frm : form) : P unit :=
  cur <- current;;
  emit (open_mapped_doc
          "hrms.hr.doctype.travel_adjustment.travel_adjustment.make_travel_adjustment" cur).

Definition make_travel_advance (frm : form) : P unit :=
  dt <- page_field frm "doctype";;
  dn <- page_field frm "name";;
  emit (frappe_call "hrms.hr.doctype.travel_advance.travel_advance.make_travel_advance"
          [("dt", dt); ("dn", dn)] make_travel_advance_cb).

Definition make_travel_advance_callback (message : reply) : P unit :=
  emit (model_sync message);;
  let doclist := sync D message in
  first <- object (head doclist);;
  emit (set_route [Str "Form"; get first "doctype"; get first "name"]).

(** A click on a custom button runs the function it was added with. *)
Definition click (a : action) : P unit :=
  match a with
  | make_travel_advance_of frm => make_travel_advance frm
  | make_travel_claim_of frm => make_travel_claim frm
  | make_travel_adjustment_of frm => make_travel_adjustment frm
  end.

End Handlers.
End TravelAuthorizationPage.

(** *** The third script, the page-level handler of "Travel Adjustment" *)

Module TravelAdjustmentPage.
Import JS Frappe Page.

Definition setup (frm : form) : P unit :=
  emit (set_query frm "employee" [("status", Str "Active")]).

End TravelAdjustmentPage.

(** ** What a run may do to a session

    More vocabulary, for the properties that span several handlers. *)

Module Effects.
Import JS Frappe Dispatch Session.

(** The session after the requests [qs], in the order sent. *)
Definition with_requests (qs : list request) (w : world) : world :=
  World (cur_frm w) (locals w) (df w) (in_flight w ++ qs) (shown w).

(** [m], [n] times over. *)
Fixpoint times (n : nat) (m : M unit) : M unit :=
  match n with
  | O => ret tt
  | S n' => m;; times n' m
  end.

(** A date as the framework keeps it: a text, or nothing. *)
Definition text_or_unset (v : value) : bool :=
  match v with
  | Str _ | Undefined | Null => true
  | Bool _ | Num _ => false
  end.

Definition is_number (v : value) : bool :=
  match v with
  | Num _ => true
  | _ => false
  end.

(** The handlers registered on the three child tables, by table and event. *)
Definition row_events : list (string * string) :=
  [ ("Travel Claim Item", "mileage_rate"); ("Travel Claim Item", "distance");
    ("Travel Claim Item", "calculate");
    ("Travel Authorization Item", "from_date"); ("Travel Authorization Item", "to_date");
    ("Travel Adjustment Item", "from_date"); ("Travel Adjustment Item", "to_date") ].

(** The fields the scripts set: every [set_value] of the three scripts names
    one of them. *)
Definition derived_fields : list string :=
  ["currency"; "exchange_rate"; "reports_to"; "approver";
   "mileage_amount"; "amount"; "to_date"].

(** The server methods the field handlers call, and the messages they show. *)
Definition remote_methods : list string :=
  ["frappe.db.get_value"; "erpnext.setup.utils.get_exchange_rate";
   "hrms.hr.hr_custom_function.get_reports_to"; "hrms.hr.hr_custom_function.get_approver"].

Definition diagnostics (E : env) : list message :=
  [date_diagnostic E "Travel Authorization Item"; date_diagnostic E "Travel Adjustment Item"].

(** [w'] has grown out of [w]: the same form, the same documents and rows
    open, every field but the derived ones as it was, requests to the four
    methods and date diagnostics added at the end, and no display property
    changed but those of [exchange_rate]. *)
Definition grows (E : env) (w w' : world) : Prop :=
  cur_frm w' = cur_frm w /\
  (forall k, is_Some (locals w' !! k) <-> is_Some (locals w !! k)) /\
  (forall cdt cdn f, ~ In f derived_fields -> read w' cdt cdn f = read w cdt cdn f) /\
  (exists qs, in_flight w' = in_flight w ++ qs /\
              Forall (fun q => In (method q) remote_methods) qs)%list /\
  (exists ms, shown w' = shown w ++ ms /\
              Forall (fun m => In m (diagnostics E)) ms)%list /\
  (forall f p, f <> "exchange_rate" -> df w' !! (f, p) = df w !! (f, p)).

(** Whatever [m] completes with has grown out of what it started from. *)
Definition keeps {A} (E : env) (m : M A) : Prop :=
  forall w, grows E w (final w (m w)).

(** The (doctype, event) pairs the scripts register a handler for. *)
Definition registered : list (string * string) :=
  [ ("Travel Claim", "employee"); ("Travel Claim", "get_employee_currency");
    ("Travel Claim", "currency"); ("Travel Claim", "set_exchange_rate");
    ("Travel Claim Item", "mileage_rate"); ("Travel Claim Item", "distance");
    ("Travel Claim Item", "calculate");
    ("Travel Authorization", "employee"); ("Travel Authorization", "get_employee_currency");
    ("Travel Authorization", "currency"); ("Travel Authorization", "set_exchange_rate");
    ("Travel Authorization", "set_reports_to"); ("Travel Authorization", "set_approver");
    ("Travel Authorization Item", "from_date"); ("Travel Authorization Item", "to_date");
    ("Travel Adjustment Item", "from_date"); ("Travel Adjustment Item", "to_date") ].

(** The handlers of the two parent forms among them. *)
Definition form_events : list (string * string) :=
  [ ("Travel Claim", "employee"); ("Travel Claim", "get_employee_currency");
    ("Travel Claim", "currency"); ("Travel Claim", "set_exchange_rate");
    ("Travel Authorization", "employee"); ("Travel Authorization", "get_employee_currency");
    ("Travel Authorization", "currency"); ("Travel Authorization", "set_exchange_rate");
    ("Travel Authorization", "set_reports_to"); ("Travel Authorization", "set_approver") ].

(** What a request in flight may still cost: the salary lookup can be
    followed by a rate request, the others by nothing. *)
Definition weight_of (q : request) : nat :=
  match on_response q with
  | claim_currency_cb _ | auth_currency_cb _ => 2
  | _ => 1
  end.

Definition weight (w : world) : nat := list_sum (map weight_of (in_flight w)).

(** [delivers E depth w n w']: from [w], [n] responses arrive one after the
    other, each for a request that is in flight when it arrives, and each
    handled to the end; [w'] is the session after the last. *)
Inductive delivers (E : env) (depth : nat) : world -> nat -> world -> Prop :=
| delivers_none w : delivers E depth w 0 w
| delivers_one w i r q w1 n w2 :
    in_flight w !! i = Some q ->
    respond E depth i r w = Ok tt w1 ->
    delivers E depth w1 n w2 ->
    delivers E depth w (S n) w2.

(** [w'] is [w] outside the documents and rows [K]. *)
Definition touches (K : list (string * string)) (w w' : world) : Prop :=
  forall k, ~ In k K -> locals w' !! k = locals w !! k.

(** On the form [frm], [m] changes documents and rows of [K] only. *)
Definition confined {A} (frm : form) (K : list (string * string)) (m : M A) : Prop :=
  forall w,
    cur_frm w = frm ->
    match m w with
    | Ok _ w' => cur_frm w' = frm /\ touches K w w'
    | _ => True
    end.

End Effects.

(** ** More worked sessions *)

Module Cases.
Import JS Frappe Dispatch Session Scenario Page.

(** The authorization of [trip_session] after its employee is set: the three
    lookups are in flight. *)
Definition staffed_trip : world :=
  final (trip_session open_row)
    (edit site 2 "Travel Authorization" "TA-0001" "employee" (Str "EMP-0001")
       (trip_session open_row)).

(** The claim of an employee, its salary lookup in flight. *)
Definition awaiting_salary : world :=
  final (claim_session unassigned_claim)
    (fire site 2 "Travel Claim" "employee" "TC-0001" (claim_session unassigned_claim)).

(** An item that is halted, with its [to_date] before its [from_date]. *)
Definition late_row : gmap string value :=
  {[ "from_date" := Str "2025-01-15"; "to_date" := Str "2025-01-10"; "halt" := Bool true ]}.

(** A claim with one item that has nothing filled in. *)
Definition blank_item_session : world :=
  World claim_form
    {[ ("Travel Claim", "TC-0001") := {[ "company" := Str "ACME" ]};
       ("Travel Claim Item", "row-1") := ∅ ]}
    ∅ [] [].

(** The salary structure is in USD: the rate is asked for; then 83.5 comes
    back. *)
Definition rate_requested : world :=
  final awaiting_salary (respond site 1 0 {[ "currency" := Str "USD" ]} awaiting_salary).

Definition rate_applied : world :=
  final rate_requested (respond site 1 0 {[ "message" := Num 83.5 ]} rate_requested).

(** A submitted authorization, open as the current form. *)
Definition submitted_trip : gmap string value :=
  {[ "doctype" := Str "Travel Authorization"; "name" := Str "TA-0001";
     "docstatus" := Num 1 ]}.

Definition submitted_session : world :=
  World auth_form {[ ("Travel Authorization", "TA-0001") := submitted_trip ]} ∅ [] [].

(** A user who may create advances and adjustments, not claims; the server
    replies with one document, which [sync] hands back. *)
Definition clerk : desk :=
  {| can_create := fun dt => negb (String.eqb dt "Travel Claim");
     sync := fun r => match r with
                      | no_reply => []
                      | one_document d => [d]
                      | documents ds => ds
                      end |}.

(** A claim that has been booked. *)
Definition booked_claim : gmap string value :=
  {[ "journal_entry" := Str "JV-0001"; "journal_entry_status" := Str "Submitted" ]}.

End Cases.

(** * Properties *)

(** ** Comparisons *)

Module JSFacts.
Import JS.

Lemma SFcompare_Eq_sym x y : SFcompare x y = Some Eq -> SFcompare y x = Some Eq.
Proof.
  destruct x as [sx|sx| |sx mx ex], y as [sy|sy| |sy my ey]; simpl; try discriminate;
    try (destruct sx; discriminate); try (destruct sy; discriminate); try reflexivity.
  - destruct sx, sy; try discriminate; reflexivity.
  - destruct sx, sy; try discriminate;
      (destruct (Z.compare ex ey) eqn:He; try discriminate;
       apply Z.compare_eq in He; subst; rewrite Z.compare_refl;
       destruct (Pos.compare_cont Eq mx my) eqn:Hm; try discriminate;
       apply Pos.compare_eq in Hm; subst; rewrite Pos.compare_cont_refl; reflexivity).
Qed.

Lemma SFcompare_diag x : SFcompare x x = Some Eq \/ SFcompare x x = None.
Proof.
  destruct x as [sx|sx| |sx mx ex]; simpl; auto.
  - destruct sx; auto.
  - left. destruct sx; rewrite Z.compare_refl, Pos.compare_cont_refl; reflexivity.
Qed.

Lemma float_eqb_ltb a b : PrimFloat.eqb a b = true -> PrimFloat.ltb b a = false.
Proof.
  rewrite FloatAxioms.eqb_spec, FloatAxioms.ltb_spec. unfold SFeqb, SFltb.
  destruct (SFcompare (Prim2SF a) (Prim2SF b)) as [[]|] eqn:H; try discriminate.
  intros _. now rewrite (SFcompare_Eq_sym _ _ H).
Qed.

Lemma float_eqb_sym a b : PrimFloat.eqb a b = PrimFloat.eqb b a.
Proof.
  rewrite !FloatAxioms.eqb_spec. unfold SFeqb.
  destruct (SFcompare (Prim2SF a) (Prim2SF b)) as [[]|] eqn:H1;
    destruct (SFcompare (Prim2SF b) (Prim2SF a)) as [[]|] eqn:H2; try reflexivity.
  - apply SFcompare_Eq_sym in H1. congruence.
  - apply SFcompare_Eq_sym in H1. congruence.
  - apply SFcompare_Eq_sym in H1. congruence.
  - apply SFcompare_Eq_sym in H2. congruence.
  - apply SFcompare_Eq_sym in H2. congruence.
  - apply SFcompare_Eq_sym in H2. congruence.
Qed.

Lemma float_ltb_eqb a b : PrimFloat.ltb a b = true -> PrimFloat.eqb a b = false.
Proof.
  rewrite FloatAxioms.eqb_spec, FloatAxioms.ltb_spec. unfold SFeqb, SFltb.
  destruct (SFcompare (Prim2SF a) (Prim2SF b)) as [[]|]; try discriminate; reflexivity.
Qed.

Lemma float_ltb_irrefl a : PrimFloat.ltb a a = false.
Proof.
  rewrite FloatAxioms.ltb_spec. unfold SFltb.
  destruct (SFcompare_diag (Prim2SF a)) as [-> | ->]; reflexivity.
Qed.

Lemma SFcompare_Eq_inv x y :
  SFcompare x y = Some Eq -> x = y \/ exists s t, x = S754_zero s /\ y = S754_zero t.
Proof.
  destruct x as [sx|sx| |sx mx ex], y as [sy|sy| |sy my ey]; simpl; try discriminate;
    try (destruct sx; discriminate); try (destruct sy; discriminate).
  - intros _. right. eauto.
  - destruct sx, sy; try discriminate; auto.
  - destruct sx, sy; try discriminate;
      (destruct (Z.compare ex ey) eqn:He; try discriminate;
       apply Z.compare_eq in He; subst;
       destruct (Pos.compare_cont Eq mx my) eqn:Hm; try discriminate;
       apply Pos.compare_eq in Hm; subst; auto).
Qed.

(** Two numbers that are [===] are the same number, unless they are the two
    zeros. *)
Lemma float_eqb_eq a b :
  PrimFloat.eqb a b = true -> PrimFloat.eqb b 0 = false -> a = b.
Proof.
  rewrite !FloatAxioms.eqb_spec. unfold SFeqb.
  destruct (SFcompare (Prim2SF a) (Prim2SF b)) as [[]|] eqn:H; try discriminate.
  intros _ Hz. apply SFcompare_Eq_inv in H. destruct H as [H | (s & t & Ha & Hb)].
  - now apply Prim2SF_inj.
  - rewrite Hb in Hz. vm_compute in Hz. discriminate.
Qed.

Lemma string_compare_refl s : String.compare s s = Eq.
Proof.
  pose proof (String.compare_antisym s s) as H.
  destruct (String.compare s s); simpl in H; congruence.
Qed.

Lemma string_ltb_irrefl s : String.ltb s s = false.
Proof. unfold String.ltb. now rewrite string_compare_refl. Qed.

Lemma string_ltb_neq a b : String.ltb a b = true -> String.eqb a b = false.
Proof.
  intros H. apply String.eqb_neq. intros ->.
  rewrite string_ltb_irrefl in H. discriminate.
Qed.

Lemma string_app_assoc (a b c : string) : ((a ++ b) ++ c = a ++ (b ++ c))%string.
Proof.
  induction a as [|x a IH]; [reflexivity|].
  change (String x ((a ++ b) ++ c) = String x (a ++ (b ++ c)))%string.
  now rewrite IH.
Qed.

Lemma strict_eq_sym x y : strict_eq x y = strict_eq y x.
Proof.
  destruct x as [| |a|a|a], y as [| |b|b|b]; simpl; try reflexivity.
  - now destruct a, b.
  - apply float_eqb_sym.
  - apply String.eqb_sym.
Qed.

Section WithBuiltins.
Variable B : builtins.

Lemma strict_eq_loose_eq x y : strict_eq x y = true -> loose_eq B x y = true.
Proof.
  destruct x as [| |a|a|a], y as [| |b|b|b]; simpl; try discriminate; auto.
  destruct a, b; simpl; try discriminate; reflexivity.
Qed.

Lemma loose_neq_strict_neq x y : loose_eq B x y = false -> strict_eq x y = false.
Proof.
  intros H. destruct (strict_eq x y) eqn:Hs; [|reflexivity].
  apply strict_eq_loose_eq in Hs. congruence.
Qed.

Lemma lt_irrefl x : lt B x x = false.
Proof.
  destruct x as [| |b|x|s]; simpl;
    first [apply float_ltb_irrefl | apply string_ltb_irrefl | reflexivity].
Qed.

Lemma loose_eq_not_lt x y : loose_eq B x y = true -> lt B y x = false.
Proof.
  destruct x, y; simpl; try discriminate; try reflexivity;
    try apply float_eqb_ltb.
  intros H. apply String.eqb_eq in H. subst. apply string_ltb_irrefl.
Qed.

Lemma strict_eq_not_lt x y : strict_eq x y = true -> lt B y x = false.
Proof. intros H. apply loose_eq_not_lt, strict_eq_loose_eq, H. Qed.

Lemma lt_strict_neq x y : lt B x y = true -> strict_eq x y = false.
Proof.
  destruct x as [| |a|a|a], y as [| |b|b|b]; simpl;
    try reflexivity; try discriminate; try (intros _; reflexivity).
  - destruct a, b; simpl; intros H; try reflexivity; vm_compute in H; discriminate.
  - apply float_ltb_eqb.
  - apply string_ltb_neq.
Qed.

(** A truthy value is [==] to itself ([NaN], the one value that is not, is
    falsy). *)
Lemma loose_eq_refl x : truthy x = true -> loose_eq B x x = true.
Proof.
  destruct x as [| |a|a|a]; simpl; try discriminate.
  - intros ->. reflexivity.
  - unfold PrimFloat.is_nan. intros H.
    apply negb_true_iff, orb_false_iff in H. destruct H as [_ H].
    now apply negb_false_iff in H.
  - intros _. apply String.eqb_refl.
Qed.

(** ["1 " + from + " = [?] " + to], as the scripts build it. *)
Lemma concat_rate_description c cc :
  concat B (concat B (concat B (Str "1 ") c) (Str " = [?] ")) cc =
  Str ("1 " ++ to_string B c ++ " = [?] " ++ to_string B cc).
Proof.
  unfold concat. cbn [to_string]. f_equal.
  now rewrite !string_app_assoc.
Qed.

(** On two strings [==] and [===] are equality of the texts. *)
Lemma loose_eq_strings a b : loose_eq B (Str a) (Str b) = true <-> a = b.
Proof. simpl. apply String.eqb_eq. Qed.

End WithBuiltins.

End JSFacts.

(** ** The store and the dispatcher *)

Module Run.
Import JS Frappe Dispatch Session.

Lemma get_insert_eq (d : gmap string value) f v : get (<[f:=v]> d) f = v.
Proof. unfold get. now rewrite lookup_insert_eq. Qed.

Lemma get_insert_ne (d : gmap string value) f g v : f <> g -> get (<[f:=v]> d) g = get d g.
Proof. intros H. unfold get. now rewrite lookup_insert_ne. Qed.

Lemma locals_store_eq cdt cdn f v w d :
  locals w !! (cdt, cdn) = Some d ->
  locals (store cdt cdn f v w) !! (cdt, cdn) = Some (<[f:=v]> d).
Proof. intros H. simpl. rewrite lookup_alter_eq, H. reflexivity. Qed.

Lemma locals_store_ne cdt cdn f v w k :
  k <> (cdt, cdn) -> locals (store cdt cdn f v w) !! k = locals w !! k.
Proof. intros H. simpl. now rewrite lookup_alter_ne. Qed.

Lemma read_store_eq cdt cdn f v w d :
  locals w !! (cdt, cdn) = Some d -> read (store cdt cdn f v w) cdt cdn f = v.
Proof.
  intros H. unfold read. rewrite (locals_store_eq _ _ _ _ _ _ H). apply get_insert_eq.
Qed.

Lemma read_store_ne cdt cdn f g v w :
  f <> g -> read (store cdt cdn f v w) cdt cdn g = read w cdt cdn g.
Proof.
  intros H. unfold read. simpl. rewrite lookup_alter_eq.
  destruct (locals w !! (cdt, cdn)); simpl; [now apply get_insert_ne | reflexivity].
Qed.

Lemma read_Some cdt cdn f w d : locals w !! (cdt, cdn) = Some d -> read w cdt cdn f = get d f.
Proof. intros H. unfold read. now rewrite H. Qed.

(** What [write] leaves in the field, and what it leaves alone. *)
Lemma read_write_eq cdt cdn f v w d :
  locals w !! (cdt, cdn) = Some d -> holds (read (write cdt cdn f v w) cdt cdn f) v.
Proof.
  intros H. unfold write.
  destruct (strict_eq (read w cdt cdn f) v) eqn:Hs.
  - right. exact Hs.
  - left. eapply read_store_eq, H.
Qed.

Lemma read_write_ne cdt cdn f g v w :
  f <> g -> read (write cdt cdn f v w) cdt cdn g = read w cdt cdn g.
Proof.
  intros H. unfold write. destruct (strict_eq _ _); [reflexivity|].
  now apply read_store_ne.
Qed.

Lemma locals_write_ne cdt cdn f v w k :
  k <> (cdt, cdn) -> locals (write cdt cdn f v w) !! k = locals w !! k.
Proof.
  intros H. unfold write. destruct (strict_eq _ _); [reflexivity|].
  now apply locals_store_ne.
Qed.

Lemma locals_write_is_Some cdt cdn f v w k :
  is_Some (locals w !! k) -> is_Some (locals (write cdt cdn f v w) !! k).
Proof.
  intros [d H]. unfold write. destruct (strict_eq _ _); [eauto|].
  destruct (decide (k = (cdt, cdn))) as [->|Hne].
  - rewrite (locals_store_eq _ _ _ _ _ _ H). eauto.
  - rewrite locals_store_ne by exact Hne. eauto.
Qed.

Lemma write_rest cdt cdn f v w :
  cur_frm (write cdt cdn f v w) = cur_frm w /\ df (write cdt cdn f v w) = df w /\
  in_flight (write cdt cdn f v w) = in_flight w /\ shown (write cdt cdn f v w) = shown w.
Proof. unfold write. destruct (strict_eq _ _); simpl; auto. Qed.

(** Up to [===] is equality for a string, and for a number other than zero. *)
Lemma holds_Str x s : holds x (Str s) -> x = Str s.
Proof.
  intros [H | H]; [exact H|].
  destruct x; simpl in H; try discriminate.
  apply String.eqb_eq in H. now subst.
Qed.

Lemma holds_Num x b : holds x (Num b) -> PrimFloat.eqb b 0 = false -> x = Num b.
Proof.
  intros [H | H] Hz; [exact H|].
  destruct x as [| | |a|]; simpl in H; try discriminate.
  f_equal. now apply JSFacts.float_eqb_eq.
Qed.

Lemma delete_last {A} (l : list A) (x : A) :
  delete (List.length l) (l ++ [x])%list = l.
Proof.
  induction l as [|y l IH]; [reflexivity|].
  change (y :: delete (List.length l) (l ++ [x])%list = y :: l). now rewrite IH.
Qed.

Lemma lookup_last {A} (l : list A) (x : A) : (l ++ [x])%list !! List.length l = Some x.
Proof. induction l as [|y l IH]; [reflexivity|]. exact IH. Qed.

Lemma field_Some cdt cdn f w d :
  locals w !! (cdt, cdn) = Some d -> field cdt cdn f w = Ok (get d f) w.
Proof. intros H. unfold field. now rewrite H. Qed.

Lemma field_read cdt cdn f w :
  is_Some (locals w !! (cdt, cdn)) -> field cdt cdn f w = Ok (read w cdt cdn f) w.
Proof. intros [d H]. unfold field, read. now rewrite H. Qed.

Lemma fire_eq E depth dt ev name w :
  fire E depth dt ev name w =
  match lookup_handler (registry E) dt ev with
  | None => Ok tt w
  | Some h => match depth with
              | O => OutOfFuel
              | S depth' => h (fire E depth') (cur_frm w) dt name w
              end
  end.
Proof.
  destruct depth; cbn [fire]; destruct (lookup_handler (registry E) dt ev); reflexivity.
Qed.

(** An event nobody handles costs no depth. *)
Lemma fire_unhandled E depth dt ev name w :
  lookup_handler (registry E) dt ev = None -> fire E depth dt ev name w = Ok tt w.
Proof. intros H. rewrite fire_eq, H. reflexivity. Qed.

Lemma fire_handled E depth dt ev name w h :
  lookup_handler (registry E) dt ev = Some h ->
  fire E (S depth) dt ev name w = h (fire E depth) (cur_frm w) dt name w.
Proof. intros H. rewrite fire_eq, H. reflexivity. Qed.

(** An event that no script names has no handler, whatever the doctype. *)
Lemma lookup_foreign_event t dt ev :
  ~ In ev (map (fun e : string * string * handler => snd (fst e)) t) ->
  lookup_handler t dt ev = None.
Proof.
  induction t as [|[[dt' ev'] h] t IH]; intros Hnot; [reflexivity|].
  cbn [lookup_handler]. cbn [map In fst snd] in Hnot.
  destruct (String.eqb_spec ev ev') as [-> | Hne].
  - exfalso. apply Hnot. now left.
  - rewrite andb_false_r. apply IH. intros Hin. apply Hnot. now right.
Qed.

Lemma lookup_In t dt ev h :
  lookup_handler t dt ev = Some h -> In (dt, ev, h) t.
Proof.
  induction t as [|[[dt' ev'] h'] t IH]; cbn [lookup_handler]; [discriminate|].
  destruct (String.eqb_spec dt dt') as [-> | Hne]; cbn [andb].
  - destruct (String.eqb_spec ev ev') as [-> | Hne'].
    + intros [= ->]. now left.
    + intros H. right. now apply IH.
  - intros H. right. now apply IH.
Qed.

(** Setting a field nobody handles is just the write. *)
Lemma set_value_unhandled E depth cdt cdn f v w :
  is_Some (locals w !! (cdt, cdn)) ->
  lookup_handler (registry E) cdt f = None ->
  set_value (fire E depth) cdt cdn f v w = Ok tt (write cdt cdn f v w).
Proof.
  intros [d H] Hn. unfold set_value, write, read. rewrite H.
  destruct (strict_eq (get d f) v); [reflexivity|].
  now apply fire_unhandled.
Qed.

End Run.

(** ** The mileage rule *)

Module Mileage.
Import JS Frappe Dispatch Session Run.

Abbreviation item := "Travel Claim Item".

(** What one firing of [calculate] does to the session. *)
Lemma calculate_run E depth cdn w :
  is_Some (locals w !! (item, cdn)) ->
  let w1 := write item cdn "mileage_amount"
              (Num (flt E (read w item cdn "mileage_rate")
                    * flt E (read w item cdn "distance"))) w in
  fire E (S depth) item "calculate" cdn w =
  Ok tt (write item cdn "amount"
           (Num (flt E (read w1 item cdn "mileage_amount")
                 + flt E (read w1 item cdn "amount"))) w1).
Proof.
  intros Hrow w1.
  rewrite (fire_handled E depth item "calculate" cdn w (TravelClaimItem.calculate E))
    by reflexivity.
  unfold TravelClaimItem.calculate, bind.
  rewrite !field_read by exact Hrow.
  rewrite set_value_unhandled by (exact Hrow || reflexivity).
  fold w1.
  assert (Hrow1 : is_Some (locals w1 !! (item, cdn)))
    by (apply locals_write_is_Some, Hrow).
  rewrite !field_read by exact Hrow1.
  rewrite set_value_unhandled by (exact Hrow1 || reflexivity).
  reflexivity.
Qed.

(** The fields after one firing, in terms of the fields before it. *)
Lemma calculate_fields E depth cdn w row :
  locals w !! (item, cdn) = Some row ->
  exists w',
    fire E (S depth) item "calculate" cdn w = Ok tt w' /\
    holds (read w' item cdn "mileage_amount")
          (Num (flt E (get row "mileage_rate") * flt E (get row "distance"))) /\
    holds (read w' item cdn "amount")
          (Num (flt E (read w' item cdn "mileage_amount") + flt E (get row "amount"))) /\
    (forall f, f <> "mileage_amount" -> f <> "amount" -> read w' item cdn f = get row f) /\
    (forall k, k <> (item, cdn) -> locals w' !! k = locals w !! k) /\
    df w' = df w /\ in_flight w' = in_flight w /\ shown w' = shown w.
Proof.
  intros Hrow.
  assert (Hsome : is_Some (locals w !! (item, cdn))) by eauto.
  pose proof (calculate_run E depth cdn w Hsome) as Hrun. cbv zeta in Hrun.
  rewrite !(read_Some _ _ _ _ _ Hrow) in Hrun.
  set (w1 := write item cdn "mileage_amount"
               (Num (flt E (get row "mileage_rate") * flt E (get row "distance"))) w) in *.
  assert (Hrow1 : is_Some (locals w1 !! (item, cdn))) by (apply locals_write_is_Some, Hsome).
  assert (Ham : read w1 item cdn "amount" = get row "amount").
  { unfold w1. rewrite read_write_ne by discriminate. now apply read_Some. }
  rewrite Ham in Hrun.
  eexists. split; [exact Hrun|].
  repeat split.
  - rewrite read_write_ne by discriminate. unfold w1. eapply read_write_eq, Hrow.
  - rewrite (read_write_ne item cdn "amount" "mileage_amount") by discriminate.
    destruct Hrow1 as [d1 Hd1]. eapply read_write_eq, Hd1.
  - intros f Hf1 Hf2. rewrite read_write_ne by congruence.
    unfold w1. rewrite read_write_ne by congruence. now apply read_Some.
  - intros k Hk. rewrite locals_write_ne by exact Hk. unfold w1. now apply locals_write_ne.
  - destruct (write_rest item cdn "amount"
                (Num (flt E (read w1 item cdn "mileage_amount") + flt E (get row "amount"))) w1)
      as (_ & -> & _). apply write_rest.
  - destruct (write_rest item cdn "amount"
                (Num (flt E (read w1 item cdn "mileage_amount") + flt E (get row "amount"))) w1)
      as (_ & _ & -> & _). apply write_rest.
  - destruct (write_rest item cdn "amount"
                (Num (flt E (read w1 item cdn "mileage_amount") + flt E (get row "amount"))) w1)
      as (_ & _ & _ & ->). apply write_rest.
Qed.

(** C1.  On every row of a Travel Claim, a change of [mileage_rate] or of
    [distance] fires [calculate], which sets [mileage_amount] to
    [flt(mileage_rate) * flt(distance)] and then [amount] to the new
    [mileage_amount] plus the old [amount], leaving everything else as it
    was; [flt] reads a missing or non-numeric operand as 0.  The two fields
    hold the computed numbers up to [===] ([holds]): [set_value] leaves a
    field alone when the new value is [===] to the one it has.  A row with
    rate 2, distance 3 and amount 0 holds mileage_amount 6 and amount 6 after
    one firing, and amount 12 after a second one. *)
Theorem mileage_rule_accumulates E depth cdn w row :
  locals w !! (item, cdn) = Some row ->
  (fire E (S (S depth)) item "mileage_rate" cdn w = fire E (S depth) item "calculate" cdn w /\
   fire E (S (S depth)) item "distance" cdn w = fire E (S depth) item "calculate" cdn w) /\
  (flt E Undefined = 0%float /\ flt E Null = 0%float /\
   (forall s, PrimFloat.is_nan (parseFloat (js E) s) = true -> flt E (Str s) = 0%float) /\
   (forall x, flt E (Num x) = x)) /\
  (exists w',
     fire E (S depth) item "calculate" cdn w = Ok tt w' /\
     holds (read w' item cdn "mileage_amount")
           (Num (flt E (get row "mileage_rate") * flt E (get row "distance"))) /\
     holds (read w' item cdn "amount")
           (Num (flt E (read w' item cdn "mileage_amount") + flt E (get row "amount"))) /\
     (forall f, f <> "mileage_amount" -> f <> "amount" -> read w' item cdn f = get row f) /\
     (forall k, k <> (item, cdn) -> locals w' !! k = locals w !! k) /\
     df w' = df w /\ in_flight w' = in_flight w /\ shown w' = shown w) /\
  (get row "mileage_rate" = Num 2 -> get row "distance" = Num 3 -> get row "amount" = Num 0 ->
   exists w1 w2,
     fire E (S depth) item "calculate" cdn w = Ok tt w1 /\
     read w1 item cdn "mileage_amount" = Num 6 /\ read w1 item cdn "amount" = Num 6 /\
     fire E (S depth) item "calculate" cdn w1 = Ok tt w2 /\
     read w2 item cdn "mileage_amount" = Num 6 /\ read w2 item cdn "amount" = Num 12).
Proof.
  intros Hrow. split; [|split; [|split]].
  - split.
    + rewrite (fire_handled E (S depth) item "mileage_rate" cdn w TravelClaimItem.mileage_rate)
        by reflexivity. reflexivity.
    + rewrite (fire_handled E (S depth) item "distance" cdn w TravelClaimItem.distance)
        by reflexivity. reflexivity.
  - repeat split; try reflexivity. intros s Hs. simpl. now rewrite Hs.
  - now apply calculate_fields.
  - intros Hr Hd Ha.
    destruct (calculate_fields E depth cdn w row Hrow)
      as (w1 & Hrun1 & Hm1 & Ha1 & Hf1 & _).
    rewrite Hr, Hd in Hm1. rewrite Ha in Ha1.
    apply holds_Num in Hm1; [|reflexivity].
    change (flt E (Num 2) * flt E (Num 3))%float with 6%float in Hm1.
    rewrite Hm1 in Ha1. apply holds_Num in Ha1; [|reflexivity].
    change (flt E (Num 6) + flt E (Num 0))%float with 6%float in Ha1.
    destruct (locals w1 !! (item, cdn)) as [row1|] eqn:Hrow1.
    2:{ unfold read in Hm1. rewrite Hrow1 in Hm1. discriminate. }
    destruct (calculate_fields E depth cdn w1 row1 Hrow1)
      as (w2 & Hrun2 & Hm2 & Ha2 & _).
    rewrite <- (read_Some item cdn "mileage_rate" w1 row1 Hrow1),
            <- (read_Some item cdn "distance" w1 row1 Hrow1) in Hm2.
    rewrite <- (read_Some item cdn "amount" w1 row1 Hrow1) in Ha2.
    rewrite (Hf1 "mileage_rate"), (Hf1 "distance"), Hr, Hd in Hm2 by discriminate.
    apply holds_Num in Hm2; [|reflexivity].
    change (flt E (Num 2) * flt E (Num 3))%float with 6%float in Hm2.
    rewrite Hm2, Ha1 in Ha2. apply holds_Num in Ha2; [|reflexivity].
    change (flt E (Num 6) + flt E (Num 6))%float with 12%float in Ha2.
    exists w1, w2. repeat (split; [assumption|]). assumption.
Qed.

End Mileage.

(** ** The date rules *)

Module Dates.
Import JS Frappe Dispatch Session Run JSFacts.

Abbreviation auth_item := "Travel Authorization Item".
Abbreviation adj_item := "Travel Adjustment Item".

Lemma date_tables_cases dt : In dt date_tables -> dt = auth_item \/ dt = adj_item.
Proof. simpl. intuition. Qed.

(** The [to_date] handler on a row whose dates are not out of order does
    nothing, at any depth it is given. *)
Lemma to_date_quiet E depth dt cdn w row :
  In dt date_tables ->
  locals w !! (dt, cdn) = Some row ->
  truthy (get row "from_date") && lt (js E) (get row "to_date") (get row "from_date") = false ->
  fire E (S depth) dt "to_date" cdn w = Ok tt w.
Proof.
  intros Hdt Hrow Hc. apply date_tables_cases in Hdt. destruct Hdt as [-> | ->].
  - rewrite (fire_handled E depth auth_item "to_date" cdn w (TravelAuthorizationItem.to_date E))
      by reflexivity.
    unfold TravelAuthorizationItem.to_date, bind.
    rewrite (field_Some _ _ _ _ _ Hrow).
    destruct (truthy (get row "from_date")); cbn [when andb] in *; [|reflexivity].
    rewrite (field_Some _ _ _ _ _ Hrow), Hc. reflexivity.
  - rewrite (fire_handled E depth adj_item "to_date" cdn w (TravelAdjustmentItem.to_date E))
      by reflexivity.
    unfold TravelAdjustmentItem.to_date, bind.
    rewrite !(field_Some _ _ _ _ _ Hrow). rewrite Hc. reflexivity.
Qed.

(** The [to_date] handler on a row whose [to_date] is earlier than its
    [from_date]: the message, then the correction, after which the handler
    runs once more and finds nothing to do. *)
Lemma to_date_clamps E depth dt cdn w row :
  In dt date_tables ->
  locals w !! (dt, cdn) = Some row ->
  truthy (get row "from_date") = true ->
  lt (js E) (get row "to_date") (get row "from_date") = true ->
  fire E (S (S depth)) dt "to_date" cdn w =
  Ok tt (store dt cdn "to_date" (get row "from_date")
           (with_message (date_diagnostic E dt) w)).
Proof.
  intros Hdt Hrow Hf Hlt.
  assert (Hne : strict_eq (get row "to_date") (get row "from_date") = false)
    by (eapply lt_strict_neq, Hlt).
  set (w1 := with_message (date_diagnostic E dt) w).
  assert (Hrow1 : locals w1 !! (dt, cdn) = Some row) by exact Hrow.
  assert (Hnested : fire E (S depth) dt "to_date" cdn
                      (store dt cdn "to_date" (get row "from_date") w1) =
                    Ok tt (store dt cdn "to_date" (get row "from_date") w1)).
  { eapply to_date_quiet; [exact Hdt | eapply locals_store_eq, Hrow1 |].
    rewrite get_insert_eq, get_insert_ne by discriminate.
    rewrite lt_irrefl. apply andb_false_r. }
  pose proof Hdt as Hdt'. apply date_tables_cases in Hdt'. destruct Hdt' as [-> | ->].
  - rewrite (fire_handled E (S depth) auth_item "to_date" cdn w
               (TravelAuthorizationItem.to_date E)) by reflexivity.
    unfold TravelAuthorizationItem.to_date, bind.
    rewrite (field_Some _ _ _ _ _ Hrow), Hf. cbn [when].
    rewrite (field_Some _ _ _ _ _ Hrow), Hlt. cbn [when].
    unfold set_value, msgprint. cbn [locals]. rewrite Hrow, Hne. exact Hnested.
  - rewrite (fire_handled E (S depth) adj_item "to_date" cdn w
               (TravelAdjustmentItem.to_date E)) by reflexivity.
    unfold TravelAdjustmentItem.to_date, bind.
    rewrite !(field_Some _ _ _ _ _ Hrow), Hf, Hlt. cbn [when andb].
    unfold set_value, msgprint. cbn [locals]. rewrite Hrow, Hne. exact Hnested.
Qed.

(** The [from_date] handler: when its test passes it copies [from_date]
    into [to_date]; the [to_date] handler then runs and finds the two dates
    equal. *)
Lemma from_date_run E depth dt cdn w row :
  In dt date_tables ->
  locals w !! (dt, cdn) = Some row ->
  fire E (S (S depth)) dt "from_date" cdn w =
  Ok tt (if autofills E dt row
         then store dt cdn "to_date" (get row "from_date") w
         else w).
Proof.
  intros Hdt Hrow.
  assert (Hfill : strict_eq (get row "from_date") (get row "to_date") = false ->
            set_value (fire E (S depth)) dt cdn "to_date" (get row "from_date") w =
            Ok tt (store dt cdn "to_date" (get row "from_date") w)).
  { intros Hne. unfold set_value. rewrite Hrow, strict_eq_sym, Hne.
    eapply to_date_quiet; [exact Hdt | eapply locals_store_eq, Hrow |].
    rewrite get_insert_eq, get_insert_ne by discriminate.
    rewrite lt_irrefl. apply andb_false_r. }
  pose proof Hdt as Hdt'. apply date_tables_cases in Hdt'. destruct Hdt' as [-> | ->].
  - rewrite (fire_handled E (S depth) auth_item "from_date" cdn w
               (TravelAuthorizationItem.from_date E)) by reflexivity.
    unfold TravelAuthorizationItem.from_date, bind, autofills.
    rewrite !(field_Some _ _ _ _ _ Hrow).
    change (String.eqb auth_item adj_item) with false. cbv iota.
    destruct (truthy (get row "halt")); cbn [negb andb when];
      [now rewrite andb_false_r|].
    destruct (loose_eq (js E) (get row "from_date") (get row "to_date")) eqn:Hl;
      cbn [negb andb when]; [now rewrite andb_false_r|].
    destruct (truthy (get row "from_date")); cbn [negb andb when]; [|reflexivity].
    apply Hfill. eapply loose_neq_strict_neq, Hl.
  - rewrite (fire_handled E (S depth) adj_item "from_date" cdn w
               TravelAdjustmentItem.from_date) by reflexivity.
    unfold TravelAdjustmentItem.from_date, bind, autofills.
    rewrite !(field_Some _ _ _ _ _ Hrow).
    change (String.eqb adj_item adj_item) with true. cbv iota.
    destruct (truthy (get row "from_date")); cbn [negb andb when]; [|reflexivity].
    destruct (truthy (get row "halt")); cbn [negb andb when]; [reflexivity|].
    destruct (strict_eq (get row "from_date") (get row "to_date")) eqn:Hs;
      cbn [negb andb when]; [reflexivity|].
    now apply Hfill.
Qed.

Lemma edit_eq E depth cdt cdn f v w row :
  locals w !! (cdt, cdn) = Some row ->
  edit E depth cdt cdn f v w =
  if strict_eq (get row f) v then Ok tt w
  else fire E depth cdt f cdn (store cdt cdn f v w).
Proof. intros H. unfold edit, set_value. now rewrite H. Qed.

(** C5.  On a row of either date table, a change of [from_date] to a value
    that is set and differs from [to_date], made while [halt] is off, leaves
    [to_date] equal to the new [from_date]; made while [halt] is on, it
    writes [from_date] and nothing else.  In particular a halted row dated
    2025-01-10 to 2025-01-10 keeps its [to_date] when [from_date] becomes
    2025-01-15. *)
Theorem from_date_change_fills_to_date E depth dt cdn w row :
  In dt date_tables ->
  locals w !! (dt, cdn) = Some row ->
  (forall v,
     strict_eq (get row "from_date") v = false ->
     truthy (get row "halt") = false ->
     truthy v = true ->
     loose_eq (js E) v (get row "to_date") = false ->
     edit E (S (S depth)) dt cdn "from_date" v w =
     Ok tt (store dt cdn "to_date" v (store dt cdn "from_date" v w))) /\
  (forall v,
     truthy (get row "halt") = true ->
     edit E (S (S depth)) dt cdn "from_date" v w = Ok tt (write dt cdn "from_date" v w)) /\
  (get row "from_date" = Str "2025-01-10" ->
   get row "to_date" = Str "2025-01-10" ->
   get row "halt" = Bool true ->
   exists w',
     edit E (S (S depth)) dt cdn "from_date" (Str "2025-01-15") w = Ok tt w' /\
     read w' dt cdn "from_date" = Str "2025-01-15" /\
     read w' dt cdn "to_date" = Str "2025-01-10").
Proof.
  intros Hdt Hrow.
  assert (Hhalted : forall v, truthy (get row "halt") = true ->
            edit E (S (S depth)) dt cdn "from_date" v w =
            Ok tt (write dt cdn "from_date" v w)).
  { intros v Hhalt. rewrite (edit_eq _ _ _ _ _ _ _ _ Hrow).
    unfold write. rewrite (read_Some _ _ _ _ _ Hrow).
    destruct (strict_eq (get row "from_date") v); [reflexivity|].
    rewrite (from_date_run E depth dt cdn _ (<["from_date":=v]> row) Hdt)
      by (eapply locals_store_eq, Hrow).
    unfold autofills. rewrite (get_insert_ne _ "from_date" "halt") by discriminate.
    rewrite Hhalt. cbn [negb]. now rewrite andb_false_r. }
  split; [|split].
  - intros v Hchange Hhalt Hv Hne.
    rewrite (edit_eq _ _ _ _ _ _ _ _ Hrow), Hchange.
    rewrite (from_date_run E depth dt cdn _ (<["from_date":=v]> row) Hdt)
      by (eapply locals_store_eq, Hrow).
    unfold autofills.
    rewrite get_insert_eq, !get_insert_ne by discriminate.
    rewrite Hv, Hhalt, Hne, (loose_neq_strict_neq _ _ _ Hne).
    now destruct (String.eqb dt adj_item).
  - exact Hhalted.
  - intros Hf Ht Hh. eexists. split.
    + apply Hhalted. now rewrite Hh.
    + unfold write. rewrite (read_Some _ _ _ _ _ Hrow), Hf.
      change (strict_eq (Str "2025-01-10") (Str "2025-01-15")) with false. cbv iota.
      split.
      * eapply read_store_eq, Hrow.
      * rewrite read_store_ne by discriminate. now rewrite (read_Some _ _ _ _ _ Hrow).
Qed.

(** C6.  On a row of either date table whose [from_date] is set, a change
    of [to_date] to an earlier value shows the message "To Date cannot be
    earlier than From Date" and sets [to_date] back to [from_date]; a change
    to a value that is not earlier shows nothing and writes [to_date] alone. *)
Theorem to_date_change_is_clamped E depth dt cdn w row :
  In dt date_tables ->
  locals w !! (dt, cdn) = Some row ->
  (forall v,
     truthy (get row "from_date") = true ->
     strict_eq (get row "to_date") v = false ->
     lt (js E) v (get row "from_date") = true ->
     edit E (S (S depth)) dt cdn "to_date" v w =
     Ok tt (store dt cdn "to_date" (get row "from_date")
              (with_message (date_diagnostic E dt) (store dt cdn "to_date" v w)))) /\
  (forall v,
     lt (js E) v (get row "from_date") = false ->
     edit E (S depth) dt cdn "to_date" v w = Ok tt (write dt cdn "to_date" v w)) /\
  text (date_diagnostic E auth_item) = "To Date cannot be earlier than From Date" /\
  text (date_diagnostic E adj_item) = translate E "To Date cannot be earlier than From Date".
Proof.
  intros Hdt Hrow. split; [|split; [|split; reflexivity]].
  - intros v Hf Hchange Hlt.
    rewrite (edit_eq _ _ _ _ _ _ _ _ Hrow), Hchange.
    rewrite (to_date_clamps E depth dt cdn _ (<["to_date":=v]> row) Hdt)
      by first [ eapply locals_store_eq, Hrow
               | rewrite ?get_insert_eq, ?get_insert_ne by discriminate; assumption ].
    now rewrite get_insert_ne by discriminate.
  - intros v Hlt.
    rewrite (edit_eq _ _ _ _ _ _ _ _ Hrow).
    unfold write. rewrite (read_Some _ _ _ _ _ Hrow).
    destruct (strict_eq (get row "to_date") v); [reflexivity|].
    eapply to_date_quiet; [exact Hdt | eapply locals_store_eq, Hrow |].
    rewrite get_insert_eq, get_insert_ne by discriminate.
    rewrite Hlt. apply andb_false_r.
Qed.

(** One edit keeps the dates in order, unless it is a [from_date] edit of a
    halted row. *)
Lemma edit_keeps_order E depth dt cdn e w row :
  In dt date_tables ->
  locals w !! (dt, cdn) = Some row ->
  dates_in_order (js E) row = true ->
  truthy (get row "halt") = false \/ is_to_edit e = true ->
  exists w' row',
    apply_edit E (S (S depth)) dt cdn e w = Ok tt w' /\
    locals w' !! (dt, cdn) = Some row' /\
    dates_in_order (js E) row' = true /\
    get row' "halt" = get row "halt".
Proof.
  intros Hdt Hrow Hord Hok. destruct e as [v | v]; cbn [apply_edit].
  - destruct Hok as [Hhalt | Hto]; [|discriminate].
    rewrite (edit_eq _ _ _ _ _ _ _ _ Hrow).
    destruct (strict_eq (get row "from_date") v) eqn:Hchange;
      [exists w, row; repeat split; assumption|].
    set (row1 := <["from_date":=v]> row).
    assert (Hrow1 : locals (store dt cdn "from_date" v w) !! (dt, cdn) = Some row1)
      by (eapply locals_store_eq, Hrow).
    rewrite (from_date_run E depth dt cdn _ row1 Hdt Hrow1).
    assert (Hf1 : get row1 "from_date" = v) by apply get_insert_eq.
    assert (Ht1 : get row1 "to_date" = get row "to_date")
      by (apply get_insert_ne; discriminate).
    assert (Hh1 : get row1 "halt" = get row "halt")
      by (apply get_insert_ne; discriminate).
    destruct (autofills E dt row1) eqn:Hfill.
    + exists (store dt cdn "to_date" (get row1 "from_date") (store dt cdn "from_date" v w)),
             (<["to_date":=get row1 "from_date"]> row1).
      split; [reflexivity|]. split; [eapply locals_store_eq, Hrow1|]. split.
      * unfold dates_in_order.
        rewrite get_insert_eq, get_insert_ne by discriminate.
        rewrite lt_irrefl. now rewrite andb_false_r.
      * rewrite get_insert_ne by discriminate. exact Hh1.
    + exists (store dt cdn "from_date" v w), row1.
      split; [reflexivity|]. split; [exact Hrow1|]. split; [|exact Hh1].
      unfold dates_in_order. unfold autofills in Hfill.
      rewrite Hf1, Ht1, Hh1, Hhalt in *. cbn [negb] in Hfill. rewrite andb_true_r in Hfill.
      destruct (truthy v); cbn [andb] in *; [|reflexivity].
      apply negb_false_iff in Hfill.
      destruct (String.eqb dt adj_item).
      * rewrite (strict_eq_not_lt _ _ _ Hfill). now rewrite andb_false_r.
      * rewrite (loose_eq_not_lt _ _ _ Hfill). now rewrite andb_false_r.
  - rewrite (edit_eq _ _ _ _ _ _ _ _ Hrow).
    destruct (strict_eq (get row "to_date") v) eqn:Hchange;
      [exists w, row; repeat split; assumption|].
    set (row1 := <["to_date":=v]> row).
    assert (Hrow1 : locals (store dt cdn "to_date" v w) !! (dt, cdn) = Some row1)
      by (eapply locals_store_eq, Hrow).
    assert (Hf1 : get row1 "from_date" = get row "from_date")
      by (apply get_insert_ne; discriminate).
    assert (Ht1 : get row1 "to_date" = v) by apply get_insert_eq.
    assert (Hh1 : get row1 "halt" = get row "halt")
      by (apply get_insert_ne; discriminate).
    destruct (truthy (get row1 "from_date")
              && lt (js E) (get row1 "to_date") (get row1 "from_date")) eqn:Hc.
    + apply andb_true_iff in Hc. destruct Hc as [Hf Hlt].
      rewrite (to_date_clamps E depth dt cdn _ row1 Hdt Hrow1 Hf Hlt).
      eexists _, _. split; [reflexivity|]. split; [eapply locals_store_eq, Hrow1|]. split.
      * unfold dates_in_order.
        rewrite get_insert_eq, get_insert_ne by discriminate.
        rewrite lt_irrefl. now rewrite andb_false_r.
      * rewrite get_insert_ne by discriminate. exact Hh1.
    + rewrite (to_date_quiet E (S depth) dt cdn _ row1 Hdt Hrow1 Hc).
      exists (store dt cdn "to_date" v w), row1.
      split; [reflexivity|]. split; [exact Hrow1|]. split; [|exact Hh1].
      unfold dates_in_order.
      destruct (truthy (get row1 "from_date")); cbn [andb] in *; [|reflexivity].
      rewrite Hc. now rewrite andb_false_r.
Qed.

(** C7, as amended.  On a row of either date table whose dates are in
    order, every sequence of [from_date] and [to_date] edits leaves them in
    order -- [to_date] not earlier than [from_date] when both are set --
    provided [halt] is off, or the edits are all of [to_date]. *)
Theorem dates_stay_in_order_unless_halted E depth dt cdn es :
  forall w row,
    In dt date_tables ->
    locals w !! (dt, cdn) = Some row ->
    dates_in_order (js E) row = true ->
    truthy (get row "halt") = false \/ forallb is_to_edit es = true ->
    exists w' row',
      apply_edits E (S (S depth)) dt cdn es w = Ok tt w' /\
      locals w' !! (dt, cdn) = Some row' /\
      dates_in_order (js E) row' = true.
Proof.
  induction es as [|e es IH]; intros w row Hdt Hrow Hord Hok.
  - exists w, row. auto.
  - assert (Hstep : truthy (get row "halt") = false \/ is_to_edit e = true).
    { destruct Hok as [H | H]; [now left|]. right.
      cbn [forallb] in H. now apply andb_true_iff in H. }
    destruct (edit_keeps_order E depth dt cdn e w row Hdt Hrow Hord Hstep)
      as (w1 & row1 & Hrun & Hrow1 & Hord1 & Hhalt1).
    assert (Hok1 : truthy (get row1 "halt") = false \/ forallb is_to_edit es = true).
    { destruct Hok as [H | H]; [left; now rewrite Hhalt1|]. right.
      cbn [forallb] in H. now apply andb_true_iff in H. }
    destruct (IH w1 row1 Hdt Hrow1 Hord1 Hok1) as (w' & row' & Hrun' & Hrow' & Hord').
    exists w', row'. split; [|auto].
    cbn [apply_edits]. unfold bind. now rewrite Hrun.
Qed.

End Dates.

(** ** The currency rules *)

Module Currency.
Import JS Frappe Dispatch Session Run JSFacts.

Abbreviation claim := "Travel Claim".
Abbreviation auth := "Travel Authorization".

Lemma currency_forms_cases dt : In dt currency_forms -> dt = claim \/ dt = auth.
Proof. simpl. intuition. Qed.

(** The company currency as the [currency] handler works it out is the
    resolved company currency; so is the one the salary callback asks for. *)
Lemma handler_company_currency E doc :
  (if negb (truthy (get doc "company"))
   then get_currency E (get_default E "Company")
   else get_currency E (get doc "company")) = resolved_company_currency E doc.
Proof.
  unfold resolved_company_currency, get_currency.
  destruct (truthy (get doc "company")); cbn [negb]; [reflexivity|].
  now destruct (truthy (get_default E "Company")).
Qed.

Lemma callback_company_currency E doc :
  get_currency E (get doc "company") = resolved_company_currency E doc.
Proof. reflexivity. Qed.

(** What the [currency] handler of either form does to the session. *)
Lemma currency_run E depth dt dn w doc :
  cur_frm w = Form dt dn ->
  In dt currency_forms ->
  locals w !! (dt, dn) = Some doc ->
  fire E (S depth) dt "currency" dn w =
  Ok tt
    (if truthy (get doc "currency")
     then if loose_eq (js E) (get doc "currency") (resolved_company_currency E doc)
          then with_property "exchange_rate" "description" (Str "")
                 (with_property "exchange_rate" "hidden" (Num 1)
                    (write dt dn "exchange_rate" (Num 1) w))
          else with_request
                 (exchange_request (Form dt dn) (get doc "currency")
                    (resolved_company_currency E doc)) w
     else w).
Proof.
  intros Hfrm Hdt Hdoc. apply currency_forms_cases in Hdt.
  assert (Hexists : is_Some (locals w !! (dt, dn))) by eauto.
  destruct Hdt as [-> | ->].
  - rewrite (fire_handled E depth claim "currency" dn w
               (fun run frm _ _ => TravelClaim.currency E run frm)) by reflexivity.
    rewrite Hfrm. unfold TravelClaim.currency, bind, doc_field. cbn [doctype docname].
    rewrite (field_Some _ _ _ _ _ Hdoc).
    destruct (truthy (get doc "currency")); cbn [when]; [|reflexivity].
    rewrite (field_Some _ _ _ _ _ Hdoc), handler_company_currency.
    destruct (loose_eq (js E) (get doc "currency") _); cbn [negb];
      [ unfold frm_set_value; cbn [doctype docname];
        rewrite set_value_unhandled by (exact Hexists || reflexivity); reflexivity
      | reflexivity ].
  - rewrite (fire_handled E depth auth "currency" dn w
               (fun run frm _ _ => TravelAuthorization.currency E run frm)) by reflexivity.
    rewrite Hfrm. unfold TravelAuthorization.currency, bind, doc_field. cbn [doctype docname].
    rewrite (field_Some _ _ _ _ _ Hdoc).
    destruct (truthy (get doc "currency")); cbn [when]; [|reflexivity].
    rewrite (field_Some _ _ _ _ _ Hdoc), handler_company_currency.
    destruct (loose_eq (js E) (get doc "currency") _); cbn [negb];
      [ unfold frm_set_value; cbn [doctype docname];
        rewrite set_value_unhandled by (exact Hexists || reflexivity); reflexivity
      | reflexivity ].
Qed.

(** What the response to an exchange-rate request does to the session:
    whichever request it answers, and whatever else is in flight. *)
Lemma exchange_rate_response E depth w i q dt dn cc r doc :
  in_flight w !! i = Some q ->
  on_response q = claim_exchange_rate_cb (Form dt dn) cc \/
  on_response q = auth_exchange_rate_cb (Form dt dn) cc ->
  locals w !! (dt, dn) = Some doc ->
  respond E depth i r w =
  Ok tt (with_property "exchange_rate" "description"
           (rate_description (js E) (get doc "currency") cc)
           (with_property "exchange_rate" "hidden" (Num 0)
              (write dt dn "exchange_rate" (Num (flt E (get r "message")))
                 (without_request i w)))).
Proof.
  intros Hq Hcb Hdoc. unfold respond. rewrite Hq.
  fold (without_request i w).
  assert (Hdoc' : locals (without_request i w) !! (dt, dn) = Some doc) by exact Hdoc.
  assert (Hnone : lookup_handler (registry E) dt "exchange_rate" = None).
  { apply lookup_foreign_event. cbn. intuition discriminate. }
  assert (Hcur : forall w0, locals w0 = locals (without_request i w) ->
            field dt dn "currency"
              (with_property "exchange_rate" "hidden" (Num 0)
                 (write dt dn "exchange_rate" (Num (flt E (get r "message"))) w0)) =
            Ok (get doc "currency")
              (with_property "exchange_rate" "hidden" (Num 0)
                 (write dt dn "exchange_rate" (Num (flt E (get r "message"))) w0))).
  { intros w0 Hw0. rewrite field_read.
    - f_equal. change (read (with_property ?a ?b ?c ?x) dt dn "currency")
        with (read x dt dn "currency").
      rewrite read_write_ne by discriminate. unfold read. now rewrite Hw0, Hdoc'.
    - cbn [with_property locals]. apply locals_write_is_Some. rewrite Hw0. eauto. }
  destruct Hcb as [-> | ->]; cbn [run_callback];
    [unfold TravelClaim.set_exchange_rate_callback
    |unfold TravelAuthorization.set_exchange_rate_callback];
    unfold bind, frm_set_value, doc_field; cbn [doctype docname];
    (rewrite set_value_unhandled by (eauto || exact Hnone));
    unfold set_df_property at 1;
    fold (with_property "exchange_rate" "hidden" (Num 0)
            (write dt dn "exchange_rate" (Num (flt E (get r "message")))
               (without_request i w)));
    rewrite (Hcur _ eq_refl), concat_rate_description; reflexivity.
Qed.

(** C2.  On either form, when [currency] is set and differs ([!=]) from
    the resolved company currency, the [currency] handler sends one
    exchange-rate request, from the document's currency to the company's;
    the response sets [exchange_rate] to [flt] of the rate it carries (0
    when it carries none or no number), shows the field, and describes it
    as "1 <FROM> = [?] <TO>".  With USD, INR and a rate of 83.5 the field
    holds 83.5 and reads "1 USD = [?] INR". *)
Theorem exchange_rate_is_fetched E depth dt dn w doc :
  cur_frm w = Form dt dn ->
  In dt currency_forms ->
  locals w !! (dt, dn) = Some doc ->
  truthy (get doc "currency") = true ->
  loose_eq (js E) (get doc "currency") (resolved_company_currency E doc) = false ->
  let c := get doc "currency" in
  let cc := resolved_company_currency E doc in
  let q := exchange_request (Form dt dn) c cc in
  fire E (S depth) dt "currency" dn w = Ok tt (with_request q w) /\
  method q = "erpnext.setup.utils.get_exchange_rate" /\
  args q = [("from_currency", c); ("to_currency", cc)] /\
  (forall r, exists w',
     respond E depth (List.length (in_flight w)) r (with_request q w) = Ok tt w' /\
     holds (read w' dt dn "exchange_rate") (Num (flt E (get r "message"))) /\
     df w' !! ("exchange_rate", "hidden") = Some (Num 0) /\
     df w' !! ("exchange_rate", "description") =
       Some (Str ("1 " ++ to_string (js E) c ++ " = [?] " ++ to_string (js E) cc)) /\
     (forall f, f <> "exchange_rate" -> read w' dt dn f = get doc f) /\
     in_flight w' = in_flight w /\ shown w' = shown w) /\
  (flt E Undefined = 0%float /\ flt E Null = 0%float /\
   (forall s, PrimFloat.is_nan (parseFloat (js E) s) = true -> flt E (Str s) = 0%float) /\
   (forall x, flt E (Num x) = x)) /\
  (c = Str "USD" -> cc = Str "INR" ->
   forall r, get r "message" = Num 83.5 ->
   exists w',
     respond E depth (List.length (in_flight w)) r (with_request q w) = Ok tt w' /\
     read w' dt dn "exchange_rate" = Num 83.5 /\
     df w' !! ("exchange_rate", "hidden") = Some (Num 0) /\
     df w' !! ("exchange_rate", "description") = Some (Str "1 USD = [?] INR")).
Proof.
  intros Hfrm Hdt Hdoc Hset Hne c cc q.
  assert (Hresp : forall r, exists w',
     respond E depth (List.length (in_flight w)) r (with_request q w) = Ok tt w' /\
     holds (read w' dt dn "exchange_rate") (Num (flt E (get r "message"))) /\
     df w' !! ("exchange_rate", "hidden") = Some (Num 0) /\
     df w' !! ("exchange_rate", "description") =
       Some (Str ("1 " ++ to_string (js E) c ++ " = [?] " ++ to_string (js E) cc)) /\
     (forall f, f <> "exchange_rate" -> read w' dt dn f = get doc f) /\
     in_flight w' = in_flight w /\ shown w' = shown w).
  { intros r. eexists. split.
    - eapply (exchange_rate_response E depth (with_request q w) _ q dt dn cc r doc).
      + apply lookup_last.
      + unfold q, exchange_request. cbn [on_response doctype].
        destruct (String.eqb dt claim); auto.
      + exact Hdoc.
    - cbn [with_property df locals read in_flight shown].
      split; [|split; [|split; [|split; [|split]]]].
      + change (read (with_property ?a ?b ?v ?x) dt dn "exchange_rate")
          with (read x dt dn "exchange_rate").
        change (read (with_property ?a ?b ?v ?x) dt dn "exchange_rate")
          with (read x dt dn "exchange_rate").
        eapply read_write_eq. exact Hdoc.
      + rewrite lookup_insert_ne by discriminate. apply lookup_insert_eq.
      + apply lookup_insert_eq.
      + intros f Hf.
        change (read (with_property ?a ?b ?v ?x) dt dn f) with (read x dt dn f).
        change (read (with_property ?a ?b ?v ?x) dt dn f) with (read x dt dn f).
        rewrite read_write_ne by congruence. unfold read.
        change (locals (without_request _ (with_request q w))) with (locals w).
        now rewrite Hdoc.
      + destruct (write_rest dt dn "exchange_rate" (Num (flt E (get r "message")))
                    (without_request (List.length (in_flight w)) (with_request q w)))
          as (_ & _ & -> & _).
        cbn [without_request with_request in_flight]. apply delete_last.
      + destruct (write_rest dt dn "exchange_rate" (Num (flt E (get r "message")))
                    (without_request (List.length (in_flight w)) (with_request q w)))
          as (_ & _ & _ & ->). reflexivity. }
  split; [|split; [|split; [|split; [|split]]]].
  - rewrite (currency_run E depth dt dn w doc Hfrm Hdt Hdoc), Hset, Hne. reflexivity.
  - reflexivity.
  - reflexivity.
  - exact Hresp.
  - repeat split; try reflexivity. intros s Hs. simpl. now rewrite Hs.
  - intros Hc Hcc r Hr. destruct (Hresp r) as (w' & Hrun & Hrate & Hhid & Hdesc & _).
    exists w'. rewrite Hr in Hrate. apply holds_Num in Hrate; [|reflexivity].
    rewrite Hc, Hcc in Hdesc. auto.
Qed.

(** C3.  On either form, when [currency] is set and equals the resolved
    company currency -- the currency of the document's company, or of the
    site's default company when the document names none -- the [currency]
    handler sets [exchange_rate] to 1, hides the field and clears its
    description; no request is sent and nothing else changes. *)
Theorem same_currency_needs_no_rate E depth dt dn w doc :
  cur_frm w = Form dt dn ->
  In dt currency_forms ->
  locals w !! (dt, dn) = Some doc ->
  truthy (get doc "currency") = true ->
  get doc "currency" = resolved_company_currency E doc ->
  exists w',
    fire E (S depth) dt "currency" dn w = Ok tt w' /\
    holds (read w' dt dn "exchange_rate") (Num 1) /\
    df w' !! ("exchange_rate", "hidden") = Some (Num 1) /\
    df w' !! ("exchange_rate", "description") = Some (Str "") /\
    in_flight w' = in_flight w /\
    (forall f, f <> "exchange_rate" -> read w' dt dn f = get doc f) /\
    (forall k, k <> (dt, dn) -> locals w' !! k = locals w !! k) /\
    shown w' = shown w.
Proof.
  intros Hfrm Hdt Hdoc Hset Heq.
  rewrite (currency_run E depth dt dn w doc Hfrm Hdt Hdoc), Hset.
  rewrite <- Heq, (loose_eq_refl _ _ Hset).
  eexists. split; [reflexivity|].
  cbn [with_property df in_flight shown locals].
  split; [|split; [|split; [|split; [|split; [|split]]]]].
  - change (read (with_property ?a ?b ?v ?x) dt dn "exchange_rate")
      with (read x dt dn "exchange_rate").
    change (read (with_property ?a ?b ?v ?x) dt dn "exchange_rate")
      with (read x dt dn "exchange_rate").
    eapply read_write_eq, Hdoc.
  - rewrite lookup_insert_ne by discriminate. apply lookup_insert_eq.
  - apply lookup_insert_eq.
  - apply write_rest.
  - intros f Hf.
    change (read (with_property ?a ?b ?v ?x) dt dn f) with (read x dt dn f).
    change (read (with_property ?a ?b ?v ?x) dt dn f) with (read x dt dn f).
    rewrite read_write_ne by congruence. now apply read_Some.
  - intros k Hk. now apply locals_write_ne.
  - apply write_rest.
Qed.

(** C9, as amended.  The response to an exchange-rate request is applied
    whenever it arrives, whichever request of the form it answers and
    whatever other requests are still in flight: [exchange_rate] becomes
    [flt] of its rate, the field is shown, and the description is built from
    the currency the document holds at that moment and the company currency
    of the answered request.  The other requests stay in flight. *)
Theorem every_rate_response_is_applied E depth dt dn w doc i c cc r :
  In dt currency_forms ->
  locals w !! (dt, dn) = Some doc ->
  in_flight w !! i = Some (exchange_request (Form dt dn) c cc) ->
  exists w',
    respond E depth i r w = Ok tt w' /\
    holds (read w' dt dn "exchange_rate") (Num (flt E (get r "message"))) /\
    df w' !! ("exchange_rate", "hidden") = Some (Num 0) /\
    df w' !! ("exchange_rate", "description") =
      Some (rate_description (js E) (get doc "currency") cc) /\
    in_flight w' = delete i (in_flight w).
Proof.
  intros Hdt Hdoc Hq. eexists. split.
  - eapply (exchange_rate_response E depth w i _ dt dn cc r doc); [exact Hq | | exact Hdoc].
    unfold exchange_request. cbn [on_response doctype].
    destruct (String.eqb dt claim); auto.
  - cbn [with_property df in_flight].
    split; [|split; [|split]].
    + change (read (with_property ?a ?b ?v ?x) dt dn "exchange_rate")
        with (read x dt dn "exchange_rate").
      change (read (with_property ?a ?b ?v ?x) dt dn "exchange_rate")
        with (read x dt dn "exchange_rate").
      eapply read_write_eq. exact Hdoc.
    + rewrite lookup_insert_ne by discriminate. apply lookup_insert_eq.
    + apply lookup_insert_eq.
    + destruct (write_rest dt dn "exchange_rate" (Num (flt E (get r "message")))
                  (without_request i w)) as (_ & _ & -> & _). reflexivity.
Qed.

(** What the [employee] handler of either form does to the session. *)
Lemma employee_quiet E depth dt dn w doc :
  cur_frm w = Form dt dn ->
  In dt currency_forms ->
  locals w !! (dt, dn) = Some doc ->
  truthy (get doc "employee") = false ->
  fire E (S depth) dt "employee" dn w = Ok tt w.
Proof.
  intros Hfrm Hdt Hdoc He. apply currency_forms_cases in Hdt. destruct Hdt as [-> | ->].
  - rewrite (fire_handled E depth claim "employee" dn w
               (fun run frm _ _ => TravelClaim.employee run frm)) by reflexivity.
    rewrite Hfrm. unfold TravelClaim.employee, bind, doc_field. cbn [doctype docname].
    now rewrite (field_Some _ _ _ _ _ Hdoc), He.
  - rewrite (fire_handled E depth auth "employee" dn w
               (fun run frm _ _ => TravelAuthorization.employee run frm)) by reflexivity.
    rewrite Hfrm. unfold TravelAuthorization.employee, bind, doc_field. cbn [doctype docname].
    now rewrite (field_Some _ _ _ _ _ Hdoc), He.
Qed.

Lemma employee_run E depth dt dn w doc :
  cur_frm w = Form dt dn ->
  In dt currency_forms ->
  locals w !! (dt, dn) = Some doc ->
  truthy (get doc "employee") = true ->
  fire E (S (S depth)) dt "employee" dn w =
  Ok tt
    (if String.eqb dt claim
     then with_request (salary_request (Form dt dn) (get doc "employee")) w
     else with_request (approver_request (Form dt dn) (get doc "employee"))
            (with_request (reports_to_request (Form dt dn) (get doc "employee"))
               (with_request (salary_request (Form dt dn) (get doc "employee")) w))).
Proof.
  intros Hfrm Hdt Hdoc He. apply currency_forms_cases in Hdt. destruct Hdt as [-> | ->].
  - rewrite (fire_handled E (S depth) claim "employee" dn w
               (fun run frm _ _ => TravelClaim.employee run frm)) by reflexivity.
    rewrite Hfrm. unfold TravelClaim.employee, bind, doc_field. cbn [doctype docname].
    rewrite (field_Some _ _ _ _ _ Hdoc), He. cbn [when]. unfold trigger. cbn [doctype docname].
    rewrite (fire_handled E depth claim "get_employee_currency" dn w
               (fun run frm _ _ => TravelClaim.get_employee_currency frm)) by reflexivity.
    rewrite Hfrm. unfold TravelClaim.get_employee_currency, bind, doc_field.
    cbn [doctype docname]. now rewrite (field_Some _ _ _ _ _ Hdoc).
  - rewrite (fire_handled E (S depth) auth "employee" dn w
               (fun run frm _ _ => TravelAuthorization.employee run frm)) by reflexivity.
    rewrite Hfrm. unfold TravelAuthorization.employee, bind, doc_field. cbn [doctype docname].
    rewrite (field_Some _ _ _ _ _ Hdoc), He. cbn [when]. unfold trigger, bind.
    cbn [doctype docname].
    rewrite (fire_handled E depth auth "get_employee_currency" dn w
               (fun run frm _ _ => TravelAuthorization.get_employee_currency frm))
      by reflexivity.
    rewrite Hfrm. unfold TravelAuthorization.get_employee_currency, bind, doc_field.
    cbn [doctype docname]. rewrite (field_Some _ _ _ _ _ Hdoc). unfold call at 1.
    set (w1 := World _ _ _ _ _).
    rewrite (fire_handled E depth auth "set_reports_to" dn w1
               (fun run frm _ _ => TravelAuthorization.set_reports_to frm)) by reflexivity.
    change (cur_frm w1) with (cur_frm w). rewrite Hfrm.
    unfold TravelAuthorization.set_reports_to, bind, doc_field. cbn [doctype docname].
    rewrite (field_Some auth dn "employee" w1 doc Hdoc), He. cbn [when].
    unfold bind, console_log, ret.
    rewrite (field_Some auth dn "employee" w1 doc Hdoc). unfold call at 1.
    set (w2 := World _ _ _ _ _).
    rewrite (fire_handled E depth auth "set_approver" dn w2
               (fun run frm _ _ => TravelAuthorization.set_approver frm)) by reflexivity.
    change (cur_frm w2) with (cur_frm w). rewrite Hfrm.
    unfold TravelAuthorization.set_approver, bind, doc_field. cbn [doctype docname].
    rewrite (field_Some auth dn "employee" w2 doc Hdoc), He. cbn [when].
    unfold bind, console_log, ret.
    rewrite (field_Some auth dn "employee" w2 doc Hdoc). reflexivity.
Qed.

(** The response to the salary-structure lookup of either form. *)
Lemma salary_response E depth dt dn w doc i e r :
  cur_frm w = Form dt dn ->
  In dt currency_forms ->
  locals w !! (dt, dn) = Some doc ->
  in_flight w !! i = Some (salary_request (Form dt dn) e) ->
  exists w',
    respond E (S depth) i r w = Ok tt w' /\
    holds (read w' dt dn "currency")
          (if truthy (get r "currency") then get r "currency"
           else get_currency E (get doc "company")) /\
    (forall f, f <> "currency" -> f <> "exchange_rate" -> read w' dt dn f = get doc f).
Proof.
  intros Hfrm Hdt Hdoc Hq.
  set (v := if truthy (get r "currency") then get r "currency"
            else get_currency E (get doc "company")).
  set (w0 := without_request i w).
  assert (Hdoc0 : locals w0 !! (dt, dn) = Some doc) by exact Hdoc.
  (* setting [currency] to [v], with the [currency] handler behind it *)
  assert (Hset : exists w',
            set_value (fire E (S depth)) dt dn "currency" v w0 = Ok tt w' /\
            holds (read w' dt dn "currency") v /\
            (forall f, f <> "currency" -> f <> "exchange_rate" ->
                       read w' dt dn f = get doc f)).
  { unfold set_value. rewrite Hdoc0.
    destruct (strict_eq (get doc "currency") v) eqn:Hs.
    - exists w0. split; [reflexivity|]. split.
      + right. unfold read. now rewrite Hdoc0.
      + intros f _ _. unfold read. now rewrite Hdoc0.
    - set (w1 := store dt dn "currency" v w0).
      assert (Hdoc1 : locals w1 !! (dt, dn) = Some (<["currency":=v]> doc))
        by (eapply locals_store_eq, Hdoc0).
      rewrite (currency_run E depth dt dn w1 _ Hfrm Hdt Hdoc1).
      eexists. split; [reflexivity|].
      assert (Hr1 : read w1 dt dn "currency" = v) by (eapply read_store_eq, Hdoc0).
      assert (Hf1 : forall f, f <> "currency" -> read w1 dt dn f = get doc f).
      { intros f Hf. unfold w1. rewrite read_store_ne by congruence.
        unfold read. now rewrite Hdoc0. }
      destruct (truthy (get (<["currency":=v]> doc) "currency")).
      + destruct (loose_eq _ _ _).
        * split.
          -- left.
             change (read (with_property ?a ?b ?x ?y) dt dn "currency")
               with (read y dt dn "currency").
             change (read (with_property ?a ?b ?x ?y) dt dn "currency")
               with (read y dt dn "currency").
             now rewrite read_write_ne by discriminate.
          -- intros f Hf Hf'.
             change (read (with_property ?a ?b ?x ?y) dt dn f) with (read y dt dn f).
             change (read (with_property ?a ?b ?x ?y) dt dn f) with (read y dt dn f).
             rewrite read_write_ne by congruence. now apply Hf1.
        * split; [left; exact Hr1 | intros f Hf _; now apply Hf1].
      + split; [left; exact Hr1 | intros f Hf _; now apply Hf1]. }
  destruct Hset as (w' & Hrun & Hcur & Hrest).
  exists w'. split; [|split; assumption].
  unfold respond. rewrite Hq.
  change (World (cur_frm w) (locals w) (df w) (delete i (in_flight w)) (shown w)) with w0.
  apply currency_forms_cases in Hdt.
  destruct Hdt as [-> | ->]; unfold salary_request; cbn [on_response doctype];
    [change (String.eqb claim claim) with true
    |change (String.eqb auth claim) with false]; cbv iota; cbn [run_callback];
    [unfold TravelClaim.get_employee_currency_callback
    |unfold TravelAuthorization.get_employee_currency_callback];
    unfold bind, frm_set_value, doc_field, refresh_fields, ret; cbn [doctype docname];
    unfold v in Hrun; destruct (truthy (get r "currency"));
    try rewrite (field_Some _ _ _ _ _ Hdoc0); rewrite Hrun; reflexivity.
Qed.

(** C4.  On either form, when [employee] is set, the [employee] handler
    sends the salary-structure lookup for that employee.  If the response
    carries a currency, [currency] is set to it; otherwise [currency] is set
    to the resolved company currency: the default currency of the
    document's company, or of the site's default company when the document
    names none. *)
Theorem employee_currency_is_synchronised E depth dt dn w doc :
  cur_frm w = Form dt dn ->
  In dt currency_forms ->
  locals w !! (dt, dn) = Some doc ->
  truthy (get doc "employee") = true ->
  let q := salary_request (Form dt dn) (get doc "employee") in
  method q = "frappe.db.get_value" /\
  args q = [("doctype", Str "Salary Structure"); ("employee", get doc "employee");
            ("fieldname", Str "currency")] /\
  exists w1,
    fire E (S (S depth)) dt "employee" dn w = Ok tt w1 /\
    in_flight w1 !! List.length (in_flight w) = Some q /\
    locals w1 = locals w /\
    forall r, exists w2,
      respond E (S depth) (List.length (in_flight w)) r w1 = Ok tt w2 /\
      (truthy (get r "currency") = true ->
       holds (read w2 dt dn "currency") (get r "currency")) /\
      (truthy (get r "currency") = false ->
       holds (read w2 dt dn "currency") (resolved_company_currency E doc)) /\
      (get r "currency" = Str "USD" -> read w2 dt dn "currency" = Str "USD").
Proof.
  intros Hfrm Hdt Hdoc He q. split; [reflexivity|]. split; [reflexivity|].
  rewrite (employee_run E depth dt dn w doc Hfrm Hdt Hdoc He). fold q.
  set (w1 := if String.eqb dt claim then _ else _).
  assert (Hw1 : in_flight w1 !! List.length (in_flight w) = Some q /\
                locals w1 = locals w /\ cur_frm w1 = Form dt dn).
  { unfold w1. destruct (String.eqb dt claim); cbn [with_request in_flight locals cur_frm].
    - split; [apply lookup_last | auto].
    - split; [|auto]. rewrite <- !app_assoc. apply (list_lookup_middle _ _ _ _ eq_refl). }
  exists w1. split; [reflexivity|].
  destruct Hw1 as (Hin & Hloc & Hfrm1).
  split; [exact Hin|]. split; [exact Hloc|].
  intros r.
  assert (Hdoc1 : locals w1 !! (dt, dn) = Some doc) by (now rewrite Hloc).
  destruct (salary_response E depth dt dn w1 doc _ _ r Hfrm1 Hdt Hdoc1 Hin)
    as (w2 & Hrun & Hcur & _).
  exists w2. split; [exact Hrun|].
  split; [|split].
  - intros Hr. now rewrite Hr in Hcur.
  - intros Hr. rewrite Hr in Hcur. now rewrite <- callback_company_currency.
  - intros Hr. rewrite Hr in Hcur. cbn [truthy] in Hcur.
    change (negb (String.eqb "USD" "")) with true in Hcur. cbv iota in Hcur.
    now apply holds_Str.
Qed.

(** C10.  On either form, while [employee] is empty the [employee] handler
    does nothing -- no lookup is sent, no field changes -- and while
    [currency] is empty the [currency] handler does nothing.  A change of
    either field to an empty value writes that field and nothing more. *)
Theorem empty_trigger_field_is_a_no_op E depth dt dn w doc :
  cur_frm w = Form dt dn ->
  In dt currency_forms ->
  locals w !! (dt, dn) = Some doc ->
  (truthy (get doc "employee") = false ->
   fire E (S depth) dt "employee" dn w = Ok tt w) /\
  (truthy (get doc "currency") = false ->
   fire E (S depth) dt "currency" dn w = Ok tt w) /\
  (forall v, truthy v = false ->
   edit E (S depth) dt dn "employee" v w = Ok tt (write dt dn "employee" v w)) /\
  (forall v, truthy v = false ->
   edit E (S depth) dt dn "currency" v w = Ok tt (write dt dn "currency" v w)).
Proof.
  intros Hfrm Hdt Hdoc. split; [|split; [|split]].
  - now apply employee_quiet.
  - intros Hc. rewrite (currency_run E depth dt dn w doc Hfrm Hdt Hdoc), Hc. reflexivity.
  - intros v Hv. unfold edit, set_value, write, read. rewrite Hdoc.
    destruct (strict_eq (get doc "employee") v); [reflexivity|].
    eapply employee_quiet; [exact Hfrm | exact Hdt | eapply locals_store_eq, Hdoc |].
    now rewrite get_insert_eq.
  - intros v Hv. unfold edit, set_value, write, read. rewrite Hdoc.
    destruct (strict_eq (get doc "currency") v); [reflexivity|].
    rewrite (currency_run E depth dt dn (store dt dn "currency" v w)
               (<["currency":=v]> doc) Hfrm Hdt)
      by (eapply locals_store_eq, Hdoc).
    now rewrite get_insert_eq, Hv.
Qed.

End Currency.

(** ** Termination of dispatch *)

Module Termination.
Import JS Frappe Dispatch Session Run JSFacts.

Lemma steady_const {A} (m : M A) :
  (forall w, terminated (m w) = true) -> steady (fun _ => m).
Proof. intros H n w. auto. Qed.

Lemma steady_bind {A B} (m : nat -> M A) (k : nat -> A -> M B) :
  steady m -> (forall a, steady (fun n => k n a)) -> steady (fun n => bind (m n) (k n)).
Proof.
  intros Hm Hk n w. unfold bind.
  destruct (Hm n w) as [-> Ht].
  destruct (m 0 w) as [a w'| |]; [apply (Hk a) | auto | discriminate].
Qed.

Lemma steady_when b (m : nat -> M unit) :
  steady m -> steady (fun n => when b (m n)).
Proof. intros H. destruct b; [exact H | intros n w; cbn; auto]. Qed.

Lemma steady_if {A} (b : bool) (m1 m2 : nat -> M A) :
  steady m1 -> steady m2 -> steady (fun n => if b then m1 n else m2 n).
Proof. intros H1 H2. now destruct b. Qed.

Lemma steady_field cdt cdn f : steady (fun _ => field cdt cdn f).
Proof. apply steady_const. intros w. unfold field. now destruct (locals w !! (cdt, cdn)). Qed.

Lemma steady_doc_field frm f : steady (fun _ => doc_field frm f).
Proof. apply steady_field. Qed.

Lemma steady_call q : steady (fun _ => call q).
Proof. now apply steady_const. Qed.

Lemma steady_msgprint m : steady (fun _ => msgprint m).
Proof. now apply steady_const. Qed.

Lemma steady_set_df_property f p v : steady (fun _ => set_df_property f p v).
Proof. now apply steady_const. Qed.

Lemma steady_ret {A} (a : A) : steady (fun _ => ret a).
Proof. now apply steady_const. Qed.

(** [set_value] is as steady as the dispatcher behind it. *)
Lemma steady_set_value (run : nat -> dispatcher) cdt cdn f v :
  (forall name, steady (fun n => run n cdt f name)) ->
  steady (fun n => set_value (run n) cdt cdn f v).
Proof.
  intros H n w. unfold set_value.
  destruct (locals w !! (cdt, cdn)); [|auto].
  destruct (strict_eq _ _); [auto|]. apply H.
Qed.

(** An event no script names is steady at any depth. *)
Lemma steady_foreign E (base : nat) dt ev name :
  ~ In ev (handled_events E) -> steady (fun n => fire E (base + n) dt ev name).
Proof.
  intros H n w.
  rewrite !fire_unhandled by (now apply lookup_foreign_event). auto.
Qed.

Ltac steady_step E :=
  first
    [ apply steady_field | apply steady_doc_field | apply steady_call
    | apply steady_msgprint | apply steady_set_df_property | apply steady_ret
    | apply steady_when | apply steady_if
    | apply steady_bind; [|intros ?]
    | apply steady_set_value; intros ?; apply (steady_foreign E);
      cbn; intuition discriminate ].

Ltac steady_auto E :=
  cbv zeta;
  unfold frm_set_value, refresh_fields, console_log,
         TravelClaim.set_exchange_rate, TravelAuthorization.set_exchange_rate;
  repeat steady_step E.

(** The handlers that set no field with a handler of its own and trigger no
    event: steady from any depth on. *)
Lemma steady_leaves E base frm cdt cdn r cc :
  steady (fun n => TravelClaim.currency E (fire E (base + n)) frm) /\
  steady (fun n => TravelAuthorization.currency E (fire E (base + n)) frm) /\
  steady (fun n => TravelClaimItem.calculate E (fire E (base + n)) frm cdt cdn) /\
  steady (fun _ : nat => TravelClaim.get_employee_currency frm) /\
  steady (fun _ : nat => TravelAuthorization.get_employee_currency frm) /\
  steady (fun _ : nat => TravelAuthorization.set_reports_to frm) /\
  steady (fun _ : nat => TravelAuthorization.set_approver frm) /\
  steady (fun _ : nat => TravelClaim.set_exchange_rate frm (Str cdt) (Str cdn)) /\
  steady (fun _ : nat => TravelAuthorization.set_exchange_rate frm (Str cdt) (Str cdn)) /\
  steady (fun n => TravelClaim.set_exchange_rate_callback E (fire E (base + n)) frm cc r) /\
  steady (fun n =>
            TravelAuthorization.set_exchange_rate_callback E (fire E (base + n)) frm cc r) /\
  steady (fun n => TravelAuthorization.set_reports_to_callback (fire E (base + n)) frm r) /\
  steady (fun n => TravelAuthorization.set_approver_callback (fire E (base + n)) frm r).
Proof.
  repeat apply conj.
  - unfold TravelClaim.currency. steady_auto E.
  - unfold TravelAuthorization.currency. steady_auto E.
  - unfold TravelClaimItem.calculate. steady_auto E.
  - unfold TravelClaim.get_employee_currency. steady_auto E.
  - unfold TravelAuthorization.get_employee_currency. steady_auto E.
  - unfold TravelAuthorization.set_reports_to. steady_auto E.
  - unfold TravelAuthorization.set_approver. steady_auto E.
  - steady_auto E.
  - steady_auto E.
  - unfold TravelClaim.set_exchange_rate_callback. steady_auto E.
  - unfold TravelAuthorization.set_exchange_rate_callback. steady_auto E.
  - unfold TravelAuthorization.set_reports_to_callback. steady_auto E.
  - unfold TravelAuthorization.set_approver_callback. steady_auto E.
Qed.

Ltac registry_cases H :=
  apply lookup_In in H; cbn [registry In] in H;
  repeat (destruct H as [H | H]; [injection H as <- <- <- |]);
  [.. | destruct H].

(** Every other event is settled by its handler alone: depth 1 is enough. *)
Lemma steady_fire_leaf E dt ev name :
  ~ In ev nesting_events -> steady (fun n => fire E (1 + n) dt ev name).
Proof.
  intros Hnot n w. rewrite !fire_eq.
  destruct (lookup_handler (registry E) dt ev) as [h|] eqn:Hl; [|auto].
  cbn [Nat.add].
  pose proof (steady_leaves E 0 (cur_frm w) dt name ∅ Undefined) as Hleaves.
  destruct Hleaves as (H1 & H2 & H3 & H4 & H5 & H6 & H7 & H8 & H9 & _).
  registry_cases Hl;
    try (exfalso; apply Hnot; cbn; tauto);
    first [ apply H1 | apply H2 | apply H3 | apply (H4 n) | apply (H5 n)
          | apply (H6 n) | apply (H7 n) | apply (H8 n) | apply (H9 n) ].
Qed.

(** The handlers that trigger a further event: depth 2 is enough. *)
Lemma steady_triggers E frm cdt cdn :
  steady (fun n => TravelClaim.employee (fire E (1 + n)) frm) /\
  steady (fun n => TravelAuthorization.employee (fire E (1 + n)) frm) /\
  steady (fun n => TravelClaimItem.mileage_rate (fire E (1 + n)) frm cdt cdn) /\
  steady (fun n => TravelClaimItem.distance (fire E (1 + n)) frm cdt cdn).
Proof.
  assert (Hleaf : forall dt ev name,
            ~ In ev nesting_events -> steady (fun n => fire E (S n) dt ev name))
    by (intros; now apply steady_fire_leaf).
  repeat apply conj.
  - unfold TravelClaim.employee, trigger.
    apply steady_bind; [apply steady_doc_field | intros e]. apply steady_when.
    apply Hleaf. cbn. intuition discriminate.
  - unfold TravelAuthorization.employee, trigger.
    apply steady_bind; [apply steady_doc_field | intros e]. apply steady_when.
    repeat (apply steady_bind; [|intros ?]); apply Hleaf; cbn; intuition discriminate.
  - unfold TravelClaimItem.mileage_rate, trigger_row.
    apply Hleaf. cbn. intuition discriminate.
  - unfold TravelClaimItem.distance, trigger_row.
    apply Hleaf. cbn. intuition discriminate.
Qed.

(** On a row that is not open, a date handler throws at its first read. *)
Lemma date_handler_no_row E depth dt ev cdn w :
  In dt date_tables ->
  In ev ["from_date"; "to_date"] ->
  locals w !! (dt, cdn) = None ->
  fire E (S depth) dt ev cdn w = Throw.
Proof.
  intros Hdt Hev Hrow. apply Dates.date_tables_cases in Hdt.
  destruct Hdt as [-> | ->]; destruct Hev as [<- | [<- | []]].
  - rewrite (fire_handled E depth _ _ cdn w (TravelAuthorizationItem.from_date E))
      by reflexivity.
    unfold TravelAuthorizationItem.from_date, bind, field. now rewrite Hrow.
  - rewrite (fire_handled E depth _ _ cdn w (TravelAuthorizationItem.to_date E))
      by reflexivity.
    unfold TravelAuthorizationItem.to_date, bind, field. now rewrite Hrow.
  - rewrite (fire_handled E depth _ _ cdn w TravelAdjustmentItem.from_date)
      by reflexivity.
    unfold TravelAdjustmentItem.from_date, bind, field. now rewrite Hrow.
  - rewrite (fire_handled E depth _ _ cdn w (TravelAdjustmentItem.to_date E))
      by reflexivity.
    unfold TravelAdjustmentItem.to_date, bind, field. now rewrite Hrow.
Qed.

(** The date handlers: the nested [to_date] dispatch finds the dates equal,
    so depth 2 is enough. *)
Lemma steady_dates E dt ev cdn :
  In dt date_tables ->
  In ev ["from_date"; "to_date"] ->
  steady (fun n => fire E (2 + n) dt ev cdn).
Proof.
  intros Hdt Hev n w. cbn [Nat.add].
  destruct (locals w !! (dt, cdn)) as [row|] eqn:Hrow.
  - destruct Hev as [<- | [<- | []]].
    + rewrite !(Dates.from_date_run E _ dt cdn w row Hdt Hrow). auto.
    + destruct (truthy (get row "from_date")
                && lt (js E) (get row "to_date") (get row "from_date")) eqn:Hc.
      * apply andb_true_iff in Hc. destruct Hc as [Hf Hlt].
        rewrite !(Dates.to_date_clamps E _ dt cdn w row Hdt Hrow Hf Hlt). auto.
      * rewrite !(Dates.to_date_quiet E _ dt cdn w row Hdt Hrow Hc). auto.
  - rewrite !(date_handler_no_row E _ dt ev cdn w Hdt Hev Hrow). auto.
Qed.

(** Every event is settled within two levels of dispatch. *)
Lemma steady_fire E dt ev name : steady (fun n => fire E (2 + n) dt ev name).
Proof.
  destruct (in_dec String.string_dec ev nesting_events) as [Hin | Hnot].
  2:{ intros n w.
      destruct (steady_fire_leaf E dt ev name Hnot (S n) w) as [Ha _].
      destruct (steady_fire_leaf E dt ev name Hnot 1 w) as [Hb Ht].
      cbn [Nat.add] in *. rewrite Ha, Hb. auto. }
  intros n w. cbn [Nat.add]. rewrite !fire_eq.
  destruct (lookup_handler (registry E) dt ev) as [h|] eqn:Hl; [|auto].
  destruct (steady_triggers E (cur_frm w) dt name) as (H1 & H2 & H3 & H4).
  registry_cases Hl;
    try (exfalso; cbn in Hin; intuition discriminate);
    first [ apply (H1 n) | apply (H2 n) | apply (H3 n) | apply (H4 n) | idtac ].
  - pose proof (steady_dates E "Travel Authorization Item" "from_date" name) as H.
    destruct (H ltac:(cbn; auto) ltac:(cbn; auto) n w) as [Ha Hb].
    cbn [Nat.add] in Ha, Hb. rewrite !fire_eq in Ha, Hb. exact (conj Ha Hb).
  - pose proof (steady_dates E "Travel Authorization Item" "to_date" name) as H.
    destruct (H ltac:(cbn; auto) ltac:(cbn; auto) n w) as [Ha Hb].
    cbn [Nat.add] in Ha, Hb. rewrite !fire_eq in Ha, Hb. exact (conj Ha Hb).
  - pose proof (steady_dates E "Travel Adjustment Item" "from_date" name) as H.
    destruct (H ltac:(cbn; auto) ltac:(cbn; auto) n w) as [Ha Hb].
    cbn [Nat.add] in Ha, Hb. rewrite !fire_eq in Ha, Hb. exact (conj Ha Hb).
  - pose proof (steady_dates E "Travel Adjustment Item" "to_date" name) as H.
    destruct (H ltac:(cbn; auto) ltac:(cbn; auto) n w) as [Ha Hb].
    cbn [Nat.add] in Ha, Hb. rewrite !fire_eq in Ha, Hb. exact (conj Ha Hb).
Qed.

(** Edits and responses are settled within two levels of dispatch. *)
Lemma steady_dispatch E k :
  (forall cdt cdn f v w,
     edit E (2 + k) cdt cdn f v w = edit E 2 cdt cdn f v w /\
     terminated (edit E 2 cdt cdn f v w) = true) /\
  (forall i r w,
     respond E (2 + k) i r w = respond E 2 i r w /\
     terminated (respond E 2 i r w) = true).
Proof.
  assert (Hset : forall cdt cdn f v,
            steady (fun n => set_value (fire E (2 + n)) cdt cdn f v)).
  { intros. apply (steady_set_value (fun n => fire E (2 + n))).
    intros name. apply steady_fire. }
  split.
  - intros cdt cdn f v w. apply (Hset cdt cdn f v k w).
  - intros i r w. unfold respond.
    destruct (in_flight w !! i) as [q|]; [|auto].
    set (w0 := World _ _ _ _ _).
    assert (Hcb : steady (fun n => run_callback E (fire E (2 + n)) (on_response q) r)).
    { destruct (on_response q) as [frm | frm cc | frm | frm cc | frm | frm];
        cbn [run_callback].
      - unfold TravelClaim.get_employee_currency_callback, frm_set_value, refresh_fields.
        apply steady_bind; [|intros ?; apply steady_ret].
        apply steady_if; [apply Hset|].
        apply steady_bind; [apply steady_doc_field | intros ?; apply Hset].
      - apply (steady_leaves E 2 frm "" "" r cc).
      - unfold TravelAuthorization.get_employee_currency_callback, frm_set_value,
          refresh_fields.
        apply steady_bind; [|intros ?; apply steady_ret].
        apply steady_if; [apply Hset|].
        apply steady_bind; [apply steady_doc_field | intros ?; apply Hset].
      - apply (steady_leaves E 2 frm "" "" r cc).
      - apply (steady_leaves E 2 frm "" "" r Undefined).
      - apply (steady_leaves E 2 frm "" "" r Undefined). }
    apply (Hcb k w0).
Qed.

Lemma extends_refl w : extends w w.
Proof. split; auto. Qed.

Lemma extends_trans w1 w2 w3 : extends w1 w2 -> extends w2 w3 -> extends w1 w3.
Proof. intros [H1 H2] [H3 H4]. split; [congruence | auto]. Qed.

Lemma extends_store cdt cdn f v w : extends w (store cdt cdn f v w).
Proof.
  split; [reflexivity|]. intros k [d Hd].
  destruct (decide (k = (cdt, cdn))) as [-> | Hne].
  - rewrite (locals_store_eq _ _ _ _ _ _ Hd). eauto.
  - rewrite locals_store_ne by exact Hne. eauto.
Qed.

Lemma sound_bind {A B} frm K (m : M A) (k : A -> M B) :
  sound_on frm K m -> (forall a, sound_on frm K (k a)) -> sound_on frm K (bind m k).
Proof.
  intros Hm Hk w Hfrm Hopen. unfold bind.
  specialize (Hm w Hfrm Hopen).
  destruct (m w) as [a w'| |]; [|auto|auto].
  destruct Hm as [Hf Hl].
  assert (Hfrm' : cur_frm w' = frm) by congruence.
  specialize (Hk a w' Hfrm' (fun k Hk => Hl k (Hopen k Hk))).
  destruct (k a w') as [b w''| |]; [|auto|auto].
  eapply extends_trans; [split; eassumption | exact Hk].
Qed.

Lemma sound_when frm K b (m : M unit) :
  sound_on frm K m -> sound_on frm K (when b m).
Proof. intros H. destruct b; [exact H|]. intros w _ _. apply extends_refl. Qed.

Lemma sound_if {A} frm K (b : bool) (m1 m2 : M A) :
  sound_on frm K m1 -> sound_on frm K m2 -> sound_on frm K (if b then m1 else m2).
Proof. now destruct b. Qed.

Lemma sound_field frm K cdt cdn f : In (cdt, cdn) K -> sound_on frm K (field cdt cdn f).
Proof.
  intros Hin w _ Hopen. unfold field.
  destruct (Hopen _ Hin) as [d ->]. apply extends_refl.
Qed.

Lemma sound_doc_field frm K f :
  In (doctype frm, docname frm) K -> sound_on frm K (doc_field frm f).
Proof. apply sound_field. Qed.

Lemma sound_call frm K q : sound_on frm K (call q).
Proof. intros w _ _. split; auto. Qed.

Lemma sound_msgprint frm K m : sound_on frm K (msgprint m).
Proof. intros w _ _. split; auto. Qed.

Lemma sound_set_df_property frm K f p v : sound_on frm K (set_df_property f p v).
Proof. intros w _ _. split; auto. Qed.

Lemma sound_ret {A} frm K (a : A) : sound_on frm K (ret a).
Proof. intros w _ _. apply extends_refl. Qed.

Lemma sound_set_value frm K (run : dispatcher) cdt cdn f v :
  sound_on frm K (run cdt f cdn) -> sound_on frm K (set_value run cdt cdn f v).
Proof.
  intros Hrun w Hfrm Hopen. unfold set_value.
  destruct (locals w !! (cdt, cdn)); [|apply extends_refl].
  destruct (strict_eq _ _); [apply extends_refl|].
  pose proof (extends_store cdt cdn f v w) as [Hf Hl].
  specialize (Hrun (store cdt cdn f v w) Hfrm (fun k Hk => Hl k (Hopen k Hk))).
  destruct (run cdt f cdn (store cdt cdn f v w)); [|auto|auto].
  eapply extends_trans; [split; eassumption | exact Hrun].
Qed.

Ltac sound_step IH :=
  first
    [ apply sound_field; assumption | apply sound_doc_field; assumption
    | apply sound_call | apply sound_msgprint | apply sound_set_df_property
    | apply sound_ret | apply sound_when | apply sound_if
    | apply sound_bind; [|intros ?]
    | apply sound_set_value; apply IH; assumption
    | apply IH; assumption ].

Ltac sound_auto IH :=
  cbv zeta;
  unfold frm_set_value, trigger, trigger_row, refresh_fields, console_log,
         TravelClaim.set_exchange_rate, TravelAuthorization.set_exchange_rate;
  repeat sound_step IH.

(** No handler throws while the form's document and the row of the event
    are open. *)
Lemma sound_fire E depth :
  forall frm K dt ev name,
    In (doctype frm, docname frm) K -> In (dt, name) K ->
    sound_on frm K (fire E depth dt ev name).
Proof.
  induction depth as [|depth IH]; intros frm K dt ev name Hform Hrow w Hfrm Hopen;
    rewrite fire_eq;
    destruct (lookup_handler (registry E) dt ev) as [h|] eqn:Hl;
    try apply extends_refl; try exact I.
  rewrite Hfrm. revert w Hfrm Hopen.
  registry_cases Hl;
    match goal with
    | |- forall w, _ -> _ -> match ?m w with _ => _ end => change (sound_on frm K m)
    end.
  - unfold TravelClaim.employee. sound_auto IH.
  - unfold TravelClaim.get_employee_currency. sound_auto IH.
  - unfold TravelClaim.currency. sound_auto IH.
  - sound_auto IH.
  - unfold TravelClaimItem.mileage_rate. sound_auto IH.
  - unfold TravelClaimItem.distance. sound_auto IH.
  - unfold TravelClaimItem.calculate. sound_auto IH.
  - unfold TravelAuthorization.employee. sound_auto IH.
  - unfold TravelAuthorization.get_employee_currency. sound_auto IH.
  - unfold TravelAuthorization.currency. sound_auto IH.
  - sound_auto IH.
  - unfold TravelAuthorization.set_reports_to. sound_auto IH.
  - unfold TravelAuthorization.set_approver. sound_auto IH.
  - unfold TravelAuthorizationItem.from_date. sound_auto IH.
  - unfold TravelAuthorizationItem.to_date. sound_auto IH.
  - unfold TravelAdjustmentItem.from_date. sound_auto IH.
  - unfold TravelAdjustmentItem.to_date. sound_auto IH.
Qed.

(** A callback of the session's own form does not throw either. *)
Lemma sound_callback E depth cb r :
  sound_on (callback_form cb)
    [(doctype (callback_form cb), docname (callback_form cb))]
    (run_callback E (fire E depth) cb r).
Proof.
  pose proof (sound_fire E depth) as IH.
  assert (Hin : forall frm : form, In (doctype frm, docname frm) [(doctype frm, docname frm)])
    by (intros; now left).
  destruct cb as [frm | frm cc | frm | frm cc | frm | frm];
    cbn [run_callback callback_form]; specialize (Hin frm).
  - unfold TravelClaim.get_employee_currency_callback. sound_auto IH.
  - unfold TravelClaim.set_exchange_rate_callback. sound_auto IH.
  - unfold TravelAuthorization.get_employee_currency_callback. sound_auto IH.
  - unfold TravelAuthorization.set_exchange_rate_callback. sound_auto IH.
  - unfold TravelAuthorization.set_reports_to_callback. sound_auto IH.
  - unfold TravelAuthorization.set_approver_callback. sound_auto IH.
Qed.

(** C8.  Every mutation event is dispatched to the end within two levels
    of nesting: with any larger bound the run is the same, and with bound 2
    it never runs out.  The same holds for the arrival of any response.  So
    a field set by a handler that triggers another handler (the [from_date]
    rule setting [to_date], the currency chain) settles after a bounded
    number of hops.  While the document of the form is open the run
    completes: it ends in a session, with nothing thrown. *)
Theorem dispatch_terminates E k :
  (forall cdt cdn f v w,
     edit E (2 + k) cdt cdn f v w = edit E 2 cdt cdn f v w /\
     terminated (edit E 2 cdt cdn f v w) = true) /\
  (forall i r w,
     respond E (2 + k) i r w = respond E 2 i r w /\
     terminated (respond E 2 i r w) = true) /\
  (forall cdt cdn f v w,
     form_open w -> exists w', edit E 2 cdt cdn f v w = Ok tt w') /\
  (forall i r w q,
     form_open w ->
     in_flight w !! i = Some q ->
     callback_form (on_response q) = cur_frm w ->
     exists w', respond E 2 i r w = Ok tt w').
Proof.
  destruct (steady_dispatch E k) as [Hedit Hresp].
  split; [exact Hedit|]. split; [exact Hresp|]. split.
  - intros cdt cdn f v w Hopen.
    destruct (Hedit cdt cdn f v w) as [_ Hterm].
    destruct (locals w !! (cdt, cdn)) as [d|] eqn:Hrow.
    + assert (Hsound : sound_on (cur_frm w)
                [(doctype (cur_frm w), docname (cur_frm w)); (cdt, cdn)]
                (edit E 2 cdt cdn f v)).
      { apply sound_set_value, sound_fire; cbn; auto. }
      specialize (Hsound w eq_refl).
      destruct (edit E 2 cdt cdn f v w) as [[] w'| |]; [eauto | exfalso | discriminate].
      apply Hsound. intros k0 [<- | [<- | []]]; [exact Hopen | eauto].
    + exists w. unfold edit, set_value. now rewrite Hrow.
  - intros i r w q Hopen Hq Hcb.
    destruct (Hresp i r w) as [_ Hterm].
    unfold respond in *. rewrite Hq in *.
    pose proof (sound_callback E 2 (on_response q) r) as Hsound.
    rewrite Hcb in Hsound.
    specialize (Hsound (World (cur_frm w) (locals w) (df w) (delete i (in_flight w))
                          (shown w)) eq_refl).
    destruct (run_callback E (fire E 2) (on_response q) r _) as [[] w'| |];
      [eauto | exfalso | discriminate].
    apply Hsound. intros k0 [<- | []]. exact Hopen.
Qed.

End Termination.

(** ** Worked examples *)

Module Examples.
Import JS Frappe Dispatch Session Run Scenario.

(** The mileage rule on the row with rate 2, distance 3 and amount 0. *)
Lemma mileage_rule_accumulates_witness :
  locals mileage_session !! ("Travel Claim Item", "row-1") = Some mileage_row /\
  exists w1 w2,
    fire site 1 "Travel Claim Item" "calculate" "row-1" mileage_session = Ok tt w1 /\
    read w1 "Travel Claim Item" "row-1" "mileage_amount" = Num 6 /\
    read w1 "Travel Claim Item" "row-1" "amount" = Num 6 /\
    fire site 1 "Travel Claim Item" "calculate" "row-1" w1 = Ok tt w2 /\
    read w2 "Travel Claim Item" "row-1" "mileage_amount" = Num 6 /\
    read w2 "Travel Claim Item" "row-1" "amount" = Num 12.
Proof.
  split; [reflexivity|].
  destruct (Mileage.mileage_rule_accumulates site 0 "row-1" mileage_session mileage_row)
    as (_ & _ & _ & H); [reflexivity|].
  apply H; reflexivity.
Defined.

(** A claim in USD for a company that keeps its books in INR. *)
Lemma exchange_rate_is_fetched_witness :
  (cur_frm (claim_session usd_claim) = claim_form /\
   In "Travel Claim" currency_forms /\
   locals (claim_session usd_claim) !! ("Travel Claim", "TC-0001") = Some usd_claim /\
   truthy (get usd_claim "currency") = true /\
   loose_eq plain (get usd_claim "currency") (resolved_company_currency site usd_claim) = false) /\
  fire site 1 "Travel Claim" "currency" "TC-0001" (claim_session usd_claim) =
  Ok tt (with_request (exchange_request claim_form (Str "USD") (Str "INR"))
           (claim_session usd_claim)).
Proof.
  split.
  - repeat split; try reflexivity. left. reflexivity.
  - assert (Hdt : In "Travel Claim" currency_forms) by (left; reflexivity).
    apply (Currency.exchange_rate_is_fetched site 0 "Travel Claim" "TC-0001"
             (claim_session usd_claim) usd_claim eq_refl Hdt eq_refl eq_refl eq_refl).
Defined.

(** A claim in INR for a company that keeps its books in INR. *)
Lemma same_currency_needs_no_rate_witness :
  (cur_frm (claim_session inr_claim) = claim_form /\
   In "Travel Claim" currency_forms /\
   locals (claim_session inr_claim) !! ("Travel Claim", "TC-0001") = Some inr_claim /\
   truthy (get inr_claim "currency") = true /\
   get inr_claim "currency" = resolved_company_currency site inr_claim) /\
  exists w',
    fire site 1 "Travel Claim" "currency" "TC-0001" (claim_session inr_claim) = Ok tt w' /\
    holds (read w' "Travel Claim" "TC-0001" "exchange_rate") (Num 1) /\
    df w' !! ("exchange_rate", "hidden") = Some (Num 1) /\
    df w' !! ("exchange_rate", "description") = Some (Str "") /\
    in_flight w' = [].
Proof.
  split.
  - repeat split; try reflexivity. left. reflexivity.
  - destruct (Currency.same_currency_needs_no_rate site 0 "Travel Claim" "TC-0001"
                (claim_session inr_claim) inr_claim)
      as (w' & H1 & H2 & H3 & H4 & H5 & _); try reflexivity.
    + left. reflexivity.
    + exists w'. auto.
Defined.

(** A claim with an employee whose salary structure is in USD. *)
Lemma employee_currency_is_synchronised_witness :
  (cur_frm (claim_session unassigned_claim) = claim_form /\
   In "Travel Claim" currency_forms /\
   locals (claim_session unassigned_claim) !! ("Travel Claim", "TC-0001")
     = Some unassigned_claim /\
   truthy (get unassigned_claim "employee") = true) /\
  exists w1 w2,
    fire site 2 "Travel Claim" "employee" "TC-0001" (claim_session unassigned_claim)
      = Ok tt w1 /\
    respond site 1 0 {[ "currency" := Str "USD" ]} w1 = Ok tt w2 /\
    read w2 "Travel Claim" "TC-0001" "currency" = Str "USD".
Proof.
  split.
  - repeat split; try reflexivity. left. reflexivity.
  - destruct (Currency.employee_currency_is_synchronised site 0 "Travel Claim" "TC-0001"
                (claim_session unassigned_claim) unassigned_claim)
      as (_ & _ & w1 & Hfire & _ & _ & Hresp); try reflexivity.
    + left. reflexivity.
    + destruct (Hresp {[ "currency" := Str "USD" ]}) as (w2 & Hrun & _ & _ & Husd).
      exists w1, w2. repeat split; [exact Hfire | exact Hrun | apply Husd; reflexivity].
Defined.

(** The open row: [from_date] moves to 2025-01-15 and takes [to_date] along. *)
Lemma from_date_change_fills_to_date_witness :
  (In "Travel Authorization Item" date_tables /\
   locals (trip_session open_row) !! ("Travel Authorization Item", "row-1") = Some open_row /\
   strict_eq (get open_row "from_date") (Str "2025-01-15") = false /\
   truthy (get open_row "halt") = false /\
   truthy (Str "2025-01-15") = true /\
   loose_eq plain (Str "2025-01-15") (get open_row "to_date") = false) /\
  edit site 2 "Travel Authorization Item" "row-1" "from_date" (Str "2025-01-15")
    (trip_session open_row) =
  Ok tt (store "Travel Authorization Item" "row-1" "to_date" (Str "2025-01-15")
           (store "Travel Authorization Item" "row-1" "from_date" (Str "2025-01-15")
              (trip_session open_row))).
Proof.
  split.
  - repeat split; try reflexivity. left. reflexivity.
  - assert (Hdt : In "Travel Authorization Item" date_tables) by (left; reflexivity).
    destruct (Dates.from_date_change_fills_to_date site 0 "Travel Authorization Item" "row-1"
                (trip_session open_row) open_row Hdt eq_refl) as (H & _).
    apply H; reflexivity.
Defined.

(** The open row: [to_date] set to 2025-01-05 is put back to 2025-01-10. *)
Lemma to_date_change_is_clamped_witness :
  (In "Travel Authorization Item" date_tables /\
   locals (trip_session open_row) !! ("Travel Authorization Item", "row-1") = Some open_row /\
   truthy (get open_row "from_date") = true /\
   strict_eq (get open_row "to_date") (Str "2025-01-05") = false /\
   lt plain (Str "2025-01-05") (get open_row "from_date") = true) /\
  edit site 2 "Travel Authorization Item" "row-1" "to_date" (Str "2025-01-05")
    (trip_session open_row) =
  Ok tt (store "Travel Authorization Item" "row-1" "to_date" (Str "2025-01-10")
           (with_message (Message None "To Date cannot be earlier than From Date" None)
              (store "Travel Authorization Item" "row-1" "to_date" (Str "2025-01-05")
                 (trip_session open_row)))).
Proof.
  split.
  - repeat split; try reflexivity. left. reflexivity.
  - assert (Hdt : In "Travel Authorization Item" date_tables) by (left; reflexivity).
    destruct (Dates.to_date_change_is_clamped site 0 "Travel Authorization Item" "row-1"
                (trip_session open_row) open_row Hdt eq_refl) as (H & _).
    apply H; reflexivity.
Defined.

(** The open row, through three edits. *)
Lemma dates_stay_in_order_unless_halted_witness :
  (In "Travel Authorization Item" date_tables /\
   locals (trip_session open_row) !! ("Travel Authorization Item", "row-1") = Some open_row /\
   dates_in_order plain open_row = true /\
   truthy (get open_row "halt") = false) /\
  exists w' row',
    apply_edits site 2 "Travel Authorization Item" "row-1"
      [SetTo (Str "2025-01-05"); SetFrom (Str "2025-01-15"); SetTo (Str "2025-01-20")]
      (trip_session open_row) = Ok tt w' /\
    locals w' !! ("Travel Authorization Item", "row-1") = Some row' /\
    dates_in_order plain row' = true.
Proof.
  split.
  - repeat split; try reflexivity. left. reflexivity.
  - apply (Dates.dates_stay_in_order_unless_halted site 0 "Travel Authorization Item" "row-1"
             [SetTo (Str "2025-01-05"); SetFrom (Str "2025-01-15"); SetTo (Str "2025-01-20")]
             (trip_session open_row) open_row); try reflexivity.
    + left. reflexivity.
    + left. reflexivity.
Defined.

(** C7, counterexample.  The halted row dated 2025-01-10 to 2025-01-10 has
    its dates in order; after [from_date] is set to 2025-01-15 both dates
    are set and [to_date] is the earlier one. *)
Lemma halted_row_falls_out_of_order :
  dates_in_order plain halted_row = true /\
  truthy (get halted_row "halt") = true /\
  exists w',
    edit site 2 "Travel Authorization Item" "row-1" "from_date" (Str "2025-01-15")
      (trip_session halted_row) = Ok tt w' /\
    read w' "Travel Authorization Item" "row-1" "from_date" = Str "2025-01-15" /\
    read w' "Travel Authorization Item" "row-1" "to_date" = Str "2025-01-10" /\
    row_in_order plain w' "Travel Authorization Item" "row-1" = false.
Proof.
  repeat split; try reflexivity.
  exists (store "Travel Authorization Item" "row-1" "from_date" (Str "2025-01-15")
            (trip_session halted_row)).
  repeat split; vm_compute; reflexivity.
Qed.

(** The older of the two requests in flight is answered. *)
Lemma every_rate_response_is_applied_witness :
  (In "Travel Claim" currency_forms /\
   locals two_requests !! ("Travel Claim", "TC-0001")
     = Some {[ "company" := Str "ACME"; "currency" := Str "EUR" ]} /\
   in_flight two_requests !! 0 = Some (exchange_request claim_form (Str "USD") (Str "INR"))) /\
  exists w',
    respond site 0 0 {[ "message" := Num 83.5 ]} two_requests = Ok tt w' /\
    holds (read w' "Travel Claim" "TC-0001" "exchange_rate") (Num 83.5) /\
    df w' !! ("exchange_rate", "description") = Some (Str "1 EUR = [?] INR").
Proof.
  split.
  - repeat split; try (vm_compute; reflexivity). left. reflexivity.
  - destruct (Currency.every_rate_response_is_applied site 0 "Travel Claim" "TC-0001"
                two_requests {[ "company" := Str "ACME"; "currency" := Str "EUR" ]}
                0 (Str "USD") (Str "INR") {[ "message" := Num 83.5 ]})
      as (w' & H1 & H2 & _ & H4 & _); try (vm_compute; reflexivity).
    + left. reflexivity.
    + exists w'. repeat split; assumption.
Defined.

(** C9, counterexample.  With the USD request and then the EUR request in
    flight and the document in EUR, the response to the USD request arrives:
    [exchange_rate] takes its rate, under the description for EUR, while the
    EUR request is still in flight. *)
Lemma stale_response_is_applied :
  in_flight two_requests =
    [exchange_request claim_form (Str "USD") (Str "INR");
     exchange_request claim_form (Str "EUR") (Str "INR")] /\
  read two_requests "Travel Claim" "TC-0001" "currency" = Str "EUR" /\
  read two_requests "Travel Claim" "TC-0001" "exchange_rate" = Undefined /\
  exists w',
    respond site 2 0 {[ "message" := Num 83.5 ]} two_requests = Ok tt w' /\
    in_flight w' = [exchange_request claim_form (Str "EUR") (Str "INR")] /\
    read w' "Travel Claim" "TC-0001" "exchange_rate" = Num 83.5 /\
    df w' !! ("exchange_rate", "description") = Some (Str "1 EUR = [?] INR").
Proof.
  repeat split; try (vm_compute; reflexivity).
  exists (final two_requests (respond site 2 0 {[ "message" := Num 83.5 ]} two_requests)).
  repeat split; vm_compute; reflexivity.
Qed.

(** A change of [mileage_rate] on the claim with one item. *)
Lemma dispatch_terminates_witness :
  form_open mileage_session /\
  exists w',
    edit site 2 "Travel Claim Item" "row-1" "mileage_rate" (Num 5) mileage_session
      = Ok tt w'.
Proof.
  assert (Hopen : form_open mileage_session) by (eexists; reflexivity).
  split; [exact Hopen|].
  destruct (Termination.dispatch_terminates site 0) as (_ & _ & H & _).
  apply H, Hopen.
Defined.

(** A claim with neither employee nor currency. *)
Lemma empty_trigger_field_is_a_no_op_witness :
  (cur_frm (claim_session blank_claim) = claim_form /\
   In "Travel Claim" currency_forms /\
   locals (claim_session blank_claim) !! ("Travel Claim", "TC-0001") = Some blank_claim /\
   truthy (get blank_claim "employee") = false /\
   truthy (get blank_claim "currency") = false) /\
  fire site 1 "Travel Claim" "employee" "TC-0001" (claim_session blank_claim)
    = Ok tt (claim_session blank_claim) /\
  fire site 1 "Travel Claim" "currency" "TC-0001" (claim_session blank_claim)
    = Ok tt (claim_session blank_claim).
Proof.
  split.
  - repeat split; try reflexivity. left. reflexivity.
  - assert (Hdt : In "Travel Claim" currency_forms) by (left; reflexivity).
    destruct (Currency.empty_trigger_field_is_a_no_op site 0 "Travel Claim" "TC-0001"
                (claim_session blank_claim) blank_claim eq_refl Hdt eq_refl) as (H1 & H2 & _).
    split; [apply H1 | apply H2]; reflexivity.
Defined.

End Examples.

(** * Further properties *)

(** ** The lookups behind the employee field *)

Module Lookups.
Import JS Frappe Dispatch Session Run JSFacts Effects.

Abbreviation claim := "Travel Claim".
Abbreviation auth := "Travel Authorization".

(** X1.  A change of [employee] to a value that is set sends, on a Travel
    Authorization, three lookups for the new employee -- salary-structure
    currency, reports-to, approver, in this order -- and on a Travel Claim
    the first of them alone.  It writes [employee] and nothing else: no
    other field, no display property, no message. *)
Theorem employee_change_sends_lookups E depth dt dn w doc v :
  cur_frm w = Form dt dn ->
  In dt currency_forms ->
  locals w !! (dt, dn) = Some doc ->
  truthy v = true ->
  strict_eq (get doc "employee") v = false ->
  edit E (S (S depth)) dt dn "employee" v w =
  Ok tt (with_requests
           (if String.eqb dt claim
            then [salary_request (Form dt dn) v]
            else [salary_request (Form dt dn) v; reports_to_request (Form dt dn) v;
                  approver_request (Form dt dn) v])
           (store dt dn "employee" v w)).
Proof.
  intros Hfrm Hdt Hdoc Hv Hne.
  rewrite (Dates.edit_eq _ _ _ _ _ _ _ _ Hdoc), Hne.
  rewrite (Currency.employee_run E depth dt dn (store dt dn "employee" v w)
             (<["employee":=v]> doc) Hfrm Hdt)
    by first [ eapply locals_store_eq, Hdoc | now rewrite get_insert_eq ].
  rewrite get_insert_eq. f_equal.
  destruct (String.eqb dt claim); unfold with_requests, with_request;
    cbn [cur_frm locals df in_flight shown]; [reflexivity|].
  now rewrite <- !app_assoc.
Qed.

(** The callbacks of the two hierarchy lookups: [frm.set_value] of a field
    no script handles. *)
Lemma hierarchy_callback E depth (frm : form) f r w doc :
  locals w !! (doctype frm, docname frm) = Some doc ->
  In f ["reports_to"; "approver"] ->
  when (truthy (get r "message")) (frm_set_value (fire E depth) frm f (get r "message")) w =
  Ok tt (if truthy (get r "message")
         then write (doctype frm) (docname frm) f (get r "message") w
         else w).
Proof.
  intros Hdoc Hf. destruct (truthy (get r "message")); cbn [when]; [|reflexivity].
  unfold frm_set_value. apply set_value_unhandled; [eauto|].
  apply lookup_foreign_event. cbn. destruct Hf as [<- | [<- | []]]; intuition discriminate.
Qed.

Lemma hierarchy_response_run E depth frm w doc i e r :
  locals w !! (doctype frm, docname frm) = Some doc ->
  (in_flight w !! i = Some (reports_to_request frm e) ->
   respond E depth i r w =
   Ok tt (if truthy (get r "message")
          then write (doctype frm) (docname frm) "reports_to" (get r "message")
                 (without_request i w)
          else without_request i w)) /\
  (in_flight w !! i = Some (approver_request frm e) ->
   respond E depth i r w =
   Ok tt (if truthy (get r "message")
          then write (doctype frm) (docname frm) "approver" (get r "message")
                 (without_request i w)
          else without_request i w)).
Proof.
  intros Hdoc.
  assert (Hdoc0 : locals (without_request i w) !! (doctype frm, docname frm) = Some doc)
    by exact Hdoc.
  split.
  - intros Hq. unfold respond. rewrite Hq. cbn [reports_to_request on_response run_callback].
    unfold TravelAuthorization.set_reports_to_callback.
    apply (hierarchy_callback E depth frm "reports_to" r (without_request i w) doc Hdoc0).
    cbn. auto.
  - intros Hq. unfold respond. rewrite Hq. cbn [approver_request on_response run_callback].
    unfold TravelAuthorization.set_approver_callback.
    apply (hierarchy_callback E depth frm "approver" r (without_request i w) doc Hdoc0).
    cbn. auto.
Qed.

(** X2.  The response to the reports-to lookup sets [reports_to] to the
    employee it names, and the response to the approver lookup sets
    [approver]; a response that names nobody changes nothing.  Either way
    the request is no longer in flight and nothing else changes. *)
Theorem hierarchy_response_sets_field E depth frm w doc i e r f :
  locals w !! (doctype frm, docname frm) = Some doc ->
  (f = "reports_to" /\ in_flight w !! i = Some (reports_to_request frm e)) \/
  (f = "approver" /\ in_flight w !! i = Some (approver_request frm e)) ->
  exists w',
    respond E depth i r w = Ok tt w' /\
    in_flight w' = delete i (in_flight w) /\
    shown w' = shown w /\ df w' = df w /\
    (forall k, k <> (doctype frm, docname frm) -> locals w' !! k = locals w !! k) /\
    (forall g, g <> f -> read w' (doctype frm) (docname frm) g = get doc g) /\
    (truthy (get r "message") = true ->
     holds (read w' (doctype frm) (docname frm) f) (get r "message")) /\
    (truthy (get r "message") = false -> w' = without_request i w).
Proof.
  intros Hdoc Hq.
  assert (Hdoc0 : locals (without_request i w) !! (doctype frm, docname frm) = Some doc)
    by exact Hdoc.
  assert (Hrun : respond E depth i r w =
                 Ok tt (if truthy (get r "message")
                        then write (doctype frm) (docname frm) f (get r "message")
                               (without_request i w)
                        else without_request i w)).
  { destruct Hq as [[-> Hq] | [-> Hq]];
      [apply (proj1 (hierarchy_response_run E depth frm w doc i e r Hdoc) Hq)
      |apply (proj2 (hierarchy_response_run E depth frm w doc i e r Hdoc) Hq)]. }
  rewrite Hrun. eexists. split; [reflexivity|].
  destruct (truthy (get r "message")).
  - destruct (write_rest (doctype frm) (docname frm) f (get r "message")
                (without_request i w)) as (_ & Hdf & Hfl & Hsh).
    rewrite Hfl, Hsh, Hdf. repeat apply conj; try reflexivity.
    + intros k Hk. now rewrite locals_write_ne by exact Hk.
    + intros g Hg. rewrite read_write_ne by congruence. now apply read_Some.
    + intros _. eapply read_write_eq, Hdoc0.
    + discriminate.
  - repeat apply conj; try reflexivity.
    + intros g _. now apply read_Some.
    + discriminate.
Qed.

Lemma lookup_run E depth dn w doc :
  cur_frm w = Form auth dn ->
  locals w !! (auth, dn) = Some doc ->
  fire E (S depth) auth "set_reports_to" dn w =
    Ok tt (if truthy (get doc "employee")
           then with_request (reports_to_request (Form auth dn) (get doc "employee")) w
           else w) /\
  fire E (S depth) auth "set_approver" dn w =
    Ok tt (if truthy (get doc "employee")
           then with_request (approver_request (Form auth dn) (get doc "employee")) w
           else w).
Proof.
  intros Hfrm Hdoc. split.
  - rewrite (fire_handled E depth auth "set_reports_to" dn w
               (fun run frm _ _ => TravelAuthorization.set_reports_to frm)) by reflexivity.
    rewrite Hfrm. unfold TravelAuthorization.set_reports_to, bind, doc_field.
    cbn [doctype docname]. rewrite (field_Some _ _ _ _ _ Hdoc).
    destruct (truthy (get doc "employee")); cbn [when]; [|reflexivity].
    unfold bind, console_log, ret. now rewrite (field_Some _ _ _ _ _ Hdoc).
  - rewrite (fire_handled E depth auth "set_approver" dn w
               (fun run frm _ _ => TravelAuthorization.set_approver frm)) by reflexivity.
    rewrite Hfrm. unfold TravelAuthorization.set_approver, bind, doc_field.
    cbn [doctype docname]. rewrite (field_Some _ _ _ _ _ Hdoc).
    destruct (truthy (get doc "employee")); cbn [when]; [|reflexivity].
    unfold bind, console_log, ret. now rewrite (field_Some _ _ _ _ _ Hdoc).
Qed.

Lemma salary_lookup_run E depth dt dn w doc :
  cur_frm w = Form dt dn ->
  In dt currency_forms ->
  locals w !! (dt, dn) = Some doc ->
  fire E (S depth) dt "get_employee_currency" dn w =
  Ok tt (with_request (salary_request (Form dt dn) (get doc "employee")) w).
Proof.
  intros Hfrm Hdt Hdoc. apply Currency.currency_forms_cases in Hdt. destruct Hdt as [-> | ->].
  - rewrite (fire_handled E depth claim "get_employee_currency" dn w
               (fun run frm _ _ => TravelClaim.get_employee_currency frm)) by reflexivity.
    rewrite Hfrm. unfold TravelClaim.get_employee_currency, bind, doc_field.
    cbn [doctype docname]. now rewrite (field_Some _ _ _ _ _ Hdoc).
  - rewrite (fire_handled E depth auth "get_employee_currency" dn w
               (fun run frm _ _ => TravelAuthorization.get_employee_currency frm))
      by reflexivity.
    rewrite Hfrm. unfold TravelAuthorization.get_employee_currency, bind, doc_field.
    cbn [doctype docname]. now rewrite (field_Some _ _ _ _ _ Hdoc).
Qed.

(** X3.  Triggered on their own on a Travel Authorization, [set_reports_to]
    and [set_approver] check [employee] themselves and send nothing while it
    is empty; [get_employee_currency] has no such check and sends its lookup
    with whatever [employee] holds, on either form. *)
Theorem lookups_guard_themselves E depth dn w doc :
  cur_frm w = Form auth dn ->
  locals w !! (auth, dn) = Some doc ->
  let e := get doc "employee" in
  (truthy e = false ->
   fire E (S depth) auth "set_reports_to" dn w = Ok tt w /\
   fire E (S depth) auth "set_approver" dn w = Ok tt w) /\
  (truthy e = true ->
   fire E (S depth) auth "set_reports_to" dn w =
     Ok tt (with_request (reports_to_request (Form auth dn) e) w) /\
   fire E (S depth) auth "set_approver" dn w =
     Ok tt (with_request (approver_request (Form auth dn) e) w)) /\
  fire E (S depth) auth "get_employee_currency" dn w =
    Ok tt (with_request (salary_request (Form auth dn) e) w) /\
  (forall dn' w' doc',
     cur_frm w' = Form claim dn' ->
     locals w' !! (claim, dn') = Some doc' ->
     fire E (S depth) claim "get_employee_currency" dn' w' =
     Ok tt (with_request (salary_request (Form claim dn') (get doc' "employee")) w')).
Proof.
  intros Hfrm Hdoc e.
  destruct (lookup_run E depth dn w doc Hfrm Hdoc) as [Hr Ha]. fold e in Hr, Ha.
  split; [|split; [|split]].
  - intros He. rewrite He in Hr, Ha. auto.
  - intros He. rewrite He in Hr, Ha. auto.
  - apply salary_lookup_run; [exact Hfrm | cbn; auto | exact Hdoc].
  - intros dn' w' doc' Hfrm' Hdoc'. apply salary_lookup_run; [exact Hfrm' | cbn; auto | exact Hdoc'].
Qed.

Lemma store_commute cdt cdn f v g u w :
  f <> g ->
  store cdt cdn f v (store cdt cdn g u w) = store cdt cdn g u (store cdt cdn f v w).
Proof.
  intros Hne. unfold store. cbn [cur_frm locals df in_flight shown]. f_equal.
  apply map_eq. intros k. destruct (decide (k = (cdt, cdn))) as [-> | Hk].
  - rewrite !lookup_alter_eq. destruct (locals w !! (cdt, cdn)); cbn; [|reflexivity].
    f_equal. now apply insert_insert_ne.
  - now rewrite !lookup_alter_ne by congruence.
Qed.

Lemma write_commute cdt cdn f v g u w :
  f <> g ->
  write cdt cdn f v (write cdt cdn g u w) = write cdt cdn g u (write cdt cdn f v w).
Proof.
  intros Hne. unfold write at 1 3.
  rewrite !read_write_ne by congruence.
  unfold write.
  destruct (strict_eq (read w cdt cdn f) v), (strict_eq (read w cdt cdn g) u); try reflexivity.
  now apply store_commute.
Qed.

Lemma write_without_request cdt cdn f v i w :
  write cdt cdn f v (without_request i w) = without_request i (write cdt cdn f v w).
Proof.
  unfold write. change (read (without_request i w) cdt cdn f) with (read w cdt cdn f).
  now destruct (strict_eq (read w cdt cdn f) v).
Qed.

Lemma delete_delete {A} (l : list A) i j :
  i < j -> delete (j - 1) (delete i l) = delete i (delete j l).
Proof.
  revert i j. induction l as [|x l IH]; intros i j Hij; [now destruct i, j|].
  destruct j as [|j]; [lia|]. replace (S j - 1) with j by lia.
  destruct i as [|i]; [reflexivity|].
  destruct j as [|j]; [lia|].
  change (x :: delete j (delete i l) = x :: delete i (delete (S j) l)).
  f_equal. rewrite <- (IH i (S j)) by lia. now replace (S j - 1) with j by lia.
Qed.

(** X4.  The responses to the reports-to lookup and to the approver lookup
    may arrive in either order: the session they leave is the same. *)
Theorem hierarchy_responses_commute E depth frm w doc i j e1 e2 r1 r2 :
  locals w !! (doctype frm, docname frm) = Some doc ->
  in_flight w !! i = Some (reports_to_request frm e1) ->
  in_flight w !! j = Some (approver_request frm e2) ->
  i < j ->
  (respond E depth i r1;; respond E depth (j - 1) r2) w =
  (respond E depth j r2;; respond E depth i r1) w.
Proof.
  intros Hdoc Hi Hj Hij. unfold bind.
  rewrite (proj1 (hierarchy_response_run E depth frm w doc i e1 r1 Hdoc) Hi).
  rewrite (proj2 (hierarchy_response_run E depth frm w doc j e2 r2 Hdoc) Hj).
  set (dt := doctype frm). set (dn := docname frm).
  set (wa := if truthy (get r1 "message") then _ else _).
  set (wb := if truthy (get r2 "message") then _ else _).
  assert (Ha : exists da, locals wa !! (doctype frm, docname frm) = Some da /\
                 in_flight wa = delete i (in_flight w)).
  { unfold wa. destruct (truthy (get r1 "message")).
    - destruct (locals_write_is_Some dt dn "reports_to" (get r1 "message")
                  (without_request i w) (dt, dn)) as [da Hda]; [now exists doc|].
      exists da. split; [exact Hda|].
      now destruct (write_rest dt dn "reports_to" (get r1 "message") (without_request i w))
        as (_ & _ & -> & _).
    - now exists doc. }
  assert (Hb : exists db, locals wb !! (doctype frm, docname frm) = Some db /\
                 in_flight wb = delete j (in_flight w)).
  { unfold wb. destruct (truthy (get r2 "message")).
    - destruct (locals_write_is_Some dt dn "approver" (get r2 "message")
                  (without_request j w) (dt, dn)) as [db Hdb]; [now exists doc|].
      exists db. split; [exact Hdb|].
      now destruct (write_rest dt dn "approver" (get r2 "message") (without_request j w))
        as (_ & _ & -> & _).
    - now exists doc. }
  destruct Ha as (da & Hda & Hfa). destruct Hb as (db & Hdb & Hfb).
  assert (Hj' : in_flight wa !! (j - 1) = Some (approver_request frm e2)).
  { rewrite Hfa, list_lookup_delete_ge by lia. now replace (S (j - 1)) with j by lia. }
  assert (Hi' : in_flight wb !! i = Some (reports_to_request frm e1)).
  { now rewrite Hfb, list_lookup_delete_lt by lia. }
  rewrite (proj2 (hierarchy_response_run E depth frm wa da (j - 1) e2 r2 Hda) Hj').
  rewrite (proj1 (hierarchy_response_run E depth frm wb db i e1 r1 Hdb) Hi').
  f_equal. unfold wa, wb. fold dt dn.
  assert (Hdel : without_request (j - 1) (without_request i w)
                 = without_request i (without_request j w)).
  { unfold without_request. cbn [cur_frm locals df in_flight shown].
    now rewrite delete_delete by exact Hij. }
  destruct (truthy (get r1 "message")), (truthy (get r2 "message"));
    rewrite <- ?write_without_request, ?Hdel; try reflexivity.
  apply write_commute. discriminate.
Qed.

End Lookups.

(** ** From the salary lookup to the exchange rate *)

Module Chain.
Import JS Frappe Dispatch Session Run JSFacts Effects.

Abbreviation claim := "Travel Claim".
Abbreviation auth := "Travel Authorization".

Lemma resolved_company_currency_insert E doc f v :
  f <> "company" ->
  resolved_company_currency E (<[f:=v]> doc) = resolved_company_currency E doc.
Proof. intros H. unfold resolved_company_currency. now rewrite get_insert_ne. Qed.

(** The salary response, as a session: the currency it settles on is
    written, and the [currency] handler runs behind the write. *)
Lemma salary_response_run E depth dt dn w doc i e r :
  cur_frm w = Form dt dn ->
  In dt currency_forms ->
  locals w !! (dt, dn) = Some doc ->
  in_flight w !! i = Some (salary_request (Form dt dn) e) ->
  let v := if truthy (get r "currency") then get r "currency"
           else resolved_company_currency E doc in
  let cc := resolved_company_currency E doc in
  let w0 := without_request i w in
  let w1 := store dt dn "currency" v w0 in
  respond E (S depth) i r w =
  Ok tt (if strict_eq (get doc "currency") v then w0
         else if truthy v
              then if loose_eq (js E) v cc
                   then with_property "exchange_rate" "description" (Str "")
                          (with_property "exchange_rate" "hidden" (Num 1)
                             (write dt dn "exchange_rate" (Num 1) w1))
                   else with_request (exchange_request (Form dt dn) v cc) w1
              else w1).
Proof.
  intros Hfrm Hdt Hdoc Hq v cc w0 w1.
  assert (Hdoc0 : locals w0 !! (dt, dn) = Some doc) by exact Hdoc.
  assert (Hset : set_value (fire E (S depth)) dt dn "currency" v w0 =
                 Ok tt (if strict_eq (get doc "currency") v then w0
                        else if truthy v
                             then if loose_eq (js E) v cc
                                  then with_property "exchange_rate" "description" (Str "")
                                         (with_property "exchange_rate" "hidden" (Num 1)
                                            (write dt dn "exchange_rate" (Num 1) w1))
                                  else with_request (exchange_request (Form dt dn) v cc) w1
                             else w1)).
  { unfold set_value. rewrite Hdoc0.
    destruct (strict_eq (get doc "currency") v); [reflexivity|].
    fold w1.
    rewrite (Currency.currency_run E depth dt dn w1 (<["currency":=v]> doc) Hfrm Hdt)
      by (eapply locals_store_eq, Hdoc0).
    rewrite get_insert_eq, resolved_company_currency_insert by discriminate.
    reflexivity. }
  unfold respond. rewrite Hq.
  change (World (cur_frm w) (locals w) (df w) (delete i (in_flight w)) (shown w)) with w0.
  apply Currency.currency_forms_cases in Hdt.
  destruct Hdt as [-> | ->]; unfold salary_request; cbn [on_response doctype];
    [change (String.eqb claim claim) with true
    |change (String.eqb auth claim) with false]; cbv iota; cbn [run_callback];
    [unfold TravelClaim.get_employee_currency_callback
    |unfold TravelAuthorization.get_employee_currency_callback];
    unfold bind, frm_set_value, doc_field, refresh_fields, ret; cbn [doctype docname];
    unfold v in Hset; destruct (truthy (get r "currency"));
    try rewrite (field_Some _ _ _ _ _ Hdoc0);
    try rewrite Currency.callback_company_currency; rewrite Hset; reflexivity.
Qed.

(** X5.  The currency the salary response settles on is set through the
    dispatcher, so the exchange-rate rule runs behind it -- when the
    currency changes.  If it is the company's currency, [exchange_rate]
    becomes 1 and is hidden; if it is another one, a rate request for it is
    sent, and its response sets the rate and the description for that
    currency.  If the document already holds that currency, nothing but the
    answered request changes: the rule does not run. *)
Theorem salary_currency_runs_the_rate_rule E depth dt dn w doc i e r :
  cur_frm w = Form dt dn ->
  In dt currency_forms ->
  locals w !! (dt, dn) = Some doc ->
  in_flight w !! i = Some (salary_request (Form dt dn) e) ->
  let v := if truthy (get r "currency") then get r "currency"
           else resolved_company_currency E doc in
  let cc := resolved_company_currency E doc in
  exists w1,
    respond E (S depth) i r w = Ok tt w1 /\
    (strict_eq (get doc "currency") v = true -> w1 = without_request i w) /\
    (strict_eq (get doc "currency") v = false -> truthy v = false ->
     w1 = store dt dn "currency" v (without_request i w)) /\
    (strict_eq (get doc "currency") v = false -> truthy v = true ->
     loose_eq (js E) v cc = true ->
     read w1 dt dn "currency" = v /\
     holds (read w1 dt dn "exchange_rate") (Num 1) /\
     df w1 !! ("exchange_rate", "hidden") = Some (Num 1) /\
     df w1 !! ("exchange_rate", "description") = Some (Str "") /\
     in_flight w1 = delete i (in_flight w)) /\
    (strict_eq (get doc "currency") v = false -> truthy v = true ->
     loose_eq (js E) v cc = false ->
     read w1 dt dn "currency" = v /\
     in_flight w1 = (delete i (in_flight w) ++ [exchange_request (Form dt dn) v cc])%list /\
     forall r2, exists w2,
       respond E depth (List.length (delete i (in_flight w))) r2 w1 = Ok tt w2 /\
       holds (read w2 dt dn "exchange_rate") (Num (flt E (get r2 "message"))) /\
       df w2 !! ("exchange_rate", "hidden") = Some (Num 0) /\
       df w2 !! ("exchange_rate", "description") = Some (rate_description (js E) v cc) /\
       in_flight w2 = delete i (in_flight w)).
Proof.
  intros Hfrm Hdt Hdoc Hq v cc.
  pose proof (salary_response_run E depth dt dn w doc i e r Hfrm Hdt Hdoc Hq) as Hrun.
  cbv zeta in Hrun. fold v cc in Hrun.
  set (w0 := without_request i w) in *.
  set (w1 := store dt dn "currency" v w0) in *.
  assert (Hdoc0 : locals w0 !! (dt, dn) = Some doc) by exact Hdoc.
  assert (Hdoc1 : locals w1 !! (dt, dn) = Some (<["currency":=v]> doc))
    by (eapply locals_store_eq, Hdoc0).
  assert (Hcur1 : read w1 dt dn "currency" = v) by (eapply read_store_eq, Hdoc0).
  eexists. split; [exact Hrun|].
  split; [|split; [|split]].
  - intros ->. reflexivity.
  - intros -> ->. reflexivity.
  - intros -> -> ->. cbn [with_property df in_flight].
    change (read (with_property ?a ?b ?x ?y) ?c ?d ?f) with (read y c d f).
    change (read (with_property ?a ?b ?x ?y) ?c ?d ?f) with (read y c d f).
    split; [|split; [|split; [|split]]].
    + now rewrite read_write_ne by discriminate.
    + eapply read_write_eq, Hdoc1.
    + rewrite lookup_insert_ne by discriminate. apply lookup_insert_eq.
    + apply lookup_insert_eq.
    + destruct (write_rest dt dn "exchange_rate" (Num 1) w1) as (_ & _ & -> & _). reflexivity.
  - intros -> -> ->.
    split; [exact Hcur1|]. split; [reflexivity|].
    intros r2.
    set (q := exchange_request (Form dt dn) v cc).
    assert (Hq2 : in_flight (with_request q w1) !! List.length (delete i (in_flight w))
                  = Some q) by apply lookup_last.
    assert (Hcb : on_response q = claim_exchange_rate_cb (Form dt dn) cc \/
                  on_response q = auth_exchange_rate_cb (Form dt dn) cc).
    { unfold q, exchange_request. cbn [on_response doctype].
      destruct (String.eqb dt claim); auto. }
    rewrite (Currency.exchange_rate_response E depth (with_request q w1) _ q dt dn cc r2
               (<["currency":=v]> doc) Hq2 Hcb Hdoc1).
    eexists. split; [reflexivity|].
    rewrite get_insert_eq. cbn [with_property df in_flight].
    change (read (with_property ?a ?b ?x ?y) ?c ?d ?f) with (read y c d f).
    change (read (with_property ?a ?b ?x ?y) ?c ?d ?f) with (read y c d f).
    split; [|split; [|split]].
    + eapply read_write_eq. exact Hdoc1.
    + rewrite lookup_insert_ne by discriminate. apply lookup_insert_eq.
    + apply lookup_insert_eq.
    + destruct (write_rest dt dn "exchange_rate" (Num (flt E (get r2 "message")))
                  (without_request (List.length (delete i (in_flight w)))
                     (with_request q w1))) as (_ & _ & -> & _).
      cbn [without_request with_request in_flight w1 store w0].
      apply delete_last.
Qed.

Lemma write_twice cdt cdn f v w :
  is_Some (locals w !! (cdt, cdn)) ->
  strict_eq v v = true ->
  write cdt cdn f v (write cdt cdn f v w) = write cdt cdn f v w.
Proof.
  intros [d Hd] Hv. unfold write at 1.
  destruct (strict_eq (read (write cdt cdn f v w) cdt cdn f) v) eqn:Hs; [reflexivity|].
  exfalso. unfold write in Hs.
  destruct (strict_eq (read w cdt cdn f) v) eqn:Hw; [congruence|].
  unfold read in Hs, Hw. cbn [store locals] in Hs. rewrite lookup_alter_eq in Hs.
  rewrite Hd in Hs. cbn in Hs. rewrite get_insert_eq in Hs. congruence.
Qed.

Lemma with_property_twice a b v a' b' v' w :
  with_property a b v (with_property a' b' v' (with_property a b v (with_property a' b' v' w)))
  = with_property a b v (with_property a' b' v' w).
Proof.
  unfold with_property. cbn [cur_frm locals df in_flight shown]. f_equal.
  destruct (decide ((a, b) = (a', b'))) as [Heq | Hne].
  - rewrite Heq. now rewrite !insert_insert_eq.
  - rewrite (insert_insert_ne (<[(a', b'):=v']> (df w)) (a', b') (a, b) v' v) by congruence.
    now rewrite !insert_insert_eq.
Qed.

Lemma write_with_property cdt cdn f v a b x w :
  write cdt cdn f v (with_property a b x w) = with_property a b x (write cdt cdn f v w).
Proof.
  unfold write. change (read (with_property a b x w) cdt cdn f) with (read w cdt cdn f).
  now destruct (strict_eq (read w cdt cdn f) v).
Qed.

Lemma requests_pile_up E depth dt dn doc n :
  In dt currency_forms ->
  truthy (get doc "currency") = true ->
  loose_eq (js E) (get doc "currency") (resolved_company_currency E doc) = false ->
  forall w,
    cur_frm w = Form dt dn ->
    locals w !! (dt, dn) = Some doc ->
    times n (fire E (S depth) dt "currency" dn) w =
    Ok tt (with_requests
             (repeat (exchange_request (Form dt dn) (get doc "currency")
                        (resolved_company_currency E doc)) n) w).
Proof.
  intros Hdt Hc Hne. induction n as [|n IH]; intros w Hfrm Hdoc; cbn [times repeat].
  - unfold with_requests, ret. rewrite app_nil_r. now destruct w.
  - unfold bind.
    rewrite (Currency.currency_run E depth dt dn w doc Hfrm Hdt Hdoc), Hc, Hne.
    rewrite IH by assumption. unfold with_requests, with_request.
    cbn [cur_frm locals df in_flight shown]. now rewrite <- app_assoc.
Qed.

(** X6.  The [currency] handler fired again on an unchanged document: when
    the currency is the company's, a second firing changes nothing; when it
    is another one, every firing sends one more request for the same rate --
    [n] firings leave [n] identical requests in flight. *)
Theorem rate_rule_fired_again E depth dt dn w doc :
  cur_frm w = Form dt dn ->
  In dt currency_forms ->
  locals w !! (dt, dn) = Some doc ->
  truthy (get doc "currency") = true ->
  let cc := resolved_company_currency E doc in
  (loose_eq (js E) (get doc "currency") cc = true ->
   exists w1,
     fire E (S depth) dt "currency" dn w = Ok tt w1 /\
     forall n, times n (fire E (S depth) dt "currency" dn) w1 = Ok tt w1) /\
  (loose_eq (js E) (get doc "currency") cc = false ->
   forall n,
     times n (fire E (S depth) dt "currency" dn) w =
     Ok tt (with_requests (repeat (exchange_request (Form dt dn) (get doc "currency") cc) n)
              w)).
Proof.
  intros Hfrm Hdt Hdoc Hc cc. split.
  - intros Heq.
    rewrite (Currency.currency_run E depth dt dn w doc Hfrm Hdt Hdoc), Hc. fold cc.
    rewrite Heq. eexists. split; [reflexivity|].
    set (w1 := with_property _ _ _ _).
    assert (Hw1 : exists doc1, locals w1 !! (dt, dn) = Some doc1 /\
                    get doc1 "currency" = get doc "currency" /\
                    get doc1 "company" = get doc "company").
    { unfold w1. cbn [with_property locals]. unfold write.
      rewrite (read_Some _ _ _ _ _ Hdoc).
      destruct (strict_eq (get doc "exchange_rate") (Num 1)).
      - exists doc. auto.
      - exists (<["exchange_rate":=Num 1]> doc). split; [eapply locals_store_eq, Hdoc|].
        now rewrite !get_insert_ne by discriminate. }
    destruct Hw1 as (doc1 & Hdoc1 & Hc1 & Hco1).
    assert (Hfrm1 : cur_frm w1 = Form dt dn).
    { unfold w1. cbn [with_property cur_frm].
      destruct (write_rest dt dn "exchange_rate" (Num 1) w) as (-> & _). exact Hfrm. }
    assert (Hstep : fire E (S depth) dt "currency" dn w1 = Ok tt w1).
    { rewrite (Currency.currency_run E depth dt dn w1 doc1 Hfrm1 Hdt Hdoc1).
      unfold resolved_company_currency. rewrite Hc1, Hco1.
      fold (resolved_company_currency E doc). fold cc. rewrite Hc, Heq.
      f_equal. unfold w1.
      rewrite !write_with_property.
      rewrite write_twice by (eauto || reflexivity).
      apply with_property_twice. }
    induction n as [|n IH]; cbn [times]; [reflexivity|].
    unfold bind. now rewrite Hstep.
  - intros Hne n. now apply requests_pile_up.
Qed.

End Chain.

(** ** The date rules, fired on any row *)

Module DateRules.
Import JS Frappe Dispatch Session Run JSFacts Effects.

Abbreviation auth_item := "Travel Authorization Item".
Abbreviation adj_item := "Travel Adjustment Item".

(** A truthy value is [===] to itself. *)
Lemma strict_eq_refl x : truthy x = true -> strict_eq x x = true.
Proof.
  destruct x as [| |a|a|a]; simpl; try discriminate.
  - intros ->. reflexivity.
  - unfold PrimFloat.is_nan. intros H.
    apply negb_true_iff, orb_false_iff in H. destruct H as [_ H].
    now apply negb_false_iff in H.
  - intros _. apply String.eqb_refl.
Qed.

(** Once [to_date] is the [from_date], the [from_date] test fails. *)
Lemma autofills_filled E dt row :
  autofills E dt (<["to_date":=get row "from_date"]> row) = false.
Proof.
  unfold autofills. rewrite get_insert_eq, !get_insert_ne by discriminate.
  destruct (truthy (get row "from_date")) eqn:Hf; [|reflexivity].
  rewrite (strict_eq_refl _ Hf), (loose_eq_refl _ _ Hf).
  destruct (String.eqb dt adj_item); cbn [negb]; now rewrite andb_false_r.
Qed.

(** X7.  Fired on any open row of either date table -- whatever its dates
    and whether or not [halt] is on -- the [to_date] rule completes and
    leaves the dates in order.  It changes [to_date] at most, shows its
    message at most once, and fired again it does nothing. *)
Theorem to_date_rule_restores_order E depth dt cdn w row :
  In dt date_tables ->
  locals w !! (dt, cdn) = Some row ->
  exists w',
    fire E (S (S depth)) dt "to_date" cdn w = Ok tt w' /\
    row_in_order (js E) w' dt cdn = true /\
    fire E (S (S depth)) dt "to_date" cdn w' = Ok tt w' /\
    (forall f, f <> "to_date" -> read w' dt cdn f = get row f) /\
    (forall k, k <> (dt, cdn) -> locals w' !! k = locals w !! k) /\
    (shown w' = shown w \/ shown w' = (shown w ++ [date_diagnostic E dt])%list).
Proof.
  intros Hdt Hrow.
  destruct (truthy (get row "from_date")
            && lt (js E) (get row "to_date") (get row "from_date")) eqn:Hc.
  - apply andb_true_iff in Hc. destruct Hc as [Hf Hlt].
    rewrite (Dates.to_date_clamps E depth dt cdn w row Hdt Hrow Hf Hlt).
    set (w1 := with_message (date_diagnostic E dt) w).
    assert (Hrow1 : locals w1 !! (dt, cdn) = Some row) by exact Hrow.
    assert (Hrow' : locals (store dt cdn "to_date" (get row "from_date") w1) !! (dt, cdn)
                    = Some (<["to_date":=get row "from_date"]> row))
      by (eapply locals_store_eq, Hrow1).
    eexists. split; [reflexivity|]. split; [|split; [|split; [|split]]].
    + unfold row_in_order. rewrite Hrow'. unfold dates_in_order.
      rewrite get_insert_eq, get_insert_ne by discriminate.
      rewrite lt_irrefl. now rewrite andb_false_r.
    + eapply Dates.to_date_quiet; [exact Hdt | exact Hrow' |].
      rewrite get_insert_eq, get_insert_ne by discriminate.
      rewrite lt_irrefl. apply andb_false_r.
    + intros f Hf'. rewrite read_store_ne by congruence. now apply read_Some.
    + intros k Hk. now rewrite locals_store_ne by exact Hk.
    + right. reflexivity.
  - rewrite (Dates.to_date_quiet E (S depth) dt cdn w row Hdt Hrow Hc).
    exists w. split; [reflexivity|]. split; [|split; [|split; [|split]]].
    + unfold row_in_order. rewrite Hrow. unfold dates_in_order.
      destruct (truthy (get row "from_date")); cbn [andb] in *; [|reflexivity].
      rewrite Hc. now rewrite andb_false_r.
    + apply (Dates.to_date_quiet E (S depth) dt cdn w row Hdt Hrow Hc).
    + intros f _. now apply read_Some.
    + reflexivity.
    + left. reflexivity.
Qed.

(** X8.  Fired on any open row of either date table, the [from_date] rule
    completes without a message, a request or a display change, and changes
    [to_date] at most; fired again it does nothing.  It does nothing at all
    when [from_date] is empty, when [halt] is on, or when the two dates are
    already [===]. *)
Theorem from_date_rule_is_silent E depth dt cdn w row :
  In dt date_tables ->
  locals w !! (dt, cdn) = Some row ->
  exists w',
    fire E (S (S depth)) dt "from_date" cdn w = Ok tt w' /\
    fire E (S (S depth)) dt "from_date" cdn w' = Ok tt w' /\
    shown w' = shown w /\ in_flight w' = in_flight w /\ df w' = df w /\
    (forall f, f <> "to_date" -> read w' dt cdn f = get row f) /\
    (forall k, k <> (dt, cdn) -> locals w' !! k = locals w !! k) /\
    (truthy (get row "from_date") = false -> w' = w) /\
    (truthy (get row "halt") = true -> w' = w) /\
    (strict_eq (get row "from_date") (get row "to_date") = true -> w' = w).
Proof.
  intros Hdt Hrow.
  rewrite (Dates.from_date_run E depth dt cdn w row Hdt Hrow).
  destruct (autofills E dt row) eqn:Hfill.
  - assert (Hrow' : locals (store dt cdn "to_date" (get row "from_date") w) !! (dt, cdn)
                    = Some (<["to_date":=get row "from_date"]> row))
      by (eapply locals_store_eq, Hrow).
    eexists. split; [reflexivity|].
    unfold autofills in Hfill.
    apply andb_true_iff in Hfill. destruct Hfill as [Hfill Hne].
    apply andb_true_iff in Hfill. destruct Hfill as [Hf Hh].
    apply negb_true_iff in Hh, Hne.
    repeat apply conj; try reflexivity.
    + rewrite (Dates.from_date_run E depth dt cdn _ _ Hdt Hrow').
      now rewrite autofills_filled.
    + intros f Hf'. rewrite read_store_ne by congruence. now apply read_Some.
    + intros k Hk. now rewrite locals_store_ne by exact Hk.
    + congruence.
    + congruence.
    + intros Heq. exfalso.
      destruct (String.eqb dt adj_item); [congruence|].
      rewrite (strict_eq_loose_eq _ _ _ Heq) in Hne. discriminate.
  - exists w. split; [reflexivity|].
    repeat apply conj; auto.
    + rewrite (Dates.from_date_run E depth dt cdn w row Hdt Hrow). now rewrite Hfill.
    + intros f _. now apply read_Some.
Qed.

(** On texts and missing values [==] and [===] agree. *)
Lemma text_eq x y :
  text_or_unset x = true -> text_or_unset y = true -> truthy x = true ->
  forall B, loose_eq B x y = strict_eq x y.
Proof. destruct x, y; simpl; try discriminate; reflexivity. Qed.

(** X9.  The [from_date] handlers of Travel Authorization Item and of Travel
    Adjustment Item, written differently ([!=] and nested tests in one,
    [!==] and one conjunction in the other), do the same on every row whose
    two dates are texts or unset; on a row that is not open both throw. *)
Theorem from_date_variants_agree E run frm cdt cdn w :
  (locals w !! (cdt, cdn) = None ->
   TravelAuthorizationItem.from_date E run frm cdt cdn w = Throw /\
   TravelAdjustmentItem.from_date run frm cdt cdn w = Throw) /\
  (forall row,
     locals w !! (cdt, cdn) = Some row ->
     text_or_unset (get row "from_date") = true ->
     text_or_unset (get row "to_date") = true ->
     TravelAuthorizationItem.from_date E run frm cdt cdn w =
     TravelAdjustmentItem.from_date run frm cdt cdn w).
Proof.
  split.
  - intros Hrow.
    unfold TravelAuthorizationItem.from_date, TravelAdjustmentItem.from_date, bind, field.
    now rewrite Hrow.
  - intros row Hrow Hf Ht.
    unfold TravelAuthorizationItem.from_date, TravelAdjustmentItem.from_date, bind.
    rewrite !(field_Some _ _ _ _ _ Hrow).
    destruct (truthy (get row "from_date")) eqn:Htr; cbn [andb when].
    + rewrite (text_eq _ _ Hf Ht Htr).
      now destruct (truthy (get row "halt")), (strict_eq _ _).
    + now destruct (negb (truthy (get row "halt")) && _).
Qed.

End DateRules.

(** ** The row handlers at the edges *)

Module Rows.
Import JS Frappe Dispatch Session Run JSFacts Effects.

Abbreviation item := "Travel Claim Item".

Lemma holds_number x y : holds x (Num y) -> is_number x = true.
Proof.
  intros [-> | H]; [reflexivity|]. destruct x; simpl in H; try discriminate. reflexivity.
Qed.

(** X10.  Whatever a Travel Claim Item row holds -- texts, nothing at all --
    [calculate] completes and leaves numbers in [mileage_amount] and in
    [amount].  On a row with none of the four fields filled in, both become
    0. *)
Theorem calculate_leaves_numbers E depth cdn w row :
  locals w !! (item, cdn) = Some row ->
  exists w',
    fire E (S depth) item "calculate" cdn w = Ok tt w' /\
    is_number (read w' item cdn "mileage_amount") = true /\
    is_number (read w' item cdn "amount") = true /\
    (get row "mileage_rate" = Undefined -> get row "distance" = Undefined ->
     get row "mileage_amount" = Undefined -> get row "amount" = Undefined ->
     read w' item cdn "mileage_amount" = Num 0 /\ read w' item cdn "amount" = Num 0).
Proof.
  intros Hrow.
  destruct (Mileage.calculate_fields E depth cdn w row Hrow)
    as (w' & Hrun & Hm & Ha & _).
  exists w'. split; [exact Hrun|]. split; [eapply holds_number, Hm|].
  split; [eapply holds_number, Ha|].
  intros Hr Hd Hma Ham.
  assert (Hsome : is_Some (locals w !! (item, cdn))) by eauto.
  pose proof (Mileage.calculate_run E depth cdn w Hsome) as Hrun'. cbv zeta in Hrun'.
  rewrite Hrun in Hrun'. injection Hrun' as ->.
  rewrite !(read_Some _ _ _ _ _ Hrow), Hr, Hd.
  change (Num (flt E Undefined * flt E Undefined)) with (Num 0).
  assert (Hw1 : write item cdn "mileage_amount" (Num 0) w
                = store item cdn "mileage_amount" (Num 0) w).
  { unfold write. now rewrite (read_Some _ _ _ _ _ Hrow), Hma. }
  rewrite Hw1.
  assert (Hrow1 : locals (store item cdn "mileage_amount" (Num 0) w) !! (item, cdn)
                  = Some (<["mileage_amount":=Num 0]> row)) by (eapply locals_store_eq, Hrow).
  rewrite !(read_Some _ _ _ _ _ Hrow1).
  rewrite get_insert_eq, get_insert_ne by discriminate. rewrite Ham.
  change (Num (flt E (Num 0) + flt E Undefined)) with (Num 0).
  assert (Hw2 : write item cdn "amount" (Num 0) (store item cdn "mileage_amount" (Num 0) w)
                = store item cdn "amount" (Num 0) (store item cdn "mileage_amount" (Num 0) w)).
  { unfold write. rewrite (read_Some _ _ _ _ _ Hrow1).
    rewrite get_insert_ne by discriminate. now rewrite Ham. }
  rewrite Hw2. split.
  - rewrite read_store_ne by discriminate. eapply read_store_eq, Hrow.
  - eapply read_store_eq, Hrow1.
Qed.


End Rows.

(** ** What no handler does *)

Module Footprint.
Import JS Frappe Dispatch Session Run JSFacts Effects.

Section WithEnv.
Variable E : env.

Lemma grows_refl w : grows E w w.
Proof.
  repeat apply conj; auto.
  - exists []. split; [now rewrite app_nil_r | constructor].
  - exists []. split; [now rewrite app_nil_r | constructor].
Qed.

Lemma grows_trans w1 w2 w3 : grows E w1 w2 -> grows E w2 w3 -> grows E w1 w3.
Proof.
  intros (Ha & Hb & Hc & (qs & Hd & Hq) & (ms & He & Hm) & Hf)
         (Ha' & Hb' & Hc' & (qs' & Hd' & Hq') & (ms' & He' & Hm') & Hf').
  repeat apply conj.
  - congruence.
  - intros k. now rewrite Hb', Hb.
  - intros cdt cdn f Hn. now rewrite Hc', Hc.
  - exists (qs ++ qs')%list. split; [now rewrite Hd', Hd, app_assoc | now apply Forall_app].
  - exists (ms ++ ms')%list. split; [now rewrite He', He, app_assoc | now apply Forall_app].
  - intros f p Hn. now rewrite Hf', Hf.
Qed.

Lemma read_store_other cdt cdn f v w cdt' cdn' g :
  f <> g -> read (store cdt cdn f v w) cdt' cdn' g = read w cdt' cdn' g.
Proof.
  intros Hne. destruct (decide ((cdt', cdn') = (cdt, cdn))) as [[= -> ->] | Hk].
  - now apply read_store_ne.
  - unfold read. now rewrite locals_store_ne.
Qed.

Lemma store_is_Some cdt cdn f v w k :
  is_Some (locals (store cdt cdn f v w) !! k) <-> is_Some (locals w !! k).
Proof.
  cbn [store locals]. destruct (decide (k = (cdt, cdn))) as [-> | Hne].
  - rewrite lookup_alter_eq.
    destruct (locals w !! (cdt, cdn)); cbn; split; intros [? ?]; eauto; discriminate.
  - now rewrite lookup_alter_ne.
Qed.

Lemma grows_store cdt cdn f v w : In f derived_fields -> grows E w (store cdt cdn f v w).
Proof.
  intros Hin. repeat apply conj.
  - reflexivity.
  - intros k. apply store_is_Some.
  - intros cdt' cdn' g Hg. apply read_store_other. intros ->. auto.
  - exists []. split; [cbn; now rewrite app_nil_r | constructor].
  - exists []. split; [cbn; now rewrite app_nil_r | constructor].
  - reflexivity.
Qed.

Lemma keeps_bind {A B} (m : M A) (k : A -> M B) :
  keeps E m -> (forall a, keeps E (k a)) -> keeps E (bind m k).
Proof.
  intros Hm Hk w. unfold bind. specialize (Hm w).
  destruct (m w) as [a w'| |]; cbn [final] in *; try apply grows_refl.
  specialize (Hk a w').
  destruct (k a w') as [b w''| |]; cbn [final] in *; try apply grows_refl.
  eapply grows_trans; eassumption.
Qed.

Lemma keeps_when b (m : M unit) : keeps E m -> keeps E (when b m).
Proof. intros H. destruct b; [exact H|]. intros w. apply grows_refl. Qed.

Lemma keeps_if {A} (b : bool) (m1 m2 : M A) :
  keeps E m1 -> keeps E m2 -> keeps E (if b then m1 else m2).
Proof. now destruct b. Qed.

Lemma keeps_field cdt cdn f : keeps E (field cdt cdn f).
Proof. intros w. unfold field. destruct (locals w !! (cdt, cdn)); apply grows_refl. Qed.

Lemma keeps_doc_field frm f : keeps E (doc_field frm f).
Proof. apply keeps_field. Qed.

Lemma keeps_ret {A} (a : A) : keeps E (ret a).
Proof. intros w. apply grows_refl. Qed.

Lemma keeps_call q : In (method q) remote_methods -> keeps E (call q).
Proof.
  intros Hq w. cbn [call final]. repeat apply conj; auto.
  - exists [q]. split; [reflexivity | now constructor].
  - exists []. split; [cbn; now rewrite app_nil_r | constructor].
Qed.

Lemma keeps_msgprint m : In m (diagnostics E) -> keeps E (msgprint m).
Proof.
  intros Hm w. cbn [msgprint final]. repeat apply conj; auto.
  - exists []. split; [cbn; now rewrite app_nil_r | constructor].
  - exists [m]. split; [reflexivity | now constructor].
Qed.

Lemma keeps_set_df_property p v : keeps E (set_df_property "exchange_rate" p v).
Proof.
  intros w. cbn [set_df_property final]. repeat apply conj; auto.
  - exists []. split; [cbn; now rewrite app_nil_r | constructor].
  - exists []. split; [cbn; now rewrite app_nil_r | constructor].
  - intros f p' Hne. cbn [df]. apply lookup_insert_ne. intros [= <- _]. now apply Hne.
Qed.

(** [set_value] of a derived field keeps what the dispatcher behind it
    keeps. *)
Lemma keeps_set_value (run : dispatcher) cdt cdn f v :
  In f derived_fields -> keeps E (run cdt f cdn) -> keeps E (set_value run cdt cdn f v).
Proof.
  intros Hin Hrun w. unfold set_value.
  destruct (locals w !! (cdt, cdn)); [|apply grows_refl].
  destruct (strict_eq _ _); [apply grows_refl|].
  specialize (Hrun (store cdt cdn f v w)).
  destruct (run cdt f cdn (store cdt cdn f v w)); cbn [final] in *; try apply grows_refl.
  eapply grows_trans; [apply (grows_store cdt cdn f v w Hin) | exact Hrun].
Qed.

End WithEnv.

Ltac in_list := solve [repeat (first [left; reflexivity | right])].

Ltac keeps_step IH :=
  first
    [ apply keeps_field | apply keeps_doc_field
    | apply keeps_call; in_list | apply keeps_msgprint; in_list
    | apply keeps_set_df_property
    | apply keeps_ret | apply keeps_when | apply keeps_if
    | apply keeps_bind; [|intros ?]
    | apply keeps_set_value; [in_list | apply IH]
    | apply IH ].

Ltac keeps_auto IH :=
  cbv zeta;
  unfold frm_set_value, trigger, trigger_row, refresh_fields, console_log,
         TravelClaim.set_exchange_rate, TravelAuthorization.set_exchange_rate;
  repeat keeps_step IH.

(** Every handler, at every depth. *)
Lemma keeps_fire E depth : forall dt ev name, keeps E (fire E depth dt ev name).
Proof.
  induction depth as [|depth IH]; intros dt ev name w; rewrite fire_eq;
    destruct (lookup_handler (registry E) dt ev) as [h|] eqn:Hl;
    try apply grows_refl.
  generalize (cur_frm w) as frm. intros frm. revert w.
  Termination.registry_cases Hl;
    match goal with
    | |- forall w, grows E w (final w (?m w)) => change (keeps E m)
    end.
  - unfold TravelClaim.employee. keeps_auto IH.
  - unfold TravelClaim.get_employee_currency. keeps_auto IH.
  - unfold TravelClaim.currency. keeps_auto IH.
  - keeps_auto IH.
  - unfold TravelClaimItem.mileage_rate. keeps_auto IH.
  - unfold TravelClaimItem.distance. keeps_auto IH.
  - unfold TravelClaimItem.calculate. keeps_auto IH.
  - unfold TravelAuthorization.employee. keeps_auto IH.
  - unfold TravelAuthorization.get_employee_currency. keeps_auto IH.
  - unfold TravelAuthorization.currency. keeps_auto IH.
  - keeps_auto IH.
  - unfold TravelAuthorization.set_reports_to. keeps_auto IH.
  - unfold TravelAuthorization.set_approver. keeps_auto IH.
  - unfold TravelAuthorizationItem.from_date. keeps_auto IH.
  - unfold TravelAuthorizationItem.to_date. keeps_auto IH.
  - unfold TravelAdjustmentItem.from_date. keeps_auto IH.
  - unfold TravelAdjustmentItem.to_date. keeps_auto IH.
Qed.

(** Every callback. *)
Lemma keeps_callback E depth cb r : keeps E (run_callback E (fire E depth) cb r).
Proof.
  pose proof (keeps_fire E depth) as IH.
  destruct cb as [frm | frm cc | frm | frm cc | frm | frm]; cbn [run_callback].
  - unfold TravelClaim.get_employee_currency_callback. keeps_auto IH.
  - unfold TravelClaim.set_exchange_rate_callback. keeps_auto IH.
  - unfold TravelAuthorization.get_employee_currency_callback. keeps_auto IH.
  - unfold TravelAuthorization.set_exchange_rate_callback. keeps_auto IH.
  - unfold TravelAuthorization.set_reports_to_callback. keeps_auto IH.
  - unfold TravelAuthorization.set_approver_callback. keeps_auto IH.
Qed.

Lemma delete_beyond {A} (l : list A) i : l !! i = None -> delete i l = l.
Proof.
  revert i. induction l as [|x l IH]; intros [|i]; cbn; try reflexivity; try discriminate.
  intros H. f_equal. now apply IH.
Qed.

(** X12.  Whatever event fires, whatever field is edited and whatever
    response arrives, a run that completes has touched little: the form is
    the same, no document or row was opened or closed, every field other
    than the seven derived ones ([currency], [exchange_rate], [reports_to],
    [approver], [mileage_amount], [amount], [to_date]) holds what it held --
    after an edit, what the edit wrote -- in every document, the requests
    and messages of before are still there in their order, what was added
    are requests to the four server methods and date diagnostics, and no
    display property but those of [exchange_rate] has changed. *)
Theorem rules_write_derived_fields_only E depth :
  (forall dt ev name w w',
     fire E depth dt ev name w = Ok tt w' -> grows E w w') /\
  (forall cdt cdn f v w w',
     edit E depth cdt cdn f v w = Ok tt w' ->
     w' = w \/ grows E (store cdt cdn f v w) w') /\
  (forall i r w w',
     respond E depth i r w = Ok tt w' -> grows E (without_request i w) w').
Proof.
  split; [|split].
  - intros dt ev name w w' H.
    pose proof (keeps_fire E depth dt ev name w) as Hk. now rewrite H in Hk.
  - intros cdt cdn f v w w' H. unfold edit, set_value in H.
    destruct (locals w !! (cdt, cdn)); [|left; congruence].
    destruct (strict_eq _ _); [left; congruence|]. right.
    pose proof (keeps_fire E depth cdt f cdn (store cdt cdn f v w)) as Hk.
    now rewrite H in Hk.
  - intros i r w w' H. unfold respond in H.
    destruct (in_flight w !! i) as [q|] eqn:Hq.
    + pose proof (keeps_callback E depth (on_response q) r (without_request i w)) as Hk.
      change (World (cur_frm w) (locals w) (df w) (delete i (in_flight w)) (shown w))
        with (without_request i w) in H.
      now rewrite H in Hk.
    + injection H as <-. unfold without_request. rewrite (delete_beyond _ _ Hq).
      destruct w. apply grows_refl.
Qed.

(** X13.  An edit of a field the scripts never set -- [distance],
    [mileage_rate], [from_date], [employee], ... -- made a second time with
    the same value does nothing more: no rule fires again.  In particular
    entering the same distance twice adds the mileage to [amount] once. *)
Theorem repeated_edit_is_a_no_op E depth cdt cdn f v w :
  ~ In f derived_fields ->
  strict_eq v v = true ->
  (edit E depth cdt cdn f v;; edit E depth cdt cdn f v) w = edit E depth cdt cdn f v w.
Proof.
  intros Hf Hv. unfold bind.
  destruct (edit E depth cdt cdn f v w) as [[] w'| |] eqn:Hrun; try reflexivity.
  unfold edit, set_value in Hrun |- *.
  destruct (locals w !! (cdt, cdn)) as [d|] eqn:Hd.
  - destruct (strict_eq (get d f) v) eqn:Hs.
    + injection Hrun as <-. now rewrite Hd, Hs.
    + pose proof (keeps_fire E depth cdt f cdn (store cdt cdn f v w)) as Hk.
      rewrite Hrun in Hk. cbn [final] in Hk.
      destruct Hk as (_ & Hopen & Hread & _).
      assert (Hd1 : locals (store cdt cdn f v w) !! (cdt, cdn) = Some (<[f:=v]> d))
        by (eapply locals_store_eq, Hd).
      destruct (proj2 (Hopen (cdt, cdn)) ltac:(eauto)) as [d' Hd'].
      rewrite Hd'.
      specialize (Hread cdt cdn f Hf). unfold read in Hread. rewrite Hd', Hd1 in Hread.
      rewrite get_insert_eq in Hread. now rewrite Hread, Hv.
  - injection Hrun as <-. now rewrite Hd.
Qed.

End Footprint.

(** ** The buttons of a Travel Authorization *)

Module Buttons.
Import JS Frappe Page TravelAuthorizationPage.

Lemma page_field_Some frm f w doc :
  locals w !! (doctype frm, docname frm) = Some doc ->
  page_field frm f w = ([], Some (get doc f)).
Proof. intros H. unfold page_field. now rewrite H. Qed.

(** What the callback of [refresh] does, for a response that carries an
    object. *)
Lemma refresh_callback_run E D frm w doc m :
  locals w !! (doctype frm, docname frm) = Some doc ->
  let create x := strict_eq (get doc "docstatus") (Num 1) && can_create D x in
  refresh_callback E D frm (Some m) w =
  (if truthy (get m "has_travel_claim") then []
   else ((if create "Travel Advance"
          then [add_custom_button frm (translate E "Advance") (make_travel_advance_of frm)
                  (translate E "Create")]
          else [])
         ++ (if create "Travel Claim"
             then [add_custom_button frm (translate E "Travel Claim")
                     (make_travel_claim_of frm) (translate E "Create")]
             else [])
         ++ (if create "Travel Adjustment"
             then [add_custom_button (cur_frm w) (translate E "Travel Adjustment")
                     (make_travel_adjustment_of frm) (translate E "Create")]
             else []))%list,
   Some tt).
Proof.
  intros Hdoc create. unfold refresh_callback, then_, object, pure.
  destruct (truthy (get m "has_travel_claim")); cbn [negb if_]; [reflexivity|].
  unfold then_. rewrite !(page_field_Some _ _ _ _ Hdoc). fold (create "Travel Advance").
  fold (create "Travel Claim"). fold (create "Travel Adjustment").
  destruct (create "Travel Advance"), (create "Travel Claim"), (create "Travel Adjustment");
    reflexivity.
Qed.

(** X14.  [refresh] of a Travel Authorization asks the server whether the
    authorization has a claim.  When the answer arrives it offers buttons
    only if there is none and [docstatus] is exactly the number 1.  It then adds one button per doctype the user may
    create, in the order Advance, Travel Claim, Travel Adjustment, each in
    the group "Create" -- the first two on the form that was refreshed, the
    third on the form that is current when the answer arrives.  An answer
    without a message makes it throw, with nothing added. *)
Theorem refresh_offers_create_buttons E D frm w doc m :
  locals w !! (doctype frm, docname frm) = Some doc ->
  refresh frm w = ([frm_call frm "has_travel_claim" (refresh_then frm)], Some tt) /\
  exists bs,
    refresh_callback E D frm (Some m) w = (bs, Some tt) /\
    (truthy (get m "has_travel_claim") = true \/
     strict_eq (get doc "docstatus") (Num 1) = false -> bs = []) /\
    (truthy (get m "has_travel_claim") = false ->
     strict_eq (get doc "docstatus") (Num 1) = true ->
     bs = map snd
            (List.filter (fun x => can_create D (fst x))
               [("Travel Advance",
                 add_custom_button frm (translate E "Advance") (make_travel_advance_of frm)
                   (translate E "Create"));
                ("Travel Claim",
                 add_custom_button frm (translate E "Travel Claim") (make_travel_claim_of frm)
                   (translate E "Create"));
                ("Travel Adjustment",
                 add_custom_button (cur_frm w) (translate E "Travel Adjustment")
                   (make_travel_adjustment_of frm) (translate E "Create"))])) /\
    refresh_callback E D frm None w = ([], None).
Proof.
  intros Hdoc. split; [reflexivity|].
  rewrite (refresh_callback_run E D frm w doc m Hdoc). cbv zeta.
  eexists. split; [reflexivity|]. split; [|split; [|reflexivity]].
  - intros [-> | ->]; [reflexivity|].
    now destruct (truthy (get m "has_travel_claim")).
  - intros -> ->. cbn [andb List.filter fst map snd].
    destruct (can_create D "Travel Advance"), (can_create D "Travel Claim"),
      (can_create D "Travel Adjustment"); reflexivity.
Qed.

(** What a click on each of the three buttons does. *)
Lemma click_run frm w doc :
  locals w !! (doctype frm, docname frm) = Some doc ->
  click (make_travel_advance_of frm) w =
    ([frappe_call "hrms.hr.doctype.travel_advance.travel_advance.make_travel_advance"
        [("dt", get doc "doctype"); ("dn", get doc "name")] make_travel_advance_cb],
     Some tt) /\
  click (make_travel_claim_of frm) w =
    ([frappe_call "hrms.hr.doctype.travel_claim.travel_claim.get_travel_claim"
        [("dt", get doc "doctype"); ("dn", get doc "name")] make_travel_claim_cb],
     Some tt) /\
  click (make_travel_adjustment_of frm) w =
    ([open_mapped_doc
        "hrms.hr.doctype.travel_adjustment.travel_adjustment.make_travel_adjustment"
        (cur_frm w)],
     Some tt).
Proof.
  intros Hdoc. cbn [click].
  unfold make_travel_advance, make_travel_claim, make_travel_adjustment, then_.
  rewrite !(page_field_Some _ _ _ _ Hdoc). repeat split.
Qed.

(** X15.  While the authorization is the current form, every button that
    [refresh] offers acts on that authorization when it is clicked: it is a
    button of its form, in the group "Create", the user may create what it
    is labelled with, and the click either sends the server method of the
    Advance or of the Travel Claim with the authorization's doctype and name,
    or opens the mapped Travel Adjustment of its form.  The click makes that
    one call and nothing more. *)
Theorem offered_buttons_act_on_the_authorization E D frm w doc m b :
  cur_frm w = frm ->
  locals w !! (doctype frm, docname frm) = Some doc ->
  get doc "doctype" = Str (doctype frm) ->
  get doc "name" = Str (docname frm) ->
  In b (fst (refresh_callback E D frm (Some m) w)) ->
  exists label act,
    b = add_custom_button frm label act (translate E "Create") /\
    ((label = translate E "Advance" /\ can_create D "Travel Advance" = true /\
      click act w =
      ([frappe_call "hrms.hr.doctype.travel_advance.travel_advance.make_travel_advance"
          [("dt", Str (doctype frm)); ("dn", Str (docname frm))] make_travel_advance_cb],
       Some tt)) \/
     (label = translate E "Travel Claim" /\ can_create D "Travel Claim" = true /\
      click act w =
      ([frappe_call "hrms.hr.doctype.travel_claim.travel_claim.get_travel_claim"
          [("dt", Str (doctype frm)); ("dn", Str (docname frm))] make_travel_claim_cb],
       Some tt)) \/
     (label = translate E "Travel Adjustment" /\ can_create D "Travel Adjustment" = true /\
      click act w =
      ([open_mapped_doc
          "hrms.hr.doctype.travel_adjustment.travel_adjustment.make_travel_adjustment" frm],
       Some tt))).
Proof.
  intros Hfrm Hdoc Hdt Hdn Hin.
  rewrite (refresh_callback_run E D frm w doc m Hdoc) in Hin. cbv zeta in Hin.
  cbn [fst] in Hin.
  destruct (click_run frm w doc Hdoc) as (Hadv & Hclaim & Hadj).
  rewrite Hdt, Hdn in Hadv, Hclaim. rewrite Hfrm in Hadj.
  destruct (truthy (get m "has_travel_claim")); [destruct Hin|].
  apply in_app_or in Hin. destruct Hin as [Hin | Hin].
  - destruct (strict_eq (get doc "docstatus") (Num 1) && can_create D "Travel Advance")
      eqn:Hc; [|destruct Hin].
    apply andb_true_iff in Hc. destruct Hc as [_ Hc].
    destruct Hin as [<- | []]. eexists _, _. split; [reflexivity|]. left. auto.
  - apply in_app_or in Hin. destruct Hin as [Hin | Hin].
    + destruct (strict_eq (get doc "docstatus") (Num 1) && can_create D "Travel Claim")
        eqn:Hc; [|destruct Hin].
      apply andb_true_iff in Hc. destruct Hc as [_ Hc].
      destruct Hin as [<- | []]. eexists _, _. split; [reflexivity|]. right. left. auto.
    + destruct (strict_eq (get doc "docstatus") (Num 1) && can_create D "Travel Adjustment")
        eqn:Hc; [|destruct Hin].
      apply andb_true_iff in Hc. destruct Hc as [_ Hc].
      destruct Hin as [<- | []]. rewrite Hfrm.
      eexists _, _. split; [reflexivity|]. right. right. auto.
Qed.

(** X16.  The callbacks of [make_travel_claim] and [make_travel_advance]
    hand the response to [frappe.model.sync] and route to the form of the
    first document it gives back, whatever follows it in the list.  When
    it gives back none they throw after the sync, and no route is set. *)
Theorem created_document_is_opened D message w :
  (forall d rest,
     sync D message = d :: rest ->
     make_travel_claim_callback D message w =
       ([model_sync message; set_route [Str "Form"; get d "doctype"; get d "name"]],
        Some tt) /\
     make_travel_advance_callback D message w =
       ([model_sync message; set_route [Str "Form"; get d "doctype"; get d "name"]],
        Some tt)) /\
  (sync D message = [] ->
   make_travel_claim_callback D message w = ([model_sync message], None) /\
   make_travel_advance_callback D message w = ([model_sync message], None)).
Proof.
  unfold make_travel_claim_callback, make_travel_advance_callback, then_, emit, object.
  split.
  - intros d rest ->. split; reflexivity.
  - intros ->. split; reflexivity.
Qed.

End Buttons.

(** ** The journal-entry link of a Travel Claim *)

Module Link.
Import JS Frappe Page TravelClaimPage JSFacts.

(** X17.  [refresh] of a Travel Claim writes the journal-entry markup only
    when [journal_entry] is set: without it nothing is written, whatever
    [journal_entry_status] holds.  With it, the wrapper of the current form
    gets one link whose target and text are the entry's name as it stands,
    followed by the status line exactly when a status is set. *)
Theorem journal_entry_link_needs_an_entry E frm w doc :
  locals w !! (doctype frm, docname frm) = Some doc ->
  let entry := get doc "journal_entry" in
  let status := get doc "journal_entry_status" in
  let link :=
    "<label class=" ++ dq ++ "control-label" ++ dq ++ " style=" ++ dq
    ++ "padding-right: 0px;" ++ dq ++ ">Journal Entry</label><br><b>"
    ++ "<a href=" ++ dq ++ "/desk/Form/Journal Entry/" ++ to_string (js E) entry
    ++ dq ++ ">" ++ to_string (js E) entry ++ "</a> " ++ "</b>" in
  (truthy entry = false -> refresh E frm w = ([], Some tt)) /\
  (truthy entry = true -> truthy status = false ->
   refresh E frm w = ([html (cur_frm w) "journal_entry_html" (Str link)], Some tt)) /\
  (truthy entry = true -> truthy status = true ->
   refresh E frm w =
   ([html (cur_frm w) "journal_entry_html"
       (Str (link ++ "<div style=" ++ dq ++ "font-style: italic; font-size: 0.8em; " ++ dq
             ++ ">* " ++ to_string (js E) status ++ "</div>"))],
    Some tt)).
Proof.
  intros Hdoc entry status link.
  unfold refresh, refresh_html, then_.
  rewrite !(Buttons.page_field_Some _ _ _ _ Hdoc). fold entry status.
  repeat apply conj.
  - intros ->. reflexivity.
  - intros -> ->. cbn [if_]. unfold then_, current, emit. cbn [app].
    unfold concat. cbn [to_string]. unfold link.
    match goal with
    | |- ([html _ _ (Str ?a)], _) = ([html _ _ (Str ?b)], _) =>
        assert (Hs : a = b); [|now rewrite Hs]
    end.
    rewrite !string_app_assoc. reflexivity.
  - intros -> ->. cbn [if_]. unfold then_, current, emit. cbn [app].
    unfold concat. cbn [to_string]. unfold link.
    match goal with
    | |- ([html _ _ (Str ?a)], _) = ([html _ _ (Str ?b)], _) =>
        assert (Hs : a = b); [|now rewrite Hs]
    end.
    rewrite !string_app_assoc. reflexivity.
Qed.

End Link.

(** ** Fields without a handler *)

Module Quiet.
Import JS Frappe Dispatch Session Run JSFacts Effects.

Lemma registered_pairs E : map (fun e : string * string * handler => fst e) (registry E) = registered.
Proof. reflexivity. Qed.

Lemma lookup_unregistered E dt ev :
  ~ In (dt, ev) registered -> lookup_handler (registry E) dt ev = None.
Proof.
  intros Hnot. destruct (lookup_handler (registry E) dt ev) as [h|] eqn:Hl; [|reflexivity].
  exfalso. apply Hnot. apply lookup_In in Hl.
  rewrite <- (registered_pairs E). change (dt, ev) with (fst (dt, ev, h)).
  now apply in_map.
Qed.

(** X18.  A field that no script registers a handler for fires nothing
    when it is edited: the edit writes the field and that is all.  So a
    change of [company] leaves [exchange_rate] and its display as they were,
    a change of [halt] fills no date, and a change of [amount] or
    [mileage_amount] recomputes nothing. *)
Theorem other_fields_fire_no_rule E depth cdt cdn f v w :
  ~ In (cdt, f) registered ->
  is_Some (locals w !! (cdt, cdn)) ->
  edit E depth cdt cdn f v w = Ok tt (write cdt cdn f v w).
Proof.
  intros Hnot Hrow. apply set_value_unhandled; [exact Hrow|].
  now apply lookup_unregistered.
Qed.

End Quiet.

(** ** The chain of responses *)

Module Cascade.
Import JS Frappe Dispatch Session Run JSFacts Effects.

Lemma weight_delete (l : list request) i q :
  l !! i = Some q ->
  list_sum (map weight_of (delete i l)) + weight_of q = list_sum (map weight_of l).
Proof.
  revert i. induction l as [|x l IH]; intros [|i] H; try discriminate.
  - injection H as ->.
    change (list_sum (map weight_of l) + weight_of q
            = weight_of q + list_sum (map weight_of l)).
    lia.
  - specialize (IH i H).
    change (weight_of x + list_sum (map weight_of (delete i l)) + weight_of q
            = weight_of x + list_sum (map weight_of l)).
    lia.
Qed.

Lemma weight_app (l l' : list request) :
  list_sum (map weight_of (l ++ l')) = list_sum (map weight_of l) + list_sum (map weight_of l').
Proof. now rewrite map_app, list_sum_app. Qed.

(** Setting a field that has no handler sends nothing. *)
Lemma set_value_quiet E depth dt dn f v w w' :
  lookup_handler (registry E) dt f = None ->
  set_value (fire E depth) dt dn f v w = Ok tt w' ->
  in_flight w' = in_flight w.
Proof.
  intros Hn. unfold set_value.
  destruct (locals w !! (dt, dn)); [|now intros [= <-]].
  destruct (strict_eq _ _); [now intros [= <-]|].
  rewrite fire_unhandled by exact Hn. now intros [= <-].
Qed.

Lemma no_handler E dt ev :
  ~ In ev (handled_events E) -> lookup_handler (registry E) dt ev = None.
Proof. apply lookup_foreign_event. Qed.

(** The [currency] handler of either form sends one rate request at most. *)
Lemma currency_adds E depth dt dn w w' :
  fire E depth dt "currency" dn w = Ok tt w' ->
  in_flight w' = in_flight w \/
  exists q, in_flight w' = (in_flight w ++ [q])%list /\ weight_of q = 1.
Proof.
  rewrite fire_eq.
  destruct (lookup_handler (registry E) dt "currency") as [h|] eqn:Hl;
    [|intros [= <-]; now left].
  destruct depth as [|depth]; [discriminate|].
  assert (Hrate : lookup_handler (registry E) (doctype (cur_frm w)) "exchange_rate" = None)
    by (apply no_handler; cbn; intuition discriminate).
  apply lookup_In in Hl. cbn [registry In] in Hl.
  repeat (destruct Hl as [Hl | Hl]; [try discriminate Hl|]); [| |destruct Hl].
  - injection Hl as <- <-.
    unfold TravelClaim.currency, bind, doc_field, field.
    destruct (locals w !! (doctype (cur_frm w), docname (cur_frm w))) as [d|] eqn:Hd;
      [|discriminate].
    destruct (truthy (get d "currency")); cbn [when]; [|intros [= <-]; now left].
    unfold bind. rewrite Hd. cbv zeta.
    destruct (negb (loose_eq (js E) (get d "currency") _)).
    + unfold TravelClaim.set_exchange_rate, call, refresh_fields, ret.
      intros [= <-]. right. eexists. split; reflexivity.
    + unfold frm_set_value, bind.
      destruct (set_value (fire E depth) _ _ "exchange_rate" (Num 1) w) as [[] w1| |] eqn:Hs;
        try discriminate.
      apply set_value_quiet in Hs; [|exact Hrate].
      unfold set_df_property, refresh_fields, ret. intros [= <-]. left. exact Hs.
  - injection Hl as <- <-.
    unfold TravelAuthorization.currency, bind, doc_field, field.
    destruct (locals w !! (doctype (cur_frm w), docname (cur_frm w))) as [d|] eqn:Hd;
      [|discriminate].
    destruct (truthy (get d "currency")); cbn [when]; [|intros [= <-]; now left].
    unfold bind. rewrite Hd. cbv zeta.
    destruct (negb (loose_eq (js E) (get d "currency") _)).
    + unfold TravelAuthorization.set_exchange_rate, call, refresh_fields, ret.
      intros [= <-]. right. eexists. split; reflexivity.
    + unfold frm_set_value, bind.
      destruct (set_value (fire E depth) _ _ "exchange_rate" (Num 1) w) as [[] w1| |] eqn:Hs;
        try discriminate.
      apply set_value_quiet in Hs; [|exact Hrate].
      unfold set_df_property, refresh_fields, ret. intros [= <-]. left. exact Hs.
Qed.

Lemma set_currency_adds E depth dt dn v w w' :
  set_value (fire E depth) dt dn "currency" v w = Ok tt w' ->
  in_flight w' = in_flight w \/
  exists q, in_flight w' = (in_flight w ++ [q])%list /\ weight_of q = 1.
Proof.
  unfold set_value.
  destruct (locals w !! (dt, dn)); [|intros [= <-]; now left].
  destruct (strict_eq _ _); [intros [= <-]; now left|].
  intros H. now apply currency_adds in H.
Qed.

(** The callback of a rate request and those of the hierarchy lookups send
    nothing. *)
Lemma leaf_callbacks_send_nothing E depth cb r w w' :
  weight_of (Request "" [] cb) = 1 ->
  run_callback E (fire E depth) cb r w = Ok tt w' ->
  in_flight w' = in_flight w.
Proof.
  assert (Hnone : forall dt f, In f ["exchange_rate"; "reports_to"; "approver"] ->
            lookup_handler (registry E) dt f = None).
  { intros dt f Hf. apply no_handler. cbn. cbn in Hf. intuition (subst; discriminate). }
  destruct cb as [frm | frm cc | frm | frm cc | frm | frm]; cbn [weight_of on_response];
    try discriminate; intros _; cbn [run_callback].
  - unfold TravelClaim.set_exchange_rate_callback, frm_set_value, bind.
    destruct (set_value _ _ _ _ _ w) as [[] w1| |] eqn:Hs; try discriminate.
    apply set_value_quiet in Hs; [|apply Hnone; cbn; auto].
    unfold set_df_property at 1. unfold doc_field, field. cbn [locals].
    destruct (locals w1 !! _); [|discriminate].
    unfold set_df_property. intros [= <-]. exact Hs.
  - unfold TravelAuthorization.set_exchange_rate_callback, frm_set_value, bind.
    destruct (set_value _ _ _ _ _ w) as [[] w1| |] eqn:Hs; try discriminate.
    apply set_value_quiet in Hs; [|apply Hnone; cbn; auto].
    unfold set_df_property at 1. unfold doc_field, field. cbn [locals].
    destruct (locals w1 !! _); [|discriminate].
    unfold set_df_property. intros [= <-]. exact Hs.
  - unfold TravelAuthorization.set_reports_to_callback, frm_set_value.
    destruct (truthy _); cbn [when]; [|now intros [= <-]].
    intros Hs. apply set_value_quiet in Hs; [exact Hs | apply Hnone; cbn; auto].
  - unfold TravelAuthorization.set_approver_callback, frm_set_value.
    destruct (truthy _); cbn [when]; [|now intros [= <-]].
    intros Hs. apply set_value_quiet in Hs; [exact Hs | apply Hnone; cbn; auto].
Qed.

(** The callback of a salary lookup sends one rate request at most. *)
Lemma salary_callbacks_send_one E depth cb r w w' :
  weight_of (Request "" [] cb) = 2 ->
  run_callback E (fire E depth) cb r w = Ok tt w' ->
  in_flight w' = in_flight w \/
  exists q, in_flight w' = (in_flight w ++ [q])%list /\ weight_of q = 1.
Proof.
  destruct cb as [frm | frm cc | frm | frm cc | frm | frm]; cbn [weight_of on_response];
    try discriminate; intros _; cbn [run_callback].
  - unfold TravelClaim.get_employee_currency_callback, frm_set_value, bind, refresh_fields, ret.
    destruct (truthy (get r "currency")).
    + destruct (set_value _ _ _ _ _ w) as [[] w1| |] eqn:Hs; try discriminate.
      intros [= <-]. now apply set_currency_adds in Hs.
    + unfold doc_field, field. destruct (locals w !! _); [|discriminate].
      destruct (set_value _ _ _ _ _ w) as [[] w1| |] eqn:Hs; try discriminate.
      intros [= <-]. now apply set_currency_adds in Hs.
  - unfold TravelAuthorization.get_employee_currency_callback, frm_set_value, bind,
      refresh_fields, ret.
    destruct (truthy (get r "currency")).
    + destruct (set_value _ _ _ _ _ w) as [[] w1| |] eqn:Hs; try discriminate.
      intros [= <-]. now apply set_currency_adds in Hs.
    + unfold doc_field, field. destruct (locals w !! _); [|discriminate].
      destruct (set_value _ _ _ _ _ w) as [[] w1| |] eqn:Hs; try discriminate.
      intros [= <-]. now apply set_currency_adds in Hs.
Qed.

Lemma weight_of_cases q : weight_of q = 1 \/ weight_of q = 2.
Proof. unfold weight_of. destruct (on_response q); auto. Qed.

Lemma weight_bound w : weight w <= 2 * List.length (in_flight w).
Proof.
  unfold weight. induction (in_flight w) as [|x l IH]; [apply le_n|].
  change (weight_of x + list_sum (map weight_of l) <= 2 * S (List.length l)).
  destruct (weight_of_cases x); lia.
Qed.

(** One response costs at least one unit of weight. *)
Lemma response_decreases E depth i r w q w' :
  in_flight w !! i = Some q ->
  respond E depth i r w = Ok tt w' ->
  weight w' < weight w.
Proof.
  intros Hq Hrun. unfold respond in Hrun. rewrite Hq in Hrun.
  change (World (cur_frm w) (locals w) (df w) (delete i (in_flight w)) (shown w))
    with (without_request i w) in Hrun.
  pose proof (weight_delete (in_flight w) i q Hq) as Hdel.
  unfold weight.
  destruct (weight_of_cases q) as [H1 | H2].
  - apply leaf_callbacks_send_nothing in Hrun; [|exact H1].
    rewrite Hrun. cbn [without_request in_flight]. lia.
  - apply salary_callbacks_send_one in Hrun; [|exact H2].
    destruct Hrun as [-> | (q' & -> & Hq')]; cbn [without_request in_flight].
    + lia.
    + rewrite weight_app.
      change (list_sum (map weight_of [q'])) with (weight_of q' + 0). lia.
Qed.

(** X19.  The chain of responses is finite.  Count a salary lookup in
    flight as 2 and any other request as 1: every response that arrives
    and is handled lowers the count, since only the salary response can
    send a request (the rate request) and that one sends none.  So from a
    session with [n] requests in flight at most [2 n] responses can be
    delivered, however they are ordered. *)
Theorem responses_run_out E depth w n w' :
  delivers E depth w n w' ->
  n + weight w' <= weight w /\ n <= 2 * List.length (in_flight w).
Proof.
  intros H.
  assert (Hn : n + weight w' <= weight w).
  { induction H as [w | w i r q w1 n w2 Hq Hrun _ IH]; [lia|].
    pose proof (response_decreases E depth i r w q w1 Hq Hrun). lia. }
  split; [exact Hn|]. pose proof (weight_bound w). lia.
Qed.

End Cascade.

(** ** Which documents a rule changes *)

Module Locality.
Import JS Frappe Dispatch Session Run JSFacts Effects.

Lemma touches_refl K w : touches K w w.
Proof. intros k _. reflexivity. Qed.

Lemma touches_trans K w1 w2 w3 : touches K w1 w2 -> touches K w2 w3 -> touches K w1 w3.
Proof. intros H1 H2 k Hk. now rewrite (H2 k Hk), (H1 k Hk). Qed.

Lemma touches_store K cdt cdn f v w : In (cdt, cdn) K -> touches K w (store cdt cdn f v w).
Proof.
  intros Hin k Hk. apply locals_store_ne. intros ->. now apply Hk.
Qed.

Section OnForm.
Variable frm : form.
Variable K : list (string * string).

Lemma confined_bind {A B} (m : M A) (k : A -> M B) :
  confined frm K m -> (forall a, confined frm K (k a)) -> confined frm K (bind m k).
Proof.
  intros Hm Hk w Hfrm. unfold bind. specialize (Hm w Hfrm).
  destruct (m w) as [a w1| |]; [|exact I|exact I].
  destruct Hm as [Hf1 Ht1]. specialize (Hk a w1 Hf1).
  destruct (k a w1) as [b w2| |]; [|exact I|exact I].
  destruct Hk as [Hf2 Ht2]. split; [exact Hf2 | eapply touches_trans; eassumption].
Qed.

Lemma confined_ret {A} (a : A) : confined frm K (ret a).
Proof. intros w Hfrm. split; [exact Hfrm | apply touches_refl]. Qed.

Lemma confined_when b (m : M unit) : confined frm K m -> confined frm K (when b m).
Proof. intros H. destruct b; [exact H | apply confined_ret]. Qed.

Lemma confined_if {A} (b : bool) (m1 m2 : M A) :
  confined frm K m1 -> confined frm K m2 -> confined frm K (if b then m1 else m2).
Proof. now destruct b. Qed.

Lemma confined_field cdt cdn f : confined frm K (field cdt cdn f).
Proof.
  intros w Hfrm. unfold field. destruct (locals w !! (cdt, cdn)); [|exact I].
  split; [exact Hfrm | apply touches_refl].
Qed.

Lemma confined_doc_field frm' f : confined frm K (doc_field frm' f).
Proof. apply confined_field. Qed.

Lemma confined_call q : confined frm K (call q).
Proof. intros w Hfrm. split; [exact Hfrm | intros k _; reflexivity]. Qed.

Lemma confined_msgprint m : confined frm K (msgprint m).
Proof. intros w Hfrm. split; [exact Hfrm | intros k _; reflexivity]. Qed.

Lemma confined_set_df_property f p v : confined frm K (set_df_property f p v).
Proof. intros w Hfrm. split; [exact Hfrm | intros k _; reflexivity]. Qed.

Lemma confined_set_value (run : dispatcher) cdt cdn f v :
  In (cdt, cdn) K -> confined frm K (run cdt f cdn) ->
  confined frm K (set_value run cdt cdn f v).
Proof.
  intros Hin Hrun w Hfrm. unfold set_value.
  destruct (locals w !! (cdt, cdn)); [|split; [exact Hfrm | apply touches_refl]].
  destruct (strict_eq _ _); [split; [exact Hfrm | apply touches_refl]|].
  specialize (Hrun (store cdt cdn f v w) Hfrm).
  destruct (run cdt f cdn (store cdt cdn f v w)); [|exact I|exact I].
  destruct Hrun as [Hf Ht]. split; [exact Hf|].
  eapply touches_trans; [apply (touches_store K cdt cdn f v w Hin) | exact Ht].
Qed.

End OnForm.

Ltac not_a_form_event := right; cbn; intuition discriminate.

Ltac confined_step IH :=
  first
    [ apply confined_field | apply confined_doc_field
    | apply confined_call | apply confined_msgprint | apply confined_set_df_property
    | apply confined_ret | apply confined_when | apply confined_if
    | apply confined_bind; [|intros ?]
    | apply confined_set_value;
      [assumption | apply IH; [assumption | first [left; assumption | not_a_form_event]]]
    | apply IH; [assumption | first [left; assumption | not_a_form_event]] ].

Ltac confined_auto IH :=
  cbv zeta;
  unfold frm_set_value, trigger, trigger_row, refresh_fields, console_log,
         TravelClaim.set_exchange_rate, TravelAuthorization.set_exchange_rate;
  repeat confined_step IH.

(** A handler changes the document or row it is fired for, and a form
    handler the document of the form; nothing else. *)
Lemma confined_fire E depth :
  forall frm K dt ev name,
    In (dt, name) K ->
    In (doctype frm, docname frm) K \/ ~ In (dt, ev) form_events ->
    confined frm K (fire E depth dt ev name).
Proof.
  induction depth as [|depth IH]; intros frm K dt ev name Hrow Hform w Hfrm;
    rewrite fire_eq;
    destruct (lookup_handler (registry E) dt ev) as [h|] eqn:Hl;
    try (split; [exact Hfrm | apply touches_refl]); try exact I.
  rewrite Hfrm. revert w Hfrm.
  Termination.registry_cases Hl;
    match goal with
    | |- forall w, _ -> match ?m w with _ => _ end => change (confined frm K m)
    end;
    try (assert (Hdoc : In (doctype frm, docname frm) K)
           by (destruct Hform as [H | H]; [exact H | exfalso; apply H; cbn; tauto])).
  - unfold TravelClaim.employee. confined_auto IH.
  - unfold TravelClaim.get_employee_currency. confined_auto IH.
  - unfold TravelClaim.currency. confined_auto IH.
  - confined_auto IH.
  - unfold TravelClaimItem.mileage_rate. confined_auto IH.
  - unfold TravelClaimItem.distance. confined_auto IH.
  - unfold TravelClaimItem.calculate. confined_auto IH.
  - unfold TravelAuthorization.employee. confined_auto IH.
  - unfold TravelAuthorization.get_employee_currency. confined_auto IH.
  - unfold TravelAuthorization.currency. confined_auto IH.
  - confined_auto IH.
  - unfold TravelAuthorization.set_reports_to. confined_auto IH.
  - unfold TravelAuthorization.set_approver. confined_auto IH.
  - unfold TravelAuthorizationItem.from_date. confined_auto IH.
  - unfold TravelAuthorizationItem.to_date. confined_auto IH.
  - unfold TravelAdjustmentItem.from_date. confined_auto IH.
  - unfold TravelAdjustmentItem.to_date. confined_auto IH.
Qed.

(** A callback changes the document of the form it closed over, and what
    the handlers behind it change. *)
Lemma confined_callback E depth cb r frm K :
  In (doctype (callback_form cb), docname (callback_form cb)) K ->
  In (doctype frm, docname frm) K ->
  confined frm K (run_callback E (fire E depth) cb r).
Proof.
  pose proof (confined_fire E depth) as IH.
  destruct cb as [cfrm | cfrm cc | cfrm | cfrm cc | cfrm | cfrm];
    cbn [run_callback callback_form]; intros Hcb Hdoc.
  - unfold TravelClaim.get_employee_currency_callback. confined_auto IH.
  - unfold TravelClaim.set_exchange_rate_callback. confined_auto IH.
  - unfold TravelAuthorization.get_employee_currency_callback. confined_auto IH.
  - unfold TravelAuthorization.set_exchange_rate_callback. confined_auto IH.
  - unfold TravelAuthorization.set_reports_to_callback. confined_auto IH.
  - unfold TravelAuthorization.set_approver_callback. confined_auto IH.
Qed.

Lemma row_events_are_no_form_events dt ev :
  In (dt, ev) row_events -> ~ In (dt, ev) form_events.
Proof.
  cbn [row_events In].
  intros H. repeat (destruct H as [H | H]; [injection H as <- <-; cbn; intuition discriminate|]).
  destruct H.
Qed.

(** X20.  Rules stay in their documents.  A handler of a child table
    changes the row it is fired for and nothing else -- not the parent, not
    a sibling row.  Any handler changes at most the document or row it is
    fired for and the document of the current form; a response changes at
    most the document of the form that sent the request and that of the
    current form. *)
Theorem rules_stay_in_their_documents E depth :
  (forall dt ev name w w' k,
     In (dt, ev) row_events ->
     fire E depth dt ev name w = Ok tt w' ->
     k <> (dt, name) ->
     locals w' !! k = locals w !! k) /\
  (forall dt ev name w w' k,
     fire E depth dt ev name w = Ok tt w' ->
     k <> (dt, name) ->
     k <> (doctype (cur_frm w), docname (cur_frm w)) ->
     locals w' !! k = locals w !! k) /\
  (forall i r w w' q k,
     in_flight w !! i = Some q ->
     respond E depth i r w = Ok tt w' ->
     k <> (doctype (callback_form (on_response q)), docname (callback_form (on_response q))) ->
     k <> (doctype (cur_frm w), docname (cur_frm w)) ->
     locals w' !! k = locals w !! k).
Proof.
  split; [|split].
  - intros dt ev name w w' k Hev Hrun Hk.
    pose proof (confined_fire E depth (cur_frm w) [(dt, name)] dt ev name
                  ltac:(now left)
                  (or_intror (row_events_are_no_form_events dt ev Hev)) w eq_refl) as H.
    rewrite Hrun in H. destruct H as [_ H]. apply H. intros [<- | []]. now apply Hk.
  - intros dt ev name w w' k Hrun Hk Hk'.
    pose proof (confined_fire E depth (cur_frm w)
                  [(dt, name); (doctype (cur_frm w), docname (cur_frm w))] dt ev name
                  ltac:(now left) ltac:(left; right; now left) w eq_refl) as H.
    rewrite Hrun in H. destruct H as [_ H]. apply H.
    intros [<- | [<- | []]]; [now apply Hk | now apply Hk'].
  - intros i r w w' q k Hq Hrun Hk Hk'. unfold respond in Hrun. rewrite Hq in Hrun.
    pose proof (confined_callback E depth (on_response q) r (cur_frm w)
                  [(doctype (callback_form (on_response q)),
                    docname (callback_form (on_response q)));
                   (doctype (cur_frm w), docname (cur_frm w))]
                  ltac:(now left) ltac:(right; now left)
                  (World (cur_frm w) (locals w) (df w) (delete i (in_flight w)) (shown w))
                  eq_refl) as H.
    rewrite Hrun in H. destruct H as [_ H]. apply H.
    intros [<- | [<- | []]]; [now apply Hk | now apply Hk'].
Qed.

End Locality.

(** ** More worked examples *)

Module Checks.
Import JS Frappe Dispatch Session Run Scenario Effects Page Cases.

(** The employee of the authorization is set. *)
Lemma employee_change_sends_lookups_witness :
  edit site 2 "Travel Authorization" "TA-0001" "employee" (Str "EMP-0001")
    (trip_session open_row) =
  Ok tt (with_requests
           [salary_request auth_form (Str "EMP-0001");
            reports_to_request auth_form (Str "EMP-0001");
            approver_request auth_form (Str "EMP-0001")]
           (store "Travel Authorization" "TA-0001" "employee" (Str "EMP-0001")
              (trip_session open_row))).
Proof.
  assert (Hdt : In "Travel Authorization" currency_forms) by (right; left; reflexivity).
  exact (Lookups.employee_change_sends_lookups site 0 "Travel Authorization" "TA-0001"
           (trip_session open_row) {[ "company" := Str "ACME" ]} (Str "EMP-0001")
           eq_refl Hdt eq_refl eq_refl eq_refl).
Defined.

(** The reports-to lookup of that authorization is answered. *)
Lemma hierarchy_response_sets_field_witness :
  in_flight staffed_trip !! 1 = Some (reports_to_request auth_form (Str "EMP-0001")) /\
  exists w',
    respond site 0 1 {[ "message" := Str "EMP-0002" ]} staffed_trip = Ok tt w' /\
    read w' "Travel Authorization" "TA-0001" "reports_to" = Str "EMP-0002" /\
    in_flight w' = [salary_request auth_form (Str "EMP-0001");
                    approver_request auth_form (Str "EMP-0001")].
Proof.
  split; [reflexivity|].
  destruct (Lookups.hierarchy_response_sets_field site 0 auth_form staffed_trip
              {[ "company" := Str "ACME"; "employee" := Str "EMP-0001" ]}
              1 (Str "EMP-0001") {[ "message" := Str "EMP-0002" ]} "reports_to" eq_refl
              (or_introl (conj eq_refl eq_refl)))
    as (w' & Hrun & Hfl & _ & _ & _ & _ & Hset & _).
  exists w'. split; [exact Hrun|]. split; [|exact Hfl].
  apply holds_Str, Hset. reflexivity.
Defined.

(** The authorization before it has an employee. *)
Lemma lookups_guard_themselves_witness :
  truthy (get ({[ "company" := Str "ACME" ]} : gmap string value) "employee") = false /\
  fire site 1 "Travel Authorization" "set_reports_to" "TA-0001" (trip_session open_row)
    = Ok tt (trip_session open_row) /\
  fire site 1 "Travel Authorization" "set_approver" "TA-0001" (trip_session open_row)
    = Ok tt (trip_session open_row) /\
  fire site 1 "Travel Authorization" "get_employee_currency" "TA-0001" (trip_session open_row)
    = Ok tt (with_request (salary_request auth_form Undefined) (trip_session open_row)).
Proof.
  split; [reflexivity|].
  pose proof (Lookups.lookups_guard_themselves site 0 "TA-0001" (trip_session open_row)
                {[ "company" := Str "ACME" ]} eq_refl eq_refl) as H.
  cbv zeta in H. destruct H as (Hoff & _ & Hsalary & _).
  destruct (Hoff eq_refl) as [Hr Ha]. auto.
Defined.

(** The approver answers before the reports-to lookup, or after it. *)
Lemma hierarchy_responses_commute_witness :
  (respond site 0 1 {[ "message" := Str "EMP-0002" ]};;
   respond site 0 1 {[ "message" := Str "EMP-0003" ]}) staffed_trip =
  (respond site 0 2 {[ "message" := Str "EMP-0003" ]};;
   respond site 0 1 {[ "message" := Str "EMP-0002" ]}) staffed_trip.
Proof.
  exact (Lookups.hierarchy_responses_commute site 0 auth_form staffed_trip
           {[ "company" := Str "ACME"; "employee" := Str "EMP-0001" ]}
           1 2 (Str "EMP-0001") (Str "EMP-0001")
           {[ "message" := Str "EMP-0002" ]} {[ "message" := Str "EMP-0003" ]}
           eq_refl eq_refl eq_refl (le_n 2)).
Defined.

(** A salary structure in USD, for a claim whose company keeps INR: the
    rate is asked for, and 83.5 comes back. *)
Lemma salary_currency_runs_the_rate_rule_witness :
  in_flight awaiting_salary !! 0 = Some (salary_request claim_form (Str "EMP-0001")) /\
  exists w1 w2,
    respond site 1 0 {[ "currency" := Str "USD" ]} awaiting_salary = Ok tt w1 /\
    read w1 "Travel Claim" "TC-0001" "currency" = Str "USD" /\
    in_flight w1 = [exchange_request claim_form (Str "USD") (Str "INR")] /\
    respond site 0 0 {[ "message" := Num 83.5 ]} w1 = Ok tt w2 /\
    holds (read w2 "Travel Claim" "TC-0001" "exchange_rate") (Num 83.5) /\
    df w2 !! ("exchange_rate", "description") = Some (Str "1 USD = [?] INR").
Proof.
  split; [reflexivity|].
  assert (Hdt : In "Travel Claim" currency_forms) by (left; reflexivity).
  pose proof (Chain.salary_currency_runs_the_rate_rule site 0 "Travel Claim" "TC-0001"
                awaiting_salary unassigned_claim 0 (Str "EMP-0001")
                {[ "currency" := Str "USD" ]} eq_refl Hdt eq_refl eq_refl) as H.
  cbv zeta in H. destruct H as (w1 & Hrun & _ & _ & _ & Hrate).
  destruct (Hrate eq_refl eq_refl eq_refl) as (Hcur & Hfl & Hresp).
  destruct (Hresp {[ "message" := Num 83.5 ]}) as (w2 & Hrun2 & Hrate2 & _ & Hdesc & _).
  exists w1, w2. repeat split; assumption.
Defined.

(** The currency of a USD claim is confirmed three times. *)
Lemma rate_rule_fired_again_witness :
  times 3 (fire site 1 "Travel Claim" "currency" "TC-0001") (claim_session usd_claim) =
  Ok tt (with_requests
           [exchange_request claim_form (Str "USD") (Str "INR");
            exchange_request claim_form (Str "USD") (Str "INR");
            exchange_request claim_form (Str "USD") (Str "INR")]
           (claim_session usd_claim)).
Proof.
  assert (Hdt : In "Travel Claim" currency_forms) by (left; reflexivity).
  pose proof (Chain.rate_rule_fired_again site 0 "Travel Claim" "TC-0001"
                (claim_session usd_claim) usd_claim eq_refl Hdt eq_refl eq_refl) as H.
  cbv zeta in H. destruct H as [_ H]. exact (H eq_refl 3).
Defined.

(** The [to_date] rule on the halted item that has fallen out of order. *)
Lemma to_date_rule_restores_order_witness :
  row_in_order plain (trip_session late_row) "Travel Authorization Item" "row-1" = false /\
  exists w',
    fire site 2 "Travel Authorization Item" "to_date" "row-1" (trip_session late_row)
      = Ok tt w' /\
    row_in_order plain w' "Travel Authorization Item" "row-1" = true.
Proof.
  split; [reflexivity|].
  assert (Hdt : In "Travel Authorization Item" date_tables) by (left; reflexivity).
  destruct (DateRules.to_date_rule_restores_order site 0 "Travel Authorization Item" "row-1"
              (trip_session late_row) late_row Hdt eq_refl) as (w' & Hrun & Hord & _).
  exists w'. split; assumption.
Defined.

(** The [from_date] rule on the halted item. *)
Lemma from_date_rule_is_silent_witness :
  truthy (get halted_row "halt") = true /\
  fire site 2 "Travel Authorization Item" "from_date" "row-1" (trip_session halted_row)
    = Ok tt (trip_session halted_row).
Proof.
  split; [reflexivity|].
  assert (Hdt : In "Travel Authorization Item" date_tables) by (left; reflexivity).
  destruct (DateRules.from_date_rule_is_silent site 0 "Travel Authorization Item" "row-1"
              (trip_session halted_row) halted_row Hdt eq_refl)
    as (w' & Hrun & _ & _ & _ & _ & _ & _ & _ & Hhalt & _).
  rewrite Hrun. f_equal. apply Hhalt. reflexivity.
Defined.

(** Either handler, on the open item. *)
Lemma from_date_variants_agree_witness :
  TravelAuthorizationItem.from_date site (fire site 1) auth_form
    "Travel Authorization Item" "row-1" (trip_session open_row) =
  TravelAdjustmentItem.from_date (fire site 1) auth_form
    "Travel Authorization Item" "row-1" (trip_session open_row).
Proof.
  exact (proj2 (DateRules.from_date_variants_agree site (fire site 1) auth_form
                  "Travel Authorization Item" "row-1" (trip_session open_row))
           open_row eq_refl eq_refl eq_refl).
Defined.

(** [calculate] on an item with nothing filled in. *)
Lemma calculate_leaves_numbers_witness :
  exists w',
    fire site 1 "Travel Claim Item" "calculate" "row-1" blank_item_session = Ok tt w' /\
    read w' "Travel Claim Item" "row-1" "mileage_amount" = Num 0 /\
    read w' "Travel Claim Item" "row-1" "amount" = Num 0.
Proof.
  destruct (Rows.calculate_leaves_numbers site 0 "row-1" blank_item_session ∅ eq_refl)
    as (w' & Hrun & _ & _ & Hblank).
  destruct (Hblank eq_refl eq_refl eq_refl eq_refl) as [Hm Ha].
  exists w'. repeat split; assumption.
Defined.


(** The [to_date] rule on the item that has fallen out of order: one
    message, one field. *)
Lemma rules_write_derived_fields_only_witness :
  exists w',
    fire site 2 "Travel Authorization Item" "to_date" "row-1" (trip_session late_row)
      = Ok tt w' /\
    grows site (trip_session late_row) w'.
Proof.
  exists (final (trip_session late_row)
            (fire site 2 "Travel Authorization Item" "to_date" "row-1"
               (trip_session late_row))).
  assert (Hrun : fire site 2 "Travel Authorization Item" "to_date" "row-1"
                   (trip_session late_row) =
                 Ok tt (final (trip_session late_row)
                          (fire site 2 "Travel Authorization Item" "to_date" "row-1"
                             (trip_session late_row))))
    by (vm_compute; reflexivity).
  split; [exact Hrun|].
  exact (proj1 (Footprint.rules_write_derived_fields_only site 2) _ _ _ _ _ Hrun).
Defined.

(** The same distance entered twice. *)
Lemma repeated_edit_is_a_no_op_witness :
  (edit site 2 "Travel Claim Item" "row-1" "distance" (Num 5);;
   edit site 2 "Travel Claim Item" "row-1" "distance" (Num 5)) mileage_session =
  edit site 2 "Travel Claim Item" "row-1" "distance" (Num 5) mileage_session.
Proof.
  assert (Hf : ~ In "distance" derived_fields) by (cbn; intuition discriminate).
  exact (Footprint.repeated_edit_is_a_no_op site 2 "Travel Claim Item" "row-1" "distance"
           (Num 5) mileage_session Hf eq_refl).
Defined.

(** The submitted authorization, for a user who may not create claims. *)
Lemma refresh_offers_create_buttons_witness :
  TravelAuthorizationPage.refresh_callback site clerk auth_form (Some ∅) submitted_session =
  ([add_custom_button auth_form "Advance" (make_travel_advance_of auth_form) "Create";
    add_custom_button auth_form "Travel Adjustment" (make_travel_adjustment_of auth_form)
      "Create"],
   Some tt).
Proof.
  destruct (Buttons.refresh_offers_create_buttons site clerk auth_form submitted_session
              submitted_trip ∅ eq_refl) as (_ & bs & Hrun & _ & Hbs & _).
  rewrite Hrun, (Hbs eq_refl eq_refl). reflexivity.
Defined.

(** The Advance button of that authorization. *)
Lemma offered_buttons_act_on_the_authorization_witness :
  exists act,
    In (add_custom_button auth_form "Advance" act "Create")
       (fst (TravelAuthorizationPage.refresh_callback site clerk auth_form (Some ∅) submitted_session)) /\
    TravelAuthorizationPage.click act submitted_session =
    ([frappe_call "hrms.hr.doctype.travel_advance.travel_advance.make_travel_advance"
        [("dt", Str "Travel Authorization"); ("dn", Str "TA-0001")] make_travel_advance_cb],
     Some tt).
Proof.
  exists (make_travel_advance_of auth_form).
  assert (Hin : In (add_custom_button auth_form "Advance" (make_travel_advance_of auth_form)
                      "Create")
                   (fst (TravelAuthorizationPage.refresh_callback site clerk auth_form (Some ∅) submitted_session)))
    by (left; reflexivity).
  split; [exact Hin|].
  destruct (Buttons.offered_buttons_act_on_the_authorization site clerk auth_form
              submitted_session submitted_trip ∅ _ eq_refl eq_refl eq_refl eq_refl Hin)
    as (label & act & Hb & [(_ & _ & Hclick) | [(_ & Hcan & _) | (Hl & _ & _)]]).
  - injection Hb as _ <-. exact Hclick.
  - discriminate Hcan.
  - injection Hb as <- _. discriminate Hl.
Defined.

(** The server made one claim and sent it back. *)
Lemma created_document_is_opened_witness :
  TravelAuthorizationPage.make_travel_claim_callback clerk
    (one_document {[ "doctype" := Str "Travel Claim"; "name" := Str "TC-0002" ]})
    submitted_session =
  ([model_sync (one_document {[ "doctype" := Str "Travel Claim"; "name" := Str "TC-0002" ]});
    set_route [Str "Form"; Str "Travel Claim"; Str "TC-0002"]],
   Some tt).
Proof.
  exact (proj1 (proj1 (Buttons.created_document_is_opened clerk
                         (one_document {[ "doctype" := Str "Travel Claim";
                                          "name" := Str "TC-0002" ]})
                         submitted_session)
                  {[ "doctype" := Str "Travel Claim"; "name" := Str "TC-0002" ]} []
                  eq_refl)).
Defined.

(** A booked claim: the link to JV-0001 and its status. *)
Lemma journal_entry_link_needs_an_entry_witness :
  TravelClaimPage.refresh site claim_form (claim_session booked_claim) =
  ([html claim_form "journal_entry_html"
      (Str ("<label class=" ++ dq ++ "control-label" ++ dq ++ " style=" ++ dq
            ++ "padding-right: 0px;" ++ dq ++ ">Journal Entry</label><br><b><a href=" ++ dq
            ++ "/desk/Form/Journal Entry/JV-0001" ++ dq ++ ">JV-0001</a> </b><div style="
            ++ dq ++ "font-style: italic; font-size: 0.8em; " ++ dq
            ++ ">* Submitted</div>"))],
   Some tt).
Proof.
  pose proof (Link.journal_entry_link_needs_an_entry site claim_form
                (claim_session booked_claim) booked_claim eq_refl) as H.
  cbv zeta in H. destruct H as (_ & _ & H).
  exact (H eq_refl eq_refl).
Defined.

(** The company of a USD claim is changed. *)
Lemma other_fields_fire_no_rule_witness :
  edit site 0 "Travel Claim" "TC-0001" "company" (Str "Other Co") (claim_session usd_claim) =
  Ok tt (write "Travel Claim" "TC-0001" "company" (Str "Other Co") (claim_session usd_claim)).
Proof.
  assert (Hf : ~ In ("Travel Claim", "company") registered) by (cbn; intuition discriminate).
  assert (Hrow : is_Some (locals (claim_session usd_claim) !! ("Travel Claim", "TC-0001")))
    by (eexists; reflexivity).
  exact (Quiet.other_fields_fire_no_rule site 0 "Travel Claim" "TC-0001" "company"
           (Str "Other Co") (claim_session usd_claim) Hf Hrow).
Defined.

(** The salary lookup is answered, then the rate request it led to. *)
Lemma responses_run_out_witness :
  delivers site 1 awaiting_salary 2 rate_applied /\
  weight awaiting_salary = 2 /\
  2 + weight rate_applied <= weight awaiting_salary.
Proof.
  assert (H1 : respond site 1 0 {[ "currency" := Str "USD" ]} awaiting_salary
               = Ok tt rate_requested) by (vm_compute; reflexivity).
  assert (H2 : respond site 1 0 {[ "message" := Num 83.5 ]} rate_requested
               = Ok tt rate_applied) by (vm_compute; reflexivity).
  assert (Hq1 : in_flight awaiting_salary !! 0
                = Some (salary_request claim_form (Str "EMP-0001"))) by reflexivity.
  assert (Hq2 : in_flight rate_requested !! 0
                = Some (exchange_request claim_form (Str "USD") (Str "INR")))
    by (vm_compute; reflexivity).
  assert (Hd : delivers site 1 awaiting_salary 2 rate_applied).
  { eapply delivers_one; [exact Hq1 | exact H1 |].
    eapply delivers_one; [exact Hq2 | exact H2 |].
    apply delivers_none. }
  split; [exact Hd|]. split; [reflexivity|].
  exact (proj1 (Cascade.responses_run_out site 1 awaiting_salary 2 rate_applied Hd)).
Defined.

(** [calculate] on the item of a claim: the claim itself is as it was. *)
Lemma rules_stay_in_their_documents_witness :
  exists w',
    fire site 1 "Travel Claim Item" "calculate" "row-1" mileage_session = Ok tt w' /\
    locals w' !! ("Travel Claim", "TC-0001") = locals mileage_session !! ("Travel Claim", "TC-0001").
Proof.
  exists (final mileage_session
            (fire site 1 "Travel Claim Item" "calculate" "row-1" mileage_session)).
  assert (Hrun : fire site 1 "Travel Claim Item" "calculate" "row-1" mileage_session =
                 Ok tt (final mileage_session
                          (fire site 1 "Travel Claim Item" "calculate" "row-1"
                             mileage_session)))
    by (vm_compute; reflexivity).
  split; [exact Hrun|].
  assert (Hev : In ("Travel Claim Item", "calculate") row_events)
    by (right; right; left; reflexivity).
  assert (Hk : ("Travel Claim", "TC-0001") <> ("Travel Claim Item", "row-1"))
    by discriminate.
  exact (proj1 (Locality.rules_stay_in_their_documents site 1) _ _ _ _ _ _ Hev Hrun Hk).
Defined.

End Checks.
